(** * Brand Guardian AI: the video audit pipeline

    A shallow embedding of the audit pipeline of the repository:

    - [backend/src/graph/state.py]: the [VideoAuditState] schema and the
      per-field merge rule of the graph state;
    - [backend/src/services/video_indexer.py]: [wait_for_processing],
      [extract_data], [upload_video] and the two token helpers;
    - [backend/src/graph/nodes.py]: [index_video_node] and
      [compliance_audit_node];
    - [backend/src/graph/workflow.py]: the two-node graph;
    - [backend/src/api/server.py]: the background worker
      [run_audit_background] and its database session;
    - [main.py]: [run_cli_simulation];
    - [backend/scripts/index_documents.py]: [index_docs].

    Conventions of the embedding.

    - Python values that travel through the pipeline (JSON payloads, state
      fields) are [pyval]s.  JSON numbers are integers here.  A string is a
      sequence of characters, and a character is a code point below 256 (one
      [ascii]): text with other characters is outside the embedding.
      Slices and lengths count characters, and whitespace is what
      [str.isspace] says of these characters, U+0085 and U+00A0 included.
    - A Python call either returns, raises, or never returns: [outcome].
      Only the message of an exception is kept, because the handlers of the
      pipeline use [str(e)] and nothing else.  The one statement that tells
      exceptions apart by class is the [try] of the audit node, with its
      clause for [json.JSONDecodeError]: there the script of the chat model
      says of which class its exception is.
    - Calls that leave the process (download, token requests, upload, status
      request, sleep, file removal, retrieval, generation) are answered by a
      script of canned outcomes and recorded in a trace of [event]s, threaded
      through the monad [M] together with the presence of the local media
      file.
    - Logging calls have no effect on control flow or results and are left
      out. *)

From stdpp Require Import gmap strings list fin_maps pretty.
From Stdlib Require Import ZArith Ascii String.

Local Open Scope Z_scope.
Set Warnings "-register-all,-clear-no-such-hyp".

(** ** Python values *)

Inductive pyval : Type :=
| PNone
| PBool (b : bool)
| PInt (n : Z)
| PStr (s : string)
| PList (l : list pyval)
| PDict (d : list (string * pyval)).

Inductive outcome (A : Type) : Type :=
| Ok (a : A)
| Raise (msg : string)
| Hang.
Arguments Ok {A} a.
Arguments Raise {A} msg.
Arguments Hang {A}.

#[global] Instance outcome_ret : MRet outcome := @Ok.
#[global] Instance outcome_bind : MBind outcome := λ A B k o,
  match o with
  | Ok a => k a
  | Raise msg => Raise msg
  | Hang => Hang
  end.

Module Py.

(** [bool(v)]: the truth value Python gives to [v]. *)
Definition truthy (v : pyval) : bool :=
  match v with
  | PNone => false
  | PBool b => b
  | PInt n => negb (n =? 0)
  | PStr s => negb (String.eqb s "")
  | PList l => match l with [] => false | _ => true end
  | PDict d => match d with [] => false | _ => true end
  end.

Definition type_name (v : pyval) : string :=
  match v with
  | PNone => "NoneType"
  | PBool _ => "bool"
  | PInt _ => "int"
  | PStr _ => "str"
  | PList _ => "list"
  | PDict _ => "dict"
  end.

(** The message of the [AttributeError] of [v.get]. *)
Definition no_attribute (v : pyval) (attr : string) : string :=
  "'" +:+ type_name v +:+ "' object has no attribute '" +:+ attr +:+ "'".

(** A dict keeps its items in insertion order; keys are unique, so the
    first binding is the binding. *)
Fixpoint lookup (k : string) (d : list (string * pyval)) : option pyval :=
  match d with
  | [] => None
  | (k', v) :: d' => if String.eqb k k' then Some v else lookup k d'
  end.

(** [v.get(k, dflt)] *)
Definition get (v : pyval) (k : string) (dflt : pyval) : outcome pyval :=
  match v with
  | PDict d => Ok (default dflt (lookup k d))
  | _ => Raise (no_attribute v "get")
  end.

(** [v == "s"] for a string literal. *)
Definition eq_str (v : pyval) (s : string) : bool :=
  match v with
  | PStr s' => String.eqb s' s
  | _ => false
  end.

(** [for x in v]: the items the loop visits. *)
Definition iter (v : pyval) : outcome (list pyval) :=
  match v with
  | PList l => Ok l
  | PStr s => Ok ((λ c, PStr (String c "")) <$> list_ascii_of_string s)
  | PDict d => Ok ((λ kv, PStr kv.1) <$> d)
  | _ => Raise ("'" +:+ type_name v +:+ "' object is not iterable")
  end.

(** *** Strings *)

(** [s.startswith(p)] *)
Fixpoint startswith (p s : string) : bool :=
  match p, s with
  | EmptyString, _ => true
  | String a p', String b s' => if Ascii.eqb a b then startswith p' s' else false
  | String _ _, EmptyString => false
  end.

(** [sub in s] for two strings. *)
Fixpoint contains (sub s : string) : bool :=
  if startswith sub s then true
  else match s with
       | EmptyString => false
       | String _ s' => contains sub s'
       end.

(** The text after [n] characters. *)
Fixpoint drop (n : nat) (s : string) : string :=
  match n, s with
  | O, _ => s
  | S n', String _ s' => drop n' s'
  | S _, EmptyString => EmptyString
  end.

(** [s[:n]] *)
Fixpoint take (n : nat) (s : string) : string :=
  match n, s with
  | O, _ => EmptyString
  | S n', String c s' => String c (take n' s')
  | S _, EmptyString => EmptyString
  end.

(** The text before and after the leftmost occurrence of [sub]. *)
Fixpoint split_first (sub s : string) : option (string * string) :=
  if startswith sub s then Some (EmptyString, drop (String.length sub) s)
  else match s with
       | EmptyString => None
       | String c s' =>
           match split_first sub s' with
           | Some (before, after) => Some (String c before, after)
           | None => None
           end
       end.

(** [str.isspace] on one character, which is also what [\s] matches in a
    [str] pattern: the control characters U+0009 to U+000D and U+001C to
    U+001F, the space, the next-line character U+0085 and the no-break
    space U+00A0.  These are all the whitespace characters below 256. *)
Definition is_space (c : ascii) : bool :=
  let n := nat_of_ascii c in
  ((9 <=? n)%nat && (n <=? 13)%nat) || ((28 <=? n)%nat && (n <=? 32)%nat) ||
  (n =? 133)%nat || (n =? 160)%nat.

Fixpoint lstrip (s : string) : string :=
  match s with
  | String c s' => if is_space c then lstrip s' else s
  | EmptyString => EmptyString
  end.

Definition rstrip (s : string) : string := String.rev (lstrip (String.rev s)).

(** [s.strip()] *)
Definition strip (s : string) : string := rstrip (lstrip s).

(** [sep.join(l)] for a list of strings. *)
Fixpoint join (sep : string) (l : list string) : string :=
  match l with
  | [] => ""
  | [x] => x
  | x :: l' => x +:+ sep +:+ join sep l'
  end.

(** The items of a sequence handed to [str.join], which must all be
    strings; [i] is the position of the first item. *)
Fixpoint as_strs (i : nat) (l : list pyval) : outcome (list string) :=
  match l with
  | [] => Ok []
  | PStr s :: rest => strs ← as_strs (S i) rest; Ok (s :: strs)
  | v :: _ =>
      Raise ("sequence item " +:+ pretty i +:+ ": expected str instance, "
             +:+ type_name v +:+ " found")
  end.

(** [sep.join(l)] for a list of values. *)
Definition join_values (sep : string) (l : list pyval) : outcome string :=
  strs ← as_strs 0 l; Ok (join sep strs).

(** [v[:n]] *)
Definition slice (n : nat) (v : pyval) : outcome pyval :=
  match v with
  | PStr s => Ok (PStr (take n s))
  | PList l => Ok (PList (List.firstn n l))
  | PDict _ => Raise "unhashable type: 'slice'"
  | _ => Raise ("'" +:+ type_name v +:+ "' object is not subscriptable")
  end.

(** [needle in v] for a string literal [needle]. *)
Definition has (needle : string) (v : pyval) : outcome bool :=
  match v with
  | PStr s => Ok (contains needle s)
  | PList l => Ok (existsb (λ x, eq_str x needle) l)
  | PDict d => Ok (existsb (λ kv, String.eqb kv.1 needle) d)
  | _ => Raise ("argument of type '" +:+ type_name v +:+ "' is not iterable")
  end.

(** *** Dict keys *)

Definition hashable (v : pyval) : bool :=
  match v with
  | PList _ | PDict _ => false
  | _ => true
  end.

(** Equality of two hashable values as dict keys: [True] and [1] are the
    same key, and so are [False] and [0]. *)
Definition key_eqb (a b : pyval) : bool :=
  match a, b with
  | PNone, PNone => true
  | PStr s, PStr t => String.eqb s t
  | PBool x, PBool y => Bool.eqb x y
  | PInt x, PInt y => x =? y
  | PBool x, PInt y | PInt y, PBool x => y =? (if x then 1 else 0)
  | _, _ => false
  end.

(** [dict.fromkeys] inserts the items in order; an item whose key is
    already there leaves the dict as it is. *)
Fixpoint fromkeys_go (keys l : list pyval) : outcome (list pyval) :=
  match l with
  | [] => Ok keys
  | x :: rest =>
      if hashable x then
        fromkeys_go (if existsb (key_eqb x) keys then keys else keys ++ [x]) rest
      else Raise ("unhashable type: '" +:+ type_name x +:+ "'")
  end.

(** [list(dict.fromkeys(l))] *)
Definition fromkeys (l : list pyval) : outcome (list pyval) := fromkeys_go [] l.

End Py.

(** ** Calls that leave the process *)

Inductive event : Type :=
| EvDownload (url : pyval) (output_path : string)
| EvGetToken
| EvTokenExchange
| EvOpenFile (path : string)
| EvUploadPost (video_name : pyval)
| EvPathExists (path : string)
| EvRemove (path : string)
| EvIndexGet (video_id : pyval)
| EvSleep (seconds : Z)
| EvClients
| EvSearch (region transcript_prefix : pyval) (ocr_prefix : string) (k : Z)
| EvGenerate.

(** What a run has done so far: the calls it made, oldest first, and whether
    the local media file is on disk. *)
Record world : Type := World {
  w_trace : list event;
  w_file : bool
}.

Definition M (A : Type) : Type := world → outcome A * world.

Module Eff.

Definition ret {A} (a : A) : M A := λ w, (Ok a, w).

Definition bind {A B} (m : M A) (k : A → M B) : M B :=
  λ w, match m w with
       | (Ok a, w') => k a w'
       | (Raise msg, w') => (Raise msg, w')
       | (Hang, w') => (Hang, w')
       end.

(** [raise Exception(msg)] *)
Definition raise {A} (msg : string) : M A := λ w, (Raise msg, w).

(** A call that never returns. *)
Definition hang {A} : M A := λ w, (Hang, w).

(** Lift the outcome of a pure operation or of a canned external answer. *)
Definition lift {A} (o : outcome A) : M A := λ w, (o, w).

Definition emit (e : event) : M unit :=
  λ w, (Ok (), World (w_trace w ++ [e]) (w_file w)).

(** An external call: recorded, then answered from the script. *)
Definition call {A} (e : event) (answer : outcome A) : M A :=
  bind (emit e) (λ _, lift answer).

Definition file_present : M bool := λ w, (Ok (w_file w), w).

Definition set_file (b : bool) : M unit :=
  λ w, (Ok (), World (w_trace w) b).

(** [try: body except Exception as e: handler(str(e))] *)
Definition try_except {A} (body : M A) (handler : string → M A) : M A :=
  λ w, match body w with
       | (Raise msg, w') => handler msg w'
       | r => r
       end.

Definition run {A} (m : M A) (file_before : bool) : outcome A * world :=
  m (World [] file_before).

End Eff.

#[global] Instance M_ret : MRet M := @Eff.ret.
#[global] Instance M_bind : MBind M := λ A B k m, Eff.bind m k.

(** ** backend/src/graph/state.py *)

Module State.

(** The keys [VideoAuditState] declares. *)
Definition declared : list string :=
  [ "video_url"; "video_id"; "region"; "local_file_path"; "video_metadata";
    "transcript"; "ocr_text"; "detected_brands"; "compliance_results";
    "final_status"; "final_report"; "errors" ].

(** The keys annotated with [operator.add]. *)
Definition append_only : list string := [ "compliance_results"; "errors" ].

Definition is_declared (k : string) : bool := bool_decide (k ∈ declared).
Definition is_append_only (k : string) : bool := bool_decide (k ∈ append_only).

(** The graph keeps one channel per declared key.  A key annotated with
    [operator.add] has an aggregating channel: it starts as [list()] and
    every write replaces its value [old] by [operator.add(old, new)], so it
    always holds a list.  Every other key has a last-value channel, empty
    until first written. *)
Record VideoAuditState : Type := Make {
  last_value : gmap string pyval;
  compliance_results : list pyval;
  errors : list pyval
}.

Definition empty : VideoAuditState := Make ∅ [] [].

(** The state dict a node (or the caller of [invoke]) reads. *)
Definition lookup (s : VideoAuditState) (k : string) : option pyval :=
  if String.eqb k "compliance_results" then Some (PList (compliance_results s))
  else if String.eqb k "errors" then Some (PList (errors s))
  else last_value s !! k.

(** [state.get(k, dflt)] *)
Definition get (s : VideoAuditState) (k : string) (dflt : pyval) : pyval :=
  default dflt (lookup s k).

Definition dquote : string := String (ascii_of_nat 34) "".

(** [operator.add(old, new)] where [old] is a list. *)
Definition list_add (old : list pyval) (new : pyval) : outcome (list pyval) :=
  match new with
  | PList l => Ok (old ++ l)
  | _ => Raise ("can only concatenate list (not " +:+ dquote +:+
                Py.type_name new +:+ dquote +:+ ") to list")
  end.

(** One aggregating channel: written only when the update has the key. *)
Definition write_append (old : list pyval) (new : option pyval)
  : outcome (list pyval) :=
  match new with
  | None => Ok old
  | Some v => list_add old v
  end.

Definition list_or_absent (o : option pyval) : bool :=
  match o with
  | None | Some (PList _) => true
  | Some _ => false
  end.

(** The update writes lists, if anything, to the aggregating channels. *)
Definition appendable (u : gmap string pyval) : bool :=
  list_or_absent (u !! "compliance_results") && list_or_absent (u !! "errors").

(** The writes to last-value channels: the declared keys of the update that
    are not aggregated.  Keys the schema does not declare are dropped. *)
Definition overwrites (u : gmap string pyval) : gmap string pyval :=
  filter (λ kv, is_declared kv.1 && negb (is_append_only kv.1) = true) u.

(** Apply a node's partial update to the state. *)
Definition merge (s : VideoAuditState) (u : gmap string pyval)
  : outcome VideoAuditState :=
  match write_append (compliance_results s) (u !! "compliance_results") with
  | Ok cr =>
      match write_append (errors s) (u !! "errors") with
      | Ok er => Ok (Make (overwrites u ∪ last_value s) cr er)
      | Raise msg => Raise msg
      | Hang => Hang
      end
  | Raise msg => Raise msg
  | Hang => Hang
  end.

End State.

(** ** backend/src/services/video_indexer.py *)

(** An HTTP response: the three things the code reads from it. *)
Record response : Type := Response {
  status_code : Z;
  text : string;
  json : outcome pyval
}.

(** The canned answers of one token acquisition: the credential's ARM token
    and the management API's answer to the exchange request. *)
Record token_script : Type := TokenScript {
  ts_credential : outcome pyval;
  ts_exchange : outcome response
}.

(** The canned answers of one status check of the polling loop. *)
Record check : Type := Check {
  chk_tokens : token_script;
  chk_index : outcome response
}.

(** The canned answers a [VideoIndexerService] gives during one run.
    [svc_init] is the constructor: [None] when it returns, [Some msg] when it
    raises. *)
Record service : Type := Service {
  svc_init : option string;
  svc_download : outcome unit;
  svc_upload_tokens : token_script;
  svc_open : outcome unit;
  svc_upload : outcome response;
  svc_remove : outcome unit;
  svc_checks : list check
}.

Module VideoIndexer.

(** [get_access_token]: the handler logs and re-raises. *)
Definition get_access_token (ts : token_script) : M pyval :=
  Eff.try_except
    (Eff.call EvGetToken (ts_credential ts))
    (λ msg, Eff.raise msg).

(** [get_account_token].  The ARM token goes out in the [Authorization]
    header of the request; the answer is the script's answer to the request
    that was sent, so the script stands for the service and for the token it
    was shown. *)
Definition get_account_token (ts : token_script) (arm_access_token : pyval)
  : M pyval :=
  response ← Eff.call EvTokenExchange (ts_exchange ts);
  if negb (status_code response =? 200) then
    Eff.raise ("Failed to get VI account access tokenn : response: "
               +:+ text response)
  else
    data ← Eff.lift (json response);
    Eff.lift (Py.get data "accessToken" PNone).

(** [download_youtube_video]: the handler logs and re-raises.  A download
    that returns has written the file at [output_path]. *)
Definition download_youtube_video (svc : service) (url : pyval)
    (output_path : string) : M string :=
  Eff.try_except
    (_ ← Eff.call (EvDownload url output_path) (svc_download svc);
     _ ← Eff.set_file true;
     mret output_path)
    (λ msg, Eff.raise msg).

(** [upload_video] *)
Definition upload_video (svc : service) (video_path : string)
    (video_name : pyval) : M pyval :=
  arm_token ← get_access_token (svc_upload_tokens svc);
  vi_token ← get_account_token (svc_upload_tokens svc) arm_token;
  _ ← Eff.call (EvOpenFile video_path) (svc_open svc);
  response ← Eff.call (EvUploadPost video_name) (svc_upload svc);
  if negb (status_code response =? 200) then
    Eff.raise ("Failed to upload video on Azure Video Indexer : "
               +:+ text response)
  else
    data ← Eff.lift (json response);
    Eff.lift (Py.get data "id" PNone).

(** [VideoIndexerService()] *)
Definition init (svc : service) : M unit :=
  match svc_init svc with
  | None => Eff.ret ()
  | Some msg => Eff.raise msg
  end.

(** [time.sleep(seconds)] *)
Definition sleep (seconds : Z) : M unit := Eff.emit (EvSleep seconds).

Section Polling.

(** What an f-string prints for a value. *)
Variable format : pyval → string.

Definition failed_message (video_id : pyval) : string :=
  "Video processing failed in Azure Video Indexer for video ID: "
  +:+ format video_id.

Definition quarantined_message : string :=
  "Video is quarantined in Azure Video Indexer (Copyright/Content Policy Violation)".

(** [wait_for_processing]: one turn of the [while True] loop per canned
    check.  When the script has no further check the loop is still
    running: [Hang]. *)
Fixpoint wait_for_processing (checks : list check) (video_id : pyval)
  : M pyval :=
  match checks with
  | [] => Eff.hang
  | c :: rest =>
      arm_token ← get_access_token (chk_tokens c);
      vi_token ← get_account_token (chk_tokens c) arm_token;
      response ← Eff.call (EvIndexGet video_id) (chk_index c);
      if negb (status_code response =? 200) then
        _ ← sleep 30;
        wait_for_processing rest video_id
      else
        data ← Eff.lift (json response);
        state ← Eff.lift (Py.get data "state" PNone);
        if Py.eq_str state "Processed" then mret data
        else if Py.eq_str state "Failed" then
          Eff.raise (failed_message video_id)
        else if Py.eq_str state "Quarantined" then
          Eff.raise quarantined_message
        else
          _ ← sleep 30;
          wait_for_processing rest video_id
  end.

End Polling.

(** The three accumulators [extract_data] fills. *)
Record lines : Type := Lines {
  transcripts_lines : list pyval;
  ocr_lines : list pyval;
  brands_found : list pyval
}.

(** [for item in items: if item.get(field): acc.append(item[field])] *)
Fixpoint collect (field : string) (items acc : list pyval)
  : outcome (list pyval) :=
  match items with
  | [] => Ok acc
  | item :: rest =>
      v ← Py.get item field PNone;
      collect field rest (if Py.truthy v then acc ++ [v] else acc)
  end.

(** One loop of [process_block]. *)
Definition harvest (insights : pyval) (key field : string) (acc : list pyval)
  : outcome (list pyval) :=
  block ← Py.get insights key (PList []);
  items ← Py.iter block;
  collect field items acc.

Definition process_block (insights : pyval) (acc : lines) : outcome lines :=
  tl ← harvest insights "transcript" "text" (transcripts_lines acc);
  ol ← harvest insights "ocr" "text" (ocr_lines acc);
  bl ← harvest insights "brands" "name" (brands_found acc);
  Ok (Lines tl ol bl).

(** [for v in videos: process_block(v.get("insights", {}))] *)
Fixpoint process_videos (videos : list pyval) (acc : lines) : outcome lines :=
  match videos with
  | [] => Ok acc
  | v :: rest =>
      insights ← Py.get v "insights" (PDict []);
      acc' ← process_block insights acc;
      process_videos rest acc'
  end.

(** [extract_data] *)
Definition extract_data (vi_json : pyval) : outcome (gmap string pyval) :=
  top ← Py.get vi_json "insights" (PDict []);
  acc ← process_block top (Lines [] [] []);
  videos ← Py.get vi_json "videos" (PList []);
  vs ← Py.iter videos;
  acc ← process_videos vs acc;
  transcript_keys ← Py.fromkeys (transcripts_lines acc);
  transcript ← Py.join_values " " transcript_keys;
  ocr_text ← Py.fromkeys (ocr_lines acc);
  detected_brands ← Py.fromkeys (brands_found acc);
  summarized ← Py.get vi_json "summarizedInsights" (PDict []);
  duration ← Py.get summarized "durationText" PNone;
  id ← Py.get vi_json "id" PNone;
  Ok ({[ "transcript" := PStr transcript;
         "ocr_text" := PList ocr_text;
         "detected_brands" := PList detected_brands;
         "video_metadata" :=
           PDict [ ("duration", duration); ("platform", PStr "youtube");
                   ("id", id) ] ]} : gmap string pyval).

End VideoIndexer.

(** ** backend/src/graph/nodes.py *)

(** The canned answers of the audit node's collaborators: building the three
    clients, the similarity search (the page contents of the documents it
    returns) and the chat model (the content of its response); and, for the
    case that the call of the chat model raises, whether its exception is a
    [json.JSONDecodeError]. *)
Record audit_env : Type := AuditEnv {
  env_clients : outcome unit;
  env_search : outcome (list string);
  env_generate : outcome string;
  env_decode_error : bool
}.

Module Nodes.

Definition os_path_exists (path : string) : M bool :=
  _ ← Eff.emit (EvPathExists path);
  Eff.file_present.

Definition os_remove (svc : service) (path : string) : M unit :=
  _ ← Eff.call (EvRemove path) (svc_remove svc);
  Eff.set_file false.

Definition local_filename : string := "temp_audit_video.mp4".

Definition unsupported_message : string :=
  "Unsupported video URL. Only YouTube URLs are supported in this".

(** The dict the handler of [index_video_node] returns. *)
Definition index_failure_update (msg : string) : gmap string pyval :=
  {[ "errors" := PList [PStr msg];
     "final_status" := PStr "FAIL";
     "transcript" := PStr "";
     "ocr_text" := PList [] ]}.

Definition no_content_report : string :=
  "Audit failed: No speech or text content could be extracted from this video.".

(** The dict of the early return of [compliance_audit_node]. *)
Definition no_content_update : gmap string pyval :=
  {[ "final_status" := PStr "FAIL";
     "final_report" := PStr no_content_report ]}.

(** The dict of the [json.JSONDecodeError] handler. *)
Definition parse_failure_update (content : string) : gmap string pyval :=
  {[ "errors" := PList [PStr "Failed to parse AI response. Check logs for raw output."];
     "final_status" := PStr "FAIL";
     "final_report" :=
       PStr ("AI Parsing Error. Raw output start: " +:+ Py.take 100 content +:+ "...") ]}.

(** The dict of the [except Exception] handler of the audit node. *)
Definition audit_failure_update (msg : string) : gmap string pyval :=
  {[ "errors" := PList [PStr msg];
     "final_status" := PStr "FAIL" ]}.

(** The message of the [UnboundLocalError] for a local variable that is read
    before it was assigned, in the wording of CPython 3.11 and later. *)
Definition unbound_local (name : string) : string :=
  "cannot access local variable '" +:+ name
  +:+ "' where it is not associated with a value".

Definition fence : string := "```".

(** Group 1 of the leftmost match of the pattern
    [```(?:json)?\s*(.*?)```] with [re.DOTALL]: the opening fence is the
    leftmost one, an optional [json] tag and the whitespace after it are
    skipped, and the group runs up to the next fence. *)
Definition fenced_block (content : string) : option string :=
  match Py.split_first fence content with
  | None => None
  | Some (_, opened) =>
      let tagged := if Py.startswith "json" opened then Py.drop 4 opened else opened in
      match Py.split_first fence (Py.lstrip tagged) with
      | Some (body, _) => Some body
      | None => None
      end
  end.

(** Steps 1 and 2 of the extraction: the text handed to [json.loads]. *)
Definition json_text (content : string) : string :=
  Py.strip (match fenced_block content with
            | Some body => body
            | None => content
            end).

Section WithLibraries.

(** What an f-string prints for a value. *)
Variable format : pyval → string.

(** [json.loads]; [None] stands for [json.JSONDecodeError]. *)
Variable json_loads : string → option pyval.

(** Node 1: [index_video_node] *)
Definition index_video_node (svc : service) (state : State.VideoAuditState)
  : M (gmap string pyval) :=
  let video_url := State.get state "video_url" PNone in
  let video_id_input := State.get state "video_id" (PStr "vid_demo") in
  Eff.try_except
    (vi_service ← VideoIndexer.init svc;
     on_youtube ← Eff.lift (Py.has "youtube.com" video_url);
     supported ← (if (on_youtube : bool) then Eff.ret true
                  else Eff.lift (Py.has "youtu.be" video_url));
     local_path ← (if (supported : bool)
                   then VideoIndexer.download_youtube_video svc video_url local_filename
                   else Eff.raise unsupported_message);
     azure_video_id ← VideoIndexer.upload_video svc local_path video_id_input;
     present ← os_path_exists local_path;
     _ ← (if (present : bool) then os_remove svc local_path else Eff.ret ());
     raw_insights ← VideoIndexer.wait_for_processing format (svc_checks svc) azure_video_id;
     clean_data ← Eff.lift (VideoIndexer.extract_data raw_insights);
     mret clean_data)
    (λ msg, Eff.ret (index_failure_update msg)).

(** Node 2: [compliance_audit_node], in three parts: the construction of
    the clients and the similarity search, which are outside the [try]
    statement; the [try] statement; and the node itself. *)
Definition retrieve (env : audit_env) (region transcript ocr_text : pyval)
  : M (list string) :=
  _ ← Eff.call EvClients (env_clients env);
  transcript_prefix ← Eff.lift (Py.slice 500 transcript);
  ocr_prefix ← Eff.lift (Py.slice 200 ocr_text);
  ocr_items ← Eff.lift (Py.iter ocr_prefix);
  ocr_joined ← Eff.lift (Py.join_values " " ocr_items);
  Eff.call (EvSearch region transcript_prefix ocr_joined 5) (env_search env).

(** The [except json.JSONDecodeError] clause.  It reads [response.content],
    so it needs the local [response] to be bound: when the exception came
    from the call that was to bind it, the clause itself raises, and its
    exception leaves the node. *)
Definition on_decode_error (response : option string) : M (gmap string pyval) :=
  match response with
  | Some content => Eff.ret (parse_failure_update content)
  | None => Eff.raise (unbound_local "response")
  end.

(** The [except Exception] clause. *)
Definition on_exception (msg : string) : M (gmap string pyval) :=
  Eff.ret (audit_failure_update msg).

(** The [try] statement.  An exception of the chat model goes to the clause
    of its class; [json.loads] raises a [json.JSONDecodeError], with
    [response] bound; the reads of the parsed value raise an
    [AttributeError], which goes to the generic clause. *)
Definition verdict (env : audit_env) : M (gmap string pyval) :=
  λ w,
    match Eff.call EvGenerate (env_generate env) w with
    | (Ok content, w1) =>
        match json_loads (json_text content) with
        | None => on_decode_error (Some content) w1
        | Some audit_data =>
            Eff.try_except
              (results ← Eff.lift (Py.get audit_data "compliance_results" (PList []));
               status ← Eff.lift (Py.get audit_data "status" (PStr "FAIL"));
               report ← Eff.lift (Py.get audit_data "final_report"
                                    (PStr "No Report Generated."));
               Eff.ret ({[ "compliance_results" := results;
                           "final_status" := status;
                           "final_report" := report ]} : gmap string pyval))
              on_exception w1
        end
    | (Raise msg, w1) =>
        if env_decode_error env then on_decode_error None w1
        else on_exception msg w1
    | (Hang, w1) => (Hang, w1)
    end.

Definition compliance_audit_node (env : audit_env) (state : State.VideoAuditState)
  : M (gmap string pyval) :=
  let region := State.get state "region" (PStr "Global") in
  let transcript := State.get state "transcript" (PStr "") in
  let ocr_text := State.get state "ocr_text" (PList []) in
  if negb (Py.truthy transcript) && negb (Py.truthy ocr_text) then
    Eff.ret no_content_update
  else
    docs ← retrieve env region transcript ocr_text;
    verdict env.

(** ** backend/src/graph/workflow.py *)

(** One node of the graph: it reads the state and its update is written
    to the channels. *)
Definition step (node : State.VideoAuditState → M (gmap string pyval)) (s : State.VideoAuditState)
  : M State.VideoAuditState :=
  update ← node s;
  Eff.lift (State.merge s update).

(** The graph: the indexer, then the auditor, then the end. *)
Definition pipeline (svc : service) (env : audit_env) (s0 : State.VideoAuditState)
  : M State.VideoAuditState :=
  s1 ← step (index_video_node svc) s0;
  step (compliance_audit_node env) s1.

(** [app.invoke(input)]: the input is written to the channels and the
    graph runs. *)
Definition invoke (svc : service) (env : audit_env)
    (input : gmap string pyval) : M State.VideoAuditState :=
  s0 ← Eff.lift (State.merge State.empty input);
  pipeline svc env s0.

End WithLibraries.

End Nodes.

(** ** Vocabulary of the statements *)

(** What the merge rule promises about the state [s'] obtained from [s] by
    the update [u]: aggregated keys are extended in order and keep what they
    had, every other declared key of the update is overwritten, and a key the
    update does not have is left as it was. *)
Definition follows_merge_rule (s : State.VideoAuditState) (u : gmap string pyval)
    (s' : State.VideoAuditState) : Prop :=
  (∀ k old new,
      k ∈ State.append_only →
      State.lookup s k = Some (PList old) → u !! k = Some (PList new) →
      State.lookup s' k = Some (PList (old ++ new))) ∧
  State.compliance_results s `prefix_of` State.compliance_results s' ∧
  State.errors s `prefix_of` State.errors s' ∧
  (∀ k v,
      k ∈ State.declared → k ∉ State.append_only → u !! k = Some v →
      State.lookup s' k = Some v) ∧
  (∀ k, u !! k = None → State.lookup s' k = State.lookup s k).

(** The dict the audit node returns when the response parsed to the JSON
    object [obj]. *)
Definition parsed_update (obj : list (string * pyval)) : gmap string pyval :=
  {[ "compliance_results" := default (PList []) (Py.lookup "compliance_results" obj);
     "final_status" := default (PStr "FAIL") (Py.lookup "status" obj);
     "final_report" := default (PStr "No Report Generated.") (Py.lookup "final_report" obj) ]}.

(** The state has no content to audit: [not transcript and not ocr_text]. *)
Definition no_content (s : State.VideoAuditState) : bool :=
  negb (Py.truthy (State.get s "transcript" (PStr ""))) &&
  negb (Py.truthy (State.get s "ocr_text" (PList []))).

(** The world after one more call. *)
Definition after (w : world) (calls : list event) : world :=
  World (w_trace w ++ calls) (w_file w).

(** The calls of one status check. *)
Definition check_calls (video_id : pyval) : list event :=
  [EvGetToken; EvTokenExchange; EvIndexGet video_id].

(** What the exchange of the ARM token for an account token comes to: the
    [accessToken] of an HTTP 200 answer that is a JSON object. *)
Definition exchange_result (ts : token_script) : outcome pyval :=
  match ts_exchange ts with
  | Ok r =>
      if negb (status_code r =? 200) then
        Raise ("Failed to get VI account access tokenn : response: " +:+ text r)
      else data ← json r; Py.get data "accessToken" PNone
  | Raise msg => Raise msg
  | Hang => Hang
  end.

(** The token acquisition of a check works: the credential returns a token
    and the exchange returns one too. *)
Definition tokens_ok (ts : token_script) : bool :=
  match ts_credential ts, exchange_result ts with
  | Ok _, Ok _ => true
  | _, _ => false
  end.

(** The HTTP response the status request of a check gets, when the calls of
    the check all return. *)
Definition answered (c : check) : option response :=
  if tokens_ok (chk_tokens c) then
    match chk_index c with
    | Ok r => Some r
    | _ => None
    end
  else None.

(** The index document and the state a check reports: the body of an HTTP
    200 answer that is a JSON object, and its [state] field. *)
Definition reported (c : check) : option (pyval * pyval) :=
  match answered c with
  | Some r =>
      if status_code r =? 200 then
        match json r with
        | Ok (PDict d) => Some (PDict d, default PNone (Py.lookup "state" d))
        | _ => None
        end
      else None
  | None => None
  end.

(** A reported state that ends the polling. *)
Definition terminal (state : pyval) : bool :=
  Py.eq_str state "Processed" || Py.eq_str state "Failed" ||
  Py.eq_str state "Quarantined".

(** The check is answered, but not with HTTP 200. *)
Definition http_failure (c : check) : bool :=
  match answered c with
  | Some r => negb (status_code r =? 200)
  | None => false
  end.

(** The check reports a state that does not end the polling. *)
Definition in_progress (c : check) : bool :=
  match reported c with
  | Some (_, state) => negb (terminal state)
  | None => false
  end.

(** The check is retried: it is answered with an HTTP failure, or it reports
    a state that does not end the polling. *)
Definition transient (c : check) : bool := http_failure c || in_progress c.

(** The calls of [n] checks that were retried: each is followed by the
    30-second wait. *)
Fixpoint retry_calls (video_id : pyval) (n : nat) : list event :=
  match n with
  | O => []
  | S n' => check_calls video_id ++ [EvSleep 30] ++ retry_calls video_id n'
  end.

(** The calls of a submission that reaches the analysis service. *)
Definition upload_calls (video_path : string) (video_name : pyval) : list event :=
  [EvGetToken; EvTokenExchange; EvOpenFile video_path; EvUploadPost video_name].

(** The exception the calls of a check end in, if any: raised by the
    credential, by the token exchange, by the status request, or by reading
    an HTTP 200 answer that is not a JSON object. *)
Definition check_exception (c : check) : option string :=
  match ts_credential (chk_tokens c) with
  | Raise msg => Some msg
  | Ok _ =>
      match exchange_result (chk_tokens c) with
      | Raise msg => Some msg
      | Ok _ =>
          match chk_index c with
          | Raise msg => Some msg
          | Ok r =>
              if status_code r =? 200 then
                match data ← json r; Py.get data "state" PNone with
                | Raise msg => Some msg
                | _ => None
                end
              else None
          | Hang => None
          end
      | Hang => None
      end
  | Hang => None
  end.

(** The validation of the indexer:
    ["youtube.com" in video_url or "youtu.be" in video_url]. *)
Definition supported (video_url : pyval) : outcome bool :=
  on_youtube ← Py.has "youtube.com" video_url;
  if (on_youtube : bool) then Ok true else Py.has "youtu.be" video_url.

(** The statements of the indexer after the removal of the local file:
    polling and extraction. *)
Definition poll_and_extract (format : pyval → string) (svc : service)
    (azure_video_id : pyval) : M (gmap string pyval) :=
  raw_insights ← VideoIndexer.wait_for_processing format (svc_checks svc) azure_video_id;
  clean_data ← Eff.lift (VideoIndexer.extract_data raw_insights);
  mret clean_data.

(** The statements of the indexer after the upload. *)
Definition release_and_poll (format : pyval → string) (svc : service)
    (azure_video_id : pyval) : M (gmap string pyval) :=
  present ← Nodes.os_path_exists Nodes.local_filename;
  _ ← (if (present : bool) then Nodes.os_remove svc Nodes.local_filename
       else Eff.ret ());
  poll_and_extract format svc azure_video_id.

(** The statements of the indexer after the download. *)
Definition submit_and_poll (format : pyval → string) (svc : service)
    (video_name : pyval) : M (gmap string pyval) :=
  azure_video_id ← VideoIndexer.upload_video svc Nodes.local_filename video_name;
  release_and_poll format svc azure_video_id.

(** What the handler of the indexer makes of the outcome of its body. *)
Definition handled (r : outcome (gmap string pyval) * world)
  : outcome (gmap string pyval) * world :=
  match r with
  | (Raise msg, w) => (Ok (Nodes.index_failure_update msg), w)
  | _ => r
  end.

(** The world once the download has returned. *)
Definition downloaded (w : world) (video_url : pyval) : world :=
  World (w_trace w ++ [EvDownload video_url Nodes.local_filename]) true.

(** A computation that only makes calls: whatever its outcome, it leaves the
    world with more calls in the trace and the local file as it was. *)
Definition only_calls {A} (m : M A) : Prop :=
  ∀ w r w', m w = (r, w') → ∃ calls, w' = after w calls.

(** A computation that never takes a call back: whatever its outcome, the
    trace it leaves starts with the trace it found. *)
Definition extends_trace {A} (m : M A) : Prop :=
  ∀ w r w', m w = (r, w') → ∃ calls, w_trace w' = w_trace w ++ calls.

(** *** The extractor, in the words of the specification *)

(** Order-preserving deduplication: every line is kept at its first
    occurrence and dropped at the later ones.  Lines are compared as they
    are, so two lines that differ in case are different lines. *)
Fixpoint first_occurrences (l : list string) : list string :=
  match l with
  | [] => []
  | x :: l' => x :: filter (λ y, y ≠ x) (first_occurrences l')
  end.

(** The text of an item under [field], when it is a non-empty string. *)
Definition text_of (field : string) (item : pyval) : option string :=
  match item with
  | PDict d =>
      match Py.lookup field d with
      | Some (PStr t) => if String.eqb t "" then None else Some t
      | _ => None
      end
  | _ => None
  end.

(** The non-empty texts of a list of items, in order. *)
Definition texts (field : string) (items : list pyval) : list string :=
  omap (text_of field) items.

(** The insights block of the raw result or of one of its videos; an empty
    block when there is none. *)
Definition insights_of (holder : pyval) : pyval :=
  match holder with
  | PDict d => default (PDict []) (Py.lookup "insights" d)
  | _ => PDict []
  end.

(** The texts an insights block holds under [key]. *)
Definition block_texts (key field : string) (block : pyval) : list string :=
  match block with
  | PDict d =>
      match Py.lookup key d with
      | Some (PList items) => texts field items
      | _ => []
      end
  | _ => []
  end.

Definition videos_of (raw : pyval) : list pyval :=
  match raw with
  | PDict d =>
      match Py.lookup "videos" d with
      | Some (PList videos) => videos
      | _ => []
      end
  | _ => []
  end.

(** Everything harvested under [key]: the top-level insights first, then the
    insights of every video, in order. *)
Definition all_texts (key field : string) (raw : pyval) : list string :=
  block_texts key field (insights_of raw) ++
  List.concat (List.map (λ v, block_texts key field (insights_of v)) (videos_of raw)).

Definition metadata_of (raw : pyval) : pyval :=
  match raw with
  | PDict d =>
      PDict [ ("duration",
                match Py.lookup "summarizedInsights" d with
                | Some (PDict summarized) =>
                    default PNone (Py.lookup "durationText" summarized)
                | _ => PNone
                end);
              ("platform", PStr "youtube");
              ("id", default PNone (Py.lookup "id" d)) ]
  | _ => PNone
  end.

(** The record the specification asks of the extractor. *)
Definition extracted (raw : pyval) : gmap string pyval :=
  {[ "transcript" :=
       PStr (Py.join " " (first_occurrences (all_texts "transcript" "text" raw)));
     "ocr_text" := PList (PStr <$> first_occurrences (all_texts "ocr" "text" raw));
     "detected_brands" :=
       PList (PStr <$> first_occurrences (all_texts "brands" "name" raw));
     "video_metadata" := metadata_of raw ]}.

(** *** Well-formed analysis results

    The shape the analysis service documents: JSON objects for the result,
    its videos and their insights; lists of JSON objects under [transcript],
    [ocr] and [brands]; a string, [null] or nothing under [text] and
    [name]. *)

Definition item_ok (field : string) (item : pyval) : bool :=
  match item with
  | PDict d =>
      match Py.lookup field d with
      | None | Some PNone | Some (PStr _) => true
      | Some _ => false
      end
  | _ => false
  end.

Definition items_ok (field : string) (o : option pyval) : bool :=
  match o with
  | None => true
  | Some (PList items) => forallb (item_ok field) items
  | Some _ => false
  end.

Definition block_ok (block : pyval) : bool :=
  match block with
  | PDict d =>
      items_ok "text" (Py.lookup "transcript" d) &&
      items_ok "text" (Py.lookup "ocr" d) &&
      items_ok "name" (Py.lookup "brands" d)
  | _ => false
  end.

Definition holder_ok (holder : pyval) : bool :=
  match holder with
  | PDict _ => block_ok (insights_of holder)
  | _ => false
  end.

Definition well_formed (raw : pyval) : bool :=
  match raw with
  | PDict d =>
      holder_ok raw &&
      match Py.lookup "videos" d with
      | None => true
      | Some (PList videos) => forallb holder_ok videos
      | Some _ => false
      end &&
      match Py.lookup "summarizedInsights" d with
      | None | Some (PDict _) => true
      | Some _ => false
      end
  | _ => false
  end.

(** ** Sample runs

    Concrete scripts, states and library functions on which the statements
    below are exercised. *)

Module Sample.

(** An f-string on the values the samples print. *)
Definition format (v : pyval) : string :=
  match v with
  | PStr s => s
  | PNone => "None"
  | _ => "<value>"
  end.

Definition quoted (s : string) : string := State.dquote +:+ s +:+ State.dquote.

(** The JSON text of the spec's fenced-response example. *)
Definition pass_json : string :=
  "{" +:+ quoted "status" +:+ ":" +:+ quoted "PASS" +:+ "," +:+
  quoted "compliance_results" +:+ ":[]," +:+
  quoted "final_report" +:+ ":" +:+ quoted "ok" +:+ "}".

Definition pass_object : list (string * pyval) :=
  [ ("status", PStr "PASS"); ("compliance_results", PList []);
    ("final_report", PStr "ok") ].

(** A JSON object whose status is neither PASS nor FAIL. *)
Definition review_json : string :=
  "{" +:+ quoted "status" +:+ ":" +:+ quoted "NEEDS_REVIEW" +:+ "}".

Definition review_object : list (string * pyval) :=
  [ ("status", PStr "NEEDS_REVIEW") ].

(** [json.loads] on the texts of the samples; any other text of the
    samples is not JSON. *)
Definition json_loads (text : string) : option pyval :=
  if String.eqb text pass_json then Some (PDict pass_object)
  else if String.eqb text review_json then Some (PDict review_object)
  else None.

(** The no-break space U+00A0 and the next-line character U+0085. *)
Definition nbsp : string := String (ascii_of_nat 160) "".

Definition next_line : string := String (ascii_of_nat 133) "".

Definition fenced (body : string) : string :=
  "```json" +:+ String (ascii_of_nat 10) body +:+ String (ascii_of_nat 10) "```".

(** A token acquisition that works. *)
Definition tokens : token_script :=
  TokenScript (Ok (PStr "arm-token"))
              (Ok (Response 200 "" (Ok (PDict [("accessToken", PStr "vi-token")])))).

(** A status check answered with HTTP 200 and the given index document. *)
Definition answer (data : pyval) : check :=
  Check tokens (Ok (Response 200 "" (Ok data))).

Definition reporting (state : string) : pyval :=
  PDict [("state", PStr state)].

(** A check whose credential raises. *)
Definition token_failure : check :=
  Check (TokenScript (Raise "DefaultAzureCredential failed to retrieve a token")
                     (ts_exchange tokens))
        (Ok (Response 200 "" (Ok (reporting "Processing")))).

(** A check whose status request raises. *)
Definition request_failure : check :=
  Check tokens (Raise "Connection aborted.").

(** A check answered with HTTP 503. *)
Definition unavailable : check :=
  Check tokens (Ok (Response 503 "Service Unavailable" (Raise "Expecting value"))).

Definition line (field text : string) : pyval := PDict [(field, PStr text)].

Definition items (field : string) (texts : list string) : pyval :=
  PList (List.map (line field) texts).

(** An index document whose spoken lines repeat. *)
Definition processed : pyval :=
  PDict [ ("state", PStr "Processed");
          ("id", PStr "vi-42");
          ("insights",
            PDict [("transcript", items "text" ["A"; "B"; "A"])]);
          ("videos",
            PList [PDict [("insights",
              PDict [("transcript", items "text" ["C"; "B"; ""]);
                     ("ocr", items "text" ["SALE"; "SALE"]);
                     ("brands", items "name" ["Acme"])])]]) ].

(** The answer of the analysis service to an upload that works. *)
Definition uploaded : outcome response :=
  Ok (Response 200 "" (Ok (PDict [("id", PStr "vi-42")]))).

(** A service whose constructor, download and tokens work, with the given
    answers to the upload, to the removal of the local file and to the
    status checks. *)
Definition service_with (upload : outcome response) (remove : outcome unit)
    (checks : list check) : service :=
  Service None (Ok ()) tokens (Ok ()) upload remove checks.

(** A service for which every call works and the first check reports
    [Processed]. *)
Definition service_ok : service :=
  service_with uploaded (Ok ()) [answer processed].

Definition input (url : string) : gmap string pyval :=
  {[ "video_url" := PStr url;
     "video_id" := PStr "vid_1a2b3c4d";
     "region" := PStr "Global";
     "detected_brands" := PList [];
     "compliance_results" := PList [];
     "errors" := PList [] ]}.

(** The state the graph starts from for [input url]. *)
Definition initial (url : string) : State.VideoAuditState :=
  State.Make
    {[ "video_url" := PStr url;
       "video_id" := PStr "vid_1a2b3c4d";
       "region" := PStr "Global";
       "detected_brands" := PList [] ]} [] [].

(** A state with content to audit. *)
Definition indexed : State.VideoAuditState :=
  State.Make
    {[ "video_url" := PStr "https://youtu.be/abc";
       "region" := PStr "Global";
       "transcript" := PStr "A B C";
       "ocr_text" := PList [PStr "SALE"] ]} [] [].

(** Collaborators of the audit node: retrieval works, and the chat model
    answers as given. *)
Definition audit_env_with (generated : outcome string) : audit_env :=
  AuditEnv (Ok ()) (Ok ["Rule 1"; "Rule 2"]) generated false.

Definition start : world := World [] false.

End Sample.

(** ** backend/src/api/server.py *)

Module Server.

(** The columns of an [AuditRecord] that the background worker reads and
    writes; [PNone] is SQL [NULL]. *)
Record AuditRecord : Type := Row {
  video_url : string;
  video_id : pyval;
  status : string;
  region : pyval;
  final_status : pyval;
  final_report : pyval;
  compliance_results : pyval;
  errors : pyval
}.

(** The dict [run_audit_background] hands to the graph. *)
Definition initial_inputs (video_id_short video_url region : string)
  : gmap string pyval :=
  {[ "video_url" := PStr video_url;
     "video_id" := PStr video_id_short;
     "region" := PStr region;
     "detected_brands" := PList [];
     "compliance_results" := PList [];
     "errors" := PList [] ]}.

(** [record.status = "PROCESSING"] *)
Definition processing (record : AuditRecord) : AuditRecord :=
  Row (video_url record) (video_id record) "PROCESSING" (region record)
      (final_status record) (final_report record) (compliance_results record)
      (errors record).

(** The assignments after the graph has returned [final_state]. *)
Definition completed (final_state : State.VideoAuditState) (record : AuditRecord)
  : AuditRecord :=
  Row (video_url record)
      (State.get final_state "video_id" PNone)
      "COMPLETED"
      (region record)
      (State.get final_state "final_status" (PStr "UNKNOWN"))
      (State.get final_state "final_report" (PStr "No report Generated"))
      (State.get final_state "compliance_results" (PList []))
      (State.get final_state "errors" (PList [])).

(** The assignments of the [except] clause. *)
Definition failed (msg : string) (record : AuditRecord) : AuditRecord :=
  Row (video_url record) (video_id record) "FAILED" (region record)
      (final_status record) (final_report record) (compliance_results record)
      (PList [PStr msg]).

(** The answers of the database session of one run of the worker.  The
    worker opens a session, looks up the row of its task and commits it at
    three places: at the start (status [PROCESSING]), after the graph has
    returned (status [COMPLETED] and the verdict) and in the [except] clause
    (status [FAILED]); at the end it closes the session.  A query returns or
    raises.  A commit is answered knowing the row that is flushed, so that
    it can refuse a value a column does not take. *)
Record session : Type := Session {
  open_session : outcome unit;
  query_processing : outcome unit;
  commit_processing : AuditRecord → outcome unit;
  query_completed : outcome unit;
  commit_completed : AuditRecord → outcome unit;
  query_failed : outcome unit;
  commit_failed : AuditRecord → outcome unit;
  close : outcome unit
}.

(** [record = db.query(AuditRecord).filter(AuditRecord.id == task_id).first()]
    followed by [if record: <assignments>; db.commit()].  The table holds
    what was committed: a commit that does not return writes nothing, and
    nothing is committed when the row is missing. *)
Definition update_row (query : outcome unit) (commit : AuditRecord → outcome unit)
    (assign : AuditRecord → AuditRecord) (task_id : string)
    (db : gmap string AuditRecord) : outcome unit * gmap string AuditRecord :=
  match query with
  | Ok _ =>
      match db !! task_id with
      | Some record =>
          match commit (assign record) with
          | Ok _ => (Ok (), <[task_id := assign record]> db)
          | Raise msg => (Raise msg, db)
          | Hang => (Hang, db)
          end
      | None => (Ok (), db)
      end
  | Raise msg => (Raise msg, db)
  | Hang => (Hang, db)
  end.

Section WithLibraries.

(** What an f-string prints for a value. *)
Variable format : pyval → string.

(** [json.loads]; [None] stands for [json.JSONDecodeError]. *)
Variable json_loads : string → option pyval.

(** The [try] block of [run_audit_background]: its outcome, the table and
    the world it leaves. *)
Definition attempt (ses : session) (svc : service) (env : audit_env)
    (task_id video_url region : string) (db : gmap string AuditRecord) (w : world)
  : outcome unit * gmap string AuditRecord * world :=
  match update_row (query_processing ses) (commit_processing ses) processing
          task_id db with
  | (Ok _, db1) =>
      let video_id_short := "vid_" +:+ Py.take 8 task_id in
      match Nodes.invoke format json_loads svc env
              (initial_inputs video_id_short video_url region) w with
      | (Ok final_state, w1) =>
          (update_row (query_completed ses) (commit_completed ses)
             (completed final_state) task_id db1, w1)
      | (Raise msg, w1) => (Raise msg, db1, w1)
      | (Hang, w1) => (Hang, db1, w1)
      end
  | (Raise msg, db1) => (Raise msg, db1, w)
  | (Hang, db1) => (Hang, db1, w)
  end.

(** The [except Exception] clause: it queries and commits too, and what it
    raises leaves the function. *)
Definition handler (ses : session) (task_id : string)
    (tried : outcome unit * gmap string AuditRecord * world)
  : outcome unit * gmap string AuditRecord * world :=
  match tried with
  | (Raise msg, db, w) =>
      (update_row (query_failed ses) (commit_failed ses) (failed msg) task_id db, w)
  | _ => tried
  end.

(** The [finally] clause: [db.close()], whose exception replaces the
    outcome so far. *)
Definition finally (ses : session)
    (handled : outcome unit * gmap string AuditRecord * world)
  : outcome unit * gmap string AuditRecord * world :=
  match handled with
  | (Hang, db, w) => handled
  | (_, db, w) =>
      match close ses with
      | Ok _ => handled
      | Raise msg => (Raise msg, db, w)
      | Hang => (Hang, db, w)
      end
  end.

(** [run_audit_background] on the table of audit records: what it comes to,
    the table it leaves, and the world.  [SessionLocal()] is called before
    the [try] statement, so its exception is not handled. *)
Definition run_audit_background (ses : session) (svc : service) (env : audit_env)
    (task_id video_url region : string) (db : gmap string AuditRecord) (w : world)
  : outcome unit * gmap string AuditRecord * world :=
  match open_session ses with
  | Ok _ =>
      finally ses
        (handler ses task_id (attempt ses svc env task_id video_url region db w))
  | Raise msg => (Raise msg, db, w)
  | Hang => (Hang, db, w)
  end.

End WithLibraries.

End Server.

(** ** main.py *)

Module Main.

(** The dict [run_cli_simulation] hands to the graph: the video URL is the
    empty string. *)
Definition initial_inputs (session_id : string) : gmap string pyval :=
  {[ "video_url" := PStr "";
     "video_id" := PStr ("vid_" +:+ Py.take 8 session_id);
     "compliance_results" := PList [];
     "errors" := PList [] ]}.

(** [run_cli_simulation], up to its prints: the final state of the graph; the
    handler logs and re-raises. *)
Definition run_cli_simulation (format : pyval → string)
    (json_loads : string → option pyval) (svc : service) (env : audit_env)
    (session_id : string) : M State.VideoAuditState :=
  Eff.try_except
    (Nodes.invoke format json_loads svc env (initial_inputs session_id))
    (λ msg, Eff.raise msg).

End Main.

(** ** backend/scripts/index_documents.py *)

Module IndexDocuments.

(** A LangChain document: its text and its metadata dict. *)
Record Document : Type := Doc {
  page_content : string;
  metadata : gmap string pyval
}.

(** The calls of the script that leave the process. *)
Inductive call : Type :=
| Embeddings
| VectorStore
| LoadPdf (doc_path : string)
| LoadText (doc_path : string)
| AddDocuments (documents : list Document).

(** The surroundings of one run of the script: the environment variables,
    the construction of the two clients, the files [glob] finds, what the
    loader of a file returns, and the answer to the upload. *)
Record script : Type := Script {
  getenv : string → option string;
  embeddings : outcome unit;
  vector_store : outcome unit;
  pdf_files : list string;
  txt_files : list string;
  load : string → outcome (list Document);
  add_documents : outcome unit
}.

Definition required_vars : list string :=
  [ "AZURE_OPENAI_ENDPOINT"; "AZURE_OPENAI_API_KEY"; "AZURE_SEARCH_ENDPOINT";
    "AZURE_SEARCH_INDEX_NAME"; "AZURE_SEARCH_API_KEY" ].

(** [not os.getenv(var)]: the variable is unset or empty. *)
Definition unset (sc : script) (var : string) : bool :=
  match getenv sc var with
  | None => true
  | Some value => String.eqb value ""
  end.

Definition missing_vars (sc : script) : list string :=
  List.filter (unset sc) required_vars.

(** [s.endswith(suffix)] *)
Definition endswith (suffix s : string) : bool :=
  Py.startswith (String.rev suffix) (String.rev s).

(** [os.path.basename(path)] on a POSIX path: the text after the last
    slash. *)
Fixpoint basename (path : string) : string :=
  match path with
  | EmptyString => EmptyString
  | String c rest =>
      if Py.contains "/" rest then basename rest
      else if Ascii.eqb c "/" then rest
      else path
  end.

(** [split.metadata["source"] = source] *)
Definition with_source (source : string) (split : Document) : Document :=
  Doc (page_content split) (<["source" := PStr source]> (metadata split)).

Section WithSplitter.

(** [RecursiveCharacterTextSplitter(chunk_size=1000,
    chunk_overlap=200).split_documents] *)
Variable split_documents : list Document → list Document.

(** The loop over [all_files]: the chunks gathered so far and the calls made
    so far go in, and come out extended.  An exception while loading a file
    is logged and the loop goes on. *)
Fixpoint process_files (sc : script) (files : list string)
    (all_splits : list Document) (calls : list call)
  : outcome (list Document) * list call :=
  match files with
  | [] => (Ok all_splits, calls)
  | doc_path :: rest =>
      let gathered raw_docs :=
        all_splits ++
        List.map (with_source (basename doc_path)) (split_documents raw_docs) in
      if endswith ".pdf" doc_path then
        match load sc doc_path with
        | Ok raw_docs =>
            process_files sc rest (gathered raw_docs) (calls ++ [LoadPdf doc_path])
        | Raise _ => process_files sc rest all_splits (calls ++ [LoadPdf doc_path])
        | Hang => (Hang, calls ++ [LoadPdf doc_path])
        end
      else if endswith ".txt" doc_path then
        match load sc doc_path with
        | Ok raw_docs =>
            process_files sc rest (gathered raw_docs) (calls ++ [LoadText doc_path])
        | Raise _ => process_files sc rest all_splits (calls ++ [LoadText doc_path])
        | Hang => (Hang, calls ++ [LoadText doc_path])
        end
      else process_files sc rest all_splits calls
  end.

(** [index_docs]: its outcome and the calls it made, oldest first. *)
Definition index_docs (sc : script) : outcome unit * list call :=
  match missing_vars sc with
  | _ :: _ => (Ok (), [])
  | [] =>
      match embeddings sc with
      | Raise _ => (Ok (), [Embeddings])
      | Hang => (Hang, [Embeddings])
      | Ok _ =>
          match vector_store sc with
          | Raise _ => (Ok (), [Embeddings; VectorStore])
          | Hang => (Hang, [Embeddings; VectorStore])
          | Ok _ =>
              let all_files := pdf_files sc ++ txt_files sc in
              match process_files sc all_files [] [Embeddings; VectorStore] with
              | (Ok all_splits, calls) =>
                  match all_splits with
                  | [] => (Ok (), calls)
                  | _ :: _ =>
                      match add_documents sc with
                      | Hang => (Hang, calls ++ [AddDocuments all_splits])
                      | _ => (Ok (), calls ++ [AddDocuments all_splits])
                      end
                  end
              | (Raise msg, calls) => (Raise msg, calls)
              | (Hang, calls) => (Hang, calls)
              end
          end
      end
  end.

End WithSplitter.

End IndexDocuments.

(** ** Vocabulary of the further statements *)

(** The text has no backtick, so no fence starts or ends in it. *)
Fixpoint no_backtick (s : string) : bool :=
  match s with
  | EmptyString => true
  | String c s' => negb (Ascii.eqb c "`") && no_backtick s'
  end.

(** The value is a JSON object. *)
Definition is_object (v : pyval) : bool :=
  match v with
  | PDict _ => true
  | _ => false
  end.

(** The value is a list. *)
Definition is_list (v : pyval) : bool :=
  match v with
  | PList _ => true
  | _ => false
  end.

(** The audit node's view of a state that indexing has filled in: the
    transcript is a string and the on-screen text a list of strings. *)
Definition content_typed (s : State.VideoAuditState) (transcript : string)
    (ocr_text : list string) : Prop :=
  State.lookup s "transcript" = Some (PStr transcript) ∧
  State.lookup s "ocr_text" = Some (PList (PStr <$> ocr_text)).

(** The calls of the retrieval part of the audit node on such a state. *)
Definition retrieval_calls (region : pyval) (transcript : string)
    (ocr_text : list string) : list event :=
  [ EvClients;
    EvSearch region (PStr (Py.take 500 transcript))
      (Py.join " " (List.firstn 200 ocr_text)) 5 ].

(** The chunks the knowledge-base script gathers from a list of files: for
    every file with a [.pdf] or [.txt] suffix whose loader returns, in order,
    the chunks of its documents, each tagged with the base name of the
    file. *)
Definition gathered (split_documents : list IndexDocuments.Document →
                                       list IndexDocuments.Document)
    (sc : IndexDocuments.script) (files : list string)
  : list IndexDocuments.Document :=
  List.concat
    (List.map
       (λ doc_path,
          if IndexDocuments.endswith ".pdf" doc_path
             || IndexDocuments.endswith ".txt" doc_path
          then
            match IndexDocuments.load sc doc_path with
            | Ok raw_docs =>
                List.map (IndexDocuments.with_source (IndexDocuments.basename doc_path))
                         (split_documents raw_docs)
            | _ => []
            end
          else [])
       files).

(** The loader calls of the knowledge-base script on a list of files: one
    per file with a [.pdf] or [.txt] suffix, in order. *)
Definition load_calls (files : list string) : list IndexDocuments.call :=
  List.concat
    (List.map
       (λ doc_path,
          if IndexDocuments.endswith ".pdf" doc_path
          then [IndexDocuments.LoadPdf doc_path]
          else if IndexDocuments.endswith ".txt" doc_path
          then [IndexDocuments.LoadText doc_path]
          else [])
       files).

(** The call is an upload to the search index. *)
Definition is_upload (c : IndexDocuments.call) : bool :=
  match c with
  | IndexDocuments.AddDocuments _ => true
  | _ => false
  end.

(** The table [db'] differs from [db] at most in the row of [task_id]: no
    other row has changed, no row was added or removed, and the row of the
    task, if there is one, has kept its URL and its region. *)
Definition only_task_row (task_id : string)
    (db db' : gmap string Server.AuditRecord) : Prop :=
  (∀ other, other ≠ task_id → db' !! other = db !! other) ∧
  (db !! task_id = None → db' = db) ∧
  (∀ record,
      db !! task_id = Some record →
      ∃ record',
        db' !! task_id = Some record' ∧
        Server.video_url record' = Server.video_url record ∧
        Server.region record' = Server.region record).

(** The session opens, and its calls in the [try] block and in the
    [finally] clause of the worker return, on a run that takes the row
    [record] to the row [stored]. *)
Definition session_commits (ses : Server.session)
    (record stored : Server.AuditRecord) : Prop :=
  Server.open_session ses = Ok () ∧
  Server.query_processing ses = Ok () ∧
  Server.commit_processing ses (Server.processing record) = Ok () ∧
  Server.query_completed ses = Ok () ∧
  Server.commit_completed ses stored = Ok () ∧
  Server.close ses = Ok ().

(** ** Further sample runs *)

Module Scenario.

(** A row as the [/audit] endpoint creates it. *)
Definition pending (url : string) : Server.AuditRecord :=
  Server.Row url PNone "PENDING" (PStr "Global") PNone PNone (PList []) (PList []).

Definition task : string := "1a2b3c4d-0000-4000-8000-000000000000".

Definition table (url : string) : gmap string Server.AuditRecord :=
  {[ task := pending url ]}.

(** A session whose calls all return. *)
Definition reliable : Server.session :=
  Server.Session (Ok ()) (Ok ()) (λ _, Ok ()) (Ok ()) (λ _, Ok ()) (Ok ()) (λ _, Ok ())
    (Ok ()).

(** A session that refuses to commit a final status that is not a string;
    after the refusal its next query raises, as a session does that was not
    rolled back. *)
Definition strict : Server.session :=
  Server.Session (Ok ()) (Ok ()) (λ _, Ok ()) (Ok ())
    (λ row, match Server.final_status row with
            | PStr _ => Ok ()
            | _ => Raise "Error binding parameter 5: type 'dict' is not supported"
            end)
    (Raise "This Session's transaction has been rolled back due to a previous exception during flush.")
    (λ _, Ok ()) (Ok ()).

(** A splitter that cuts nothing. *)
Definition whole (docs : list IndexDocuments.Document) : list IndexDocuments.Document :=
  docs.

Definition configured (var : string) : option string := Some "set".

(** A data folder with one PDF that loads, one PDF that does not, and one
    text file that loads. *)
Definition folder : IndexDocuments.script :=
  IndexDocuments.Script configured (Ok ()) (Ok ())
    ["data/rules.pdf"; "data/broken.pdf"] ["data/notes.txt"]
    (λ doc_path,
       if String.eqb doc_path "data/rules.pdf" then
         Ok [IndexDocuments.Doc "Rule 1" ∅; IndexDocuments.Doc "Rule 2" ∅]
       else if String.eqb doc_path "data/notes.txt" then
         Ok [IndexDocuments.Doc "Note" ∅]
       else Raise "EOF marker not found")
    (Ok ()).

End Scenario.

(** * Properties *)

(** ** The state accumulator *)

Section Merge.

Implicit Types (s : State.VideoAuditState) (u : gmap string pyval) (k : string).

Lemma overwrites_lookup u k :
  State.overwrites u !! k =
    if State.is_declared k && negb (State.is_append_only k) then u !! k else None.
Proof.
  unfold State.overwrites.
  destruct (State.is_declared k && negb (State.is_append_only k)) eqn:Hd;
    destruct (u !! k) as [v|] eqn:Hk.
  - apply map_lookup_filter_Some_2; [done|]. simpl. by rewrite Hd.
  - apply map_lookup_filter_None_2. by left.
  - apply map_lookup_filter_None_2. right. intros x _. simpl. by rewrite Hd.
  - apply map_lookup_filter_None_2. by left.
Qed.

Lemma write_append_appendable (old : list pyval) (o : option pyval) :
  State.list_or_absent o = true →
  State.write_append old o =
    Ok (match o with Some (PList new) => old ++ new | _ => old end).
Proof. by destruct o as [[]|]. Qed.

Lemma merge_appendable s u :
  State.appendable u = true →
  State.merge s u =
    Ok (State.Make
          (State.overwrites u ∪ State.last_value s)
          (match u !! "compliance_results" with
           | Some (PList new) => State.compliance_results s ++ new
           | _ => State.compliance_results s
           end)
          (match u !! "errors" with
           | Some (PList new) => State.errors s ++ new
           | _ => State.errors s
           end)).
Proof.
  unfold State.appendable, State.merge. intros [Hc He]%andb_prop.
  by rewrite !write_append_appendable.
Qed.

Lemma merge_returns_appendable s u s' :
  State.merge s u = Ok s' → State.appendable u = true.
Proof.
  unfold State.merge, State.appendable, State.write_append, State.list_add.
  destruct (u !! "compliance_results") as [[]|], (u !! "errors") as [[]|]; done.
Qed.

Lemma append_only_cases k :
  k ∈ State.append_only → k = "compliance_results" ∨ k = "errors".
Proof.
  unfold State.append_only. rewrite !elem_of_cons, elem_of_nil. tauto.
Qed.

Lemma merge_append s u s' k old new :
  State.merge s u = Ok s' →
  k ∈ State.append_only →
  State.lookup s k = Some (PList old) →
  u !! k = Some (PList new) →
  State.lookup s' k = Some (PList (old ++ new)).
Proof.
  intros Hm Hk Hold Hnew.
  rewrite (merge_appendable s u) in Hm by (by eapply merge_returns_appendable).
  injection Hm as <-.
  destruct (append_only_cases k Hk) as [-> | ->];
    cbn in Hold |- *; rewrite Hnew; by simplify_eq.
Qed.

Lemma merge_overwrite s u s' k v :
  State.merge s u = Ok s' →
  k ∈ State.declared → k ∉ State.append_only →
  u !! k = Some v →
  State.lookup s' k = Some v.
Proof.
  intros Hm Hd Hk Hv.
  rewrite (merge_appendable s u) in Hm by (by eapply merge_returns_appendable).
  injection Hm as <-.
  unfold State.lookup.
  destruct (String.eqb_spec k "compliance_results") as [-> | _];
    [exfalso; apply Hk; repeat constructor |].
  destruct (String.eqb_spec k "errors") as [-> | _];
    [exfalso; apply Hk; repeat constructor |].
  cbn. rewrite lookup_union, overwrites_lookup.
  unfold State.is_declared, State.is_append_only.
  rewrite bool_decide_eq_true_2, bool_decide_eq_false_2 by done.
  cbn. rewrite Hv. by destruct (State.last_value s !! k).
Qed.

Lemma merge_final_status s u s' v :
  State.merge s u = Ok s' →
  u !! "final_status" = Some v →
  State.lookup s' "final_status" = Some v.
Proof.
  intros Hm Hv. eapply merge_overwrite; [exact Hm | | | exact Hv].
  - unfold State.declared. repeat constructor.
  - unfold State.append_only. rewrite !elem_of_cons, elem_of_nil.
    intros [? | [? | []]]; discriminate.
Qed.

Lemma merge_final_report s u s' v :
  State.merge s u = Ok s' →
  u !! "final_report" = Some v →
  State.lookup s' "final_report" = Some v.
Proof.
  intros Hm Hv. eapply merge_overwrite; [exact Hm | | | exact Hv].
  - unfold State.declared. repeat constructor.
  - unfold State.append_only. rewrite !elem_of_cons, elem_of_nil.
    intros [? | [? | []]]; discriminate.
Qed.

Lemma merge_untouched s u s' k :
  State.merge s u = Ok s' →
  u !! k = None →
  State.lookup s' k = State.lookup s k.
Proof.
  intros Hm Hv.
  rewrite (merge_appendable s u) in Hm by (by eapply merge_returns_appendable).
  injection Hm as <-.
  unfold State.lookup.
  destruct (String.eqb_spec k "compliance_results") as [-> | _]; [by rewrite Hv |].
  destruct (String.eqb_spec k "errors") as [-> | _]; [by rewrite Hv |].
  cbn. rewrite lookup_union, overwrites_lookup, Hv.
  destruct (_ && _); by destruct (State.last_value s !! k).
Qed.

Lemma merge_grows s u s' :
  State.merge s u = Ok s' →
  State.compliance_results s `prefix_of` State.compliance_results s' ∧
  State.errors s `prefix_of` State.errors s'.
Proof.
  intros Hm.
  rewrite (merge_appendable s u) in Hm by (by eapply merge_returns_appendable).
  injection Hm as <-. cbn.
  split.
  - destruct (u !! "compliance_results") as [[]|]; try done. by apply prefix_app_r.
  - destruct (u !! "errors") as [[]|]; try done. by apply prefix_app_r.
Qed.

End Merge.

(** Every dict [extract_data] returns has the same four keys. *)
Lemma extract_data_keys raw u :
  VideoIndexer.extract_data raw = Ok u →
  ∃ transcript ocr_text detected_brands video_metadata,
    u = {[ "transcript" := PStr transcript;
           "ocr_text" := PList ocr_text;
           "detected_brands" := PList detected_brands;
           "video_metadata" := video_metadata ]}.
Proof.
  unfold VideoIndexer.extract_data.
  repeat match goal with
         | |- context [mbind _ ?o] =>
             destruct o; cbn [mbind outcome_bind]; try discriminate
         end.
  intros [= <-]. eauto.
Qed.

(** Claim C3, as the code has it: an update that writes lists, if anything,
    to [compliance_results] and [errors] is merged by the rule of the claim:
    the two sequences are concatenated onto the existing ones in order,
    never dropping a prior entry, every other declared key the update has
    is overwritten, and a key the update lacks is left untouched.  An update
    with anything but a list under one of the two keys is not merged: the
    write raises.  Every update the indexing stage returns, and every update
    of the audit stage but one, writes lists there; the update built from a
    parsed response carries the response's [compliance_results] as it is, so
    it is merged exactly when that value is a list.  Merging findings
    [[f1]] then [[f2]] yields the old findings followed by [[f1; f2]], and
    merging [final_status = FAIL] then [final_status = PASS] yields
    [PASS]. *)
Theorem merge_accumulates (s : State.VideoAuditState) (u : gmap string pyval) (f1 f2 : pyval) :
  (State.appendable u = true →
   ∃ s', State.merge s u = Ok s' ∧ follows_merge_rule s u s') ∧
  (State.appendable u = false → ∃ msg, State.merge s u = Raise msg) ∧
  (∀ msg content,
      State.appendable (Nodes.index_failure_update msg) = true ∧
      State.appendable Nodes.no_content_update = true ∧
      State.appendable (Nodes.parse_failure_update content) = true ∧
      State.appendable (Nodes.audit_failure_update msg) = true) ∧
  (∀ raw extraction,
      VideoIndexer.extract_data raw = Ok extraction →
      State.appendable extraction = true) ∧
  (∀ obj,
      State.appendable (parsed_update obj)
      = is_list (default (PList []) (Py.lookup "compliance_results" obj))) ∧
  (∃ s1 s2,
      State.merge s {[ "compliance_results" := PList [f1] ]} = Ok s1 ∧
      State.merge s1 {[ "compliance_results" := PList [f2] ]} = Ok s2 ∧
      State.compliance_results s2 = State.compliance_results s ++ [f1; f2]) ∧
  (∃ s1 s2,
      State.merge s {[ "final_status" := PStr "FAIL" ]} = Ok s1 ∧
      State.merge s1 {[ "final_status" := PStr "PASS" ]} = Ok s2 ∧
      State.lookup s2 "final_status" = Some (PStr "PASS")).
Proof.
  split; [| split; [| split; [| split; [| split; [| split]]]]].
  - intros Hu. eexists. split; [by apply merge_appendable |].
    pose proof (merge_appendable s u Hu) as Hm.
    repeat split.
    + intros k old new. by apply (merge_append s u).
    + by apply (merge_grows s u).
    + by apply (merge_grows s u).
    + intros k v. by apply (merge_overwrite s u).
    + intros k. by apply (merge_untouched s u).
  - unfold State.appendable, State.merge. intros Hu.
    destruct (u !! "compliance_results") as [[] |]; cbn in *; eauto;
      destruct (u !! "errors") as [[] |]; cbn in *; eauto; discriminate.
  - intros msg content. repeat split; reflexivity.
  - intros raw extraction (t & o & b & m & ->)%extract_data_keys. reflexivity.
  - intros obj. unfold State.appendable.
    assert (parsed_update obj !! "compliance_results"
            = Some (default (PList []) (Py.lookup "compliance_results" obj))) as ->
      by reflexivity.
    assert (parsed_update obj !! "errors" = None) as -> by reflexivity.
    by destruct (default _ _).
  - eexists _, _.
    split; [apply (merge_appendable s); reflexivity |].
    split; [apply merge_appendable; reflexivity |].
    cbn. rewrite !lookup_singleton_eq. by rewrite <- app_assoc.
  - eexists _, _.
    split; [apply (merge_appendable s); reflexivity |].
    split; [apply merge_appendable; reflexivity |].
    eapply merge_overwrite.
    + apply merge_appendable; reflexivity.
    + unfold State.declared. repeat constructor.
    + unfold State.append_only. rewrite !elem_of_cons, elem_of_nil.
      intros [? | [? | []]]; discriminate.
    + apply lookup_singleton_eq.
Qed.

Lemma merge_accumulates_witness :
  State.appendable (Nodes.audit_failure_update "Request timed out.") = true ∧
  ∃ s',
    State.merge (State.Make {[ "final_status" := PStr "PASS" ]} [] [PStr "earlier"])
      (Nodes.audit_failure_update "Request timed out.")
    = Ok s' ∧
    follows_merge_rule
      (State.Make {[ "final_status" := PStr "PASS" ]} [] [PStr "earlier"])
      (Nodes.audit_failure_update "Request timed out.") s'.
Proof.
  split; [reflexivity |].
  exact (proj1 (merge_accumulates
                  (State.Make {[ "final_status" := PStr "PASS" ]} [] [PStr "earlier"])
                  (Nodes.audit_failure_update "Request timed out.")
                  PNone PNone) eq_refl).
Defined.

(** An update a stage produces that is not merged.  The response of the chat
    model parses to [{"status": "PASS", "compliance_results": "none"}]: the
    audit node returns the update built from it, findings and all, and the
    write of that update to the state raises; the findings the state had are
    neither extended nor kept in a new state, because there is none. *)
Lemma merge_rejects_non_list_findings :
  Nodes.compliance_audit_node
    (λ _, Some (PDict [("status", PStr "PASS"); ("compliance_results", PStr "none")]))
    (Sample.audit_env_with (Ok "{}")) Sample.indexed Sample.start
  = (Ok (parsed_update [("status", PStr "PASS"); ("compliance_results", PStr "none")]),
     World [EvClients; EvSearch (PStr "Global") (PStr "A B C") "SALE" 5; EvGenerate]
           false) ∧
  parsed_update [("status", PStr "PASS"); ("compliance_results", PStr "none")]
    !! "compliance_results" = Some (PStr "none") ∧
  State.merge Sample.indexed
    (parsed_update [("status", PStr "PASS"); ("compliance_results", PStr "none")])
  = Raise ("can only concatenate list (not " +:+ State.dquote +:+ "str"
           +:+ State.dquote +:+ ") to list").
Proof. repeat split; reflexivity. Qed.

(** ** Effects *)

Section Effects.

Context {A B : Type}.

Lemma bind_unfold (m : M A) (k : A → M B) w :
  (m ≫= k) w =
    match m w with
    | (Ok a, w1) => k a w1
    | (Raise msg, w1) => (Raise msg, w1)
    | (Hang, w1) => (Hang, w1)
    end.
Proof. reflexivity. Qed.

Lemma bind_Ok (m : M A) (k : A → M B) w a w1 :
  m w = (Ok a, w1) → (m ≫= k) w = k a w1.
Proof. intros H. by rewrite bind_unfold, H. Qed.

Lemma bind_Raise (m : M A) (k : A → M B) w msg w1 :
  m w = (Raise msg, w1) → (m ≫= k) w = (Raise msg, w1).
Proof. intros H. by rewrite bind_unfold, H. Qed.

Lemma bind_Hang (m : M A) (k : A → M B) w w1 :
  m w = (Hang, w1) → (m ≫= k) w = (Hang, w1).
Proof. intros H. by rewrite bind_unfold, H. Qed.

Lemma bind_Ok_inv (m : M A) (k : A → M B) w b w' :
  (m ≫= k) w = (Ok b, w') →
  ∃ a w1, m w = (Ok a, w1) ∧ k a w1 = (Ok b, w').
Proof.
  rewrite bind_unfold. destruct (m w) as [[a | msg |] w1]; [eauto | done | done].
Qed.

Lemma bind_Raise_inv (m : M A) (k : A → M B) w msg w' :
  (m ≫= k) w = (Raise msg, w') →
  m w = (Raise msg, w') ∨ ∃ a w1, m w = (Ok a, w1) ∧ k a w1 = (Raise msg, w').
Proof.
  rewrite bind_unfold. destruct (m w) as [[a | msg' |] w1]; [eauto | | done].
  intros [= -> ->]. by left.
Qed.

Lemma try_except_unfold (body : M A) (handler : string → M A) w :
  Eff.try_except body handler w =
    match body w with
    | (Ok a, w1) => (Ok a, w1)
    | (Raise msg, w1) => handler msg w1
    | (Hang, w1) => (Hang, w1)
    end.
Proof. unfold Eff.try_except. by destruct (body w) as [[] ?]. Qed.

Lemma call_unfold (e : event) (answer : outcome A) w :
  Eff.call e answer w = (answer, after w [e]).
Proof. reflexivity. Qed.

Lemma emit_unfold (e : event) w : Eff.emit e w = (Ok (), after w [e]).
Proof. reflexivity. Qed.

End Effects.

Section OnlyCalls.

Lemma after_nil w : after w [] = w.
Proof. destruct w. unfold after. cbn. by rewrite app_nil_r. Qed.

Lemma after_after w c1 c2 : after (after w c1) c2 = after w (c1 ++ c2).
Proof. unfold after. cbn. by rewrite app_assoc. Qed.

Lemma only_calls_pure {A} (o : outcome A) : only_calls (Eff.lift o).
Proof. intros w r w' [= <- <-]. exists []. by rewrite after_nil. Qed.

Lemma only_calls_ret {A} (a : A) : only_calls (Eff.ret a).
Proof. apply (only_calls_pure (Ok a)). Qed.

Lemma only_calls_raise {A} msg : only_calls (@Eff.raise A msg).
Proof. apply (only_calls_pure (Raise msg)). Qed.

Lemma only_calls_hang {A} : only_calls (@Eff.hang A).
Proof. apply (only_calls_pure Hang). Qed.

Lemma only_calls_emit e : only_calls (Eff.emit e).
Proof. intros w r w' [= <- <-]. by exists [e]. Qed.

Lemma only_calls_call {A} e (answer : outcome A) : only_calls (Eff.call e answer).
Proof. intros w r w'. rewrite call_unfold. intros [= <- <-]. by exists [e]. Qed.

Lemma only_calls_bind {A B} (m : M A) (k : A → M B) :
  only_calls m → (∀ a, only_calls (k a)) → only_calls (m ≫= k).
Proof.
  intros Hm Hk w r w'. rewrite bind_unfold.
  destruct (m w) as [[a | msg |] w1] eqn:E; destruct (Hm _ _ _ E) as [c1 ->].
  - intros [c2 ->]%Hk. rewrite after_after. eauto.
  - intros [= <- <-]. eauto.
  - intros [= <- <-]. eauto.
Qed.

Lemma only_calls_try_except {A} (body : M A) handler :
  only_calls body → (∀ msg, only_calls (handler msg)) →
  only_calls (Eff.try_except body handler).
Proof.
  intros Hm Hk w r w'. rewrite try_except_unfold.
  destruct (body w) as [[a | msg |] w1] eqn:E; destruct (Hm _ _ _ E) as [c1 ->].
  - intros [= <- <-]. eauto.
  - intros [c2 ->]%Hk. rewrite after_after. eauto.
  - intros [= <- <-]. eauto.
Qed.

Lemma only_calls_if {A} (b : bool) (m1 m2 : M A) :
  only_calls m1 → only_calls m2 → only_calls (if b then m1 else m2).
Proof. by destruct b. Qed.

End OnlyCalls.

Create HintDb calls.
#[local] Hint Resolve only_calls_pure only_calls_ret only_calls_raise
  only_calls_hang only_calls_emit only_calls_call only_calls_if : calls.

Ltac only_calls :=
  repeat first
    [ progress eauto with calls
    | apply only_calls_bind; [| intros ?]
    | apply only_calls_try_except; [| intros ?]
    | apply only_calls_if ].

Section ServiceCalls.

Lemma only_calls_get_access_token ts :
  only_calls (VideoIndexer.get_access_token ts).
Proof. unfold VideoIndexer.get_access_token. only_calls. Qed.

Lemma only_calls_get_account_token ts arm :
  only_calls (VideoIndexer.get_account_token ts arm).
Proof. unfold VideoIndexer.get_account_token. only_calls. Qed.

Lemma only_calls_upload_video svc path name :
  only_calls (VideoIndexer.upload_video svc path name).
Proof.
  unfold VideoIndexer.upload_video.
  pose proof only_calls_get_access_token. pose proof only_calls_get_account_token.
  only_calls.
Qed.

Lemma only_calls_wait_for_processing format checks video_id :
  only_calls (VideoIndexer.wait_for_processing format checks video_id).
Proof.
  pose proof only_calls_get_access_token. pose proof only_calls_get_account_token.
  induction checks as [| c rest IH]; cbn [VideoIndexer.wait_for_processing].
  - only_calls.
  - unfold VideoIndexer.sleep. only_calls.
Qed.

End ServiceCalls.

(** ** The audit node *)

Section Audit.

Variable json_loads : string → option pyval.

Implicit Types (env : audit_env) (s : State.VideoAuditState) (w : world).

(** The [try] statement, outcome by outcome. *)
Lemma verdict_unfold env w :
  Nodes.verdict json_loads env w =
    match env_generate env with
    | Ok content =>
        match json_loads (Nodes.json_text content) with
        | None => (Ok (Nodes.parse_failure_update content), after w [EvGenerate])
        | Some (PDict obj) => (Ok (parsed_update obj), after w [EvGenerate])
        | Some v =>
            (Ok (Nodes.audit_failure_update (Py.no_attribute v "get")),
             after w [EvGenerate])
        end
    | Raise msg =>
        if env_decode_error env
        then (Raise (Nodes.unbound_local "response"), after w [EvGenerate])
        else (Ok (Nodes.audit_failure_update msg), after w [EvGenerate])
    | Hang => (Hang, after w [EvGenerate])
    end.
Proof.
  unfold Nodes.verdict. rewrite call_unfold.
  destruct (env_generate env) as [content | msg |];
    [| by destruct (env_decode_error env) | done].
  destruct (json_loads (Nodes.json_text content)) as [[] |]; done.
Qed.

Lemma audit_node_unfold env s w :
  Nodes.compliance_audit_node json_loads env s w =
    if no_content s then (Ok Nodes.no_content_update, w)
    else
      match Nodes.retrieve env (State.get s "region" (PStr "Global"))
              (State.get s "transcript" (PStr ""))
              (State.get s "ocr_text" (PList [])) w with
      | (Ok docs, w1) => Nodes.verdict json_loads env w1
      | (Raise msg, w1) => (Raise msg, w1)
      | (Hang, w1) => (Hang, w1)
      end.
Proof.
  unfold Nodes.compliance_audit_node, no_content.
  destruct (_ && _); [done |]. by rewrite bind_unfold.
Qed.

Lemma only_calls_retrieve env region transcript ocr_text :
  only_calls (Nodes.retrieve env region transcript ocr_text).
Proof. unfold Nodes.retrieve. only_calls. Qed.

(** Every dict the [try] statement returns, and where it comes from. *)
Lemma verdict_update env w u w' :
  Nodes.verdict json_loads env w = (Ok u, w') →
  w' = after w [EvGenerate] ∧
  ((∃ content, env_generate env = Ok content ∧
      json_loads (Nodes.json_text content) = None ∧
      u = Nodes.parse_failure_update content) ∨
   (∃ content obj, env_generate env = Ok content ∧
      json_loads (Nodes.json_text content) = Some (PDict obj) ∧
      u = parsed_update obj) ∨
   (∃ msg, u = Nodes.audit_failure_update msg)).
Proof.
  rewrite verdict_unfold.
  destruct (env_generate env) as [content | msg |]; [| | done].
  - destruct (json_loads (Nodes.json_text content)) as [v |] eqn:E.
    + destruct v; intros [= <- <-]; split; eauto 10.
    + intros [= <- <-]; split; eauto 10.
  - destruct (env_decode_error env); [done |].
    intros [= <- <-]; split; eauto 10.
Qed.

(** Every dict the node returns. *)
Lemma audit_update env s w u w' :
  Nodes.compliance_audit_node json_loads env s w = (Ok u, w') →
  (no_content s = true ∧ u = Nodes.no_content_update ∧ w' = w) ∨
  (no_content s = false ∧
   ((∃ content, env_generate env = Ok content ∧
       json_loads (Nodes.json_text content) = None ∧
       u = Nodes.parse_failure_update content) ∨
    (∃ content obj, env_generate env = Ok content ∧
       json_loads (Nodes.json_text content) = Some (PDict obj) ∧
       u = parsed_update obj) ∨
    (∃ msg, u = Nodes.audit_failure_update msg))).
Proof.
  rewrite audit_node_unfold. destruct (no_content s).
  - intros [= <- <-]. by left.
  - destruct (Nodes.retrieve _ _ _ _ _) as [[docs | msg |] w1]; [| done | done].
    intros [_ H]%verdict_update. by right.
Qed.

End Audit.

(** Claim C6: when both the transcript and the on-screen text are empty the
    audit node returns [final_status = FAIL] with the fixed report, makes no
    call at all (the world is as before), and its update has no [errors]
    key, so the merge leaves [errors] as it was.  The report is the text of
    the source. *)
Theorem audit_short_circuit json_loads (env : audit_env) (s : State.VideoAuditState) (w : world) :
  Py.truthy (State.get s "transcript" (PStr "")) = false →
  Py.truthy (State.get s "ocr_text" (PList [])) = false →
  Nodes.compliance_audit_node json_loads env s w = (Ok Nodes.no_content_update, w) ∧
  Nodes.no_content_update !! "final_status" = Some (PStr "FAIL") ∧
  Nodes.no_content_update !! "final_report" = Some (PStr Nodes.no_content_report) ∧
  Nodes.no_content_update !! "errors" = None ∧
  (∃ s', State.merge s Nodes.no_content_update = Ok s' ∧
         State.errors s' = State.errors s) ∧
  Nodes.no_content_report
  = "Audit failed: No speech or text content could be extracted from this video.".
Proof.
  intros Ht Ho. split.
  - rewrite audit_node_unfold. unfold no_content. by rewrite Ht, Ho.
  - repeat split; try reflexivity.
    eexists. split; [apply merge_appendable; reflexivity | reflexivity].
Qed.

Lemma audit_short_circuit_witness :
  Py.truthy (State.get (Sample.initial "https://youtu.be/abc") "transcript" (PStr "")) = false ∧
  Py.truthy (State.get (Sample.initial "https://youtu.be/abc") "ocr_text" (PList [])) = false ∧
  Nodes.compliance_audit_node Sample.json_loads
    (Sample.audit_env_with (Ok Sample.pass_json))
    (Sample.initial "https://youtu.be/abc") Sample.start
  = (Ok Nodes.no_content_update, Sample.start).
Proof.
  split; [reflexivity | split; [reflexivity |]].
  apply (audit_short_circuit Sample.json_loads
           (Sample.audit_env_with (Ok Sample.pass_json))
           (Sample.initial "https://youtu.be/abc") Sample.start);
    reflexivity.
Defined.

(** Claim C1, as the code has it: when the response parses to a JSON object,
    the audit node returns the object's [compliance_results], [status] and
    [final_report] as they are, with the defaults [[]], FAIL and the
    placeholder only for a key the object lacks; a status other than PASS or
    FAIL is passed through, not replaced by FAIL.  In every run the node
    returns [final_status = PASS] only if the response parsed to an object
    whose [status] is the string PASS. *)
Theorem audit_maps_parsed_response json_loads (env : audit_env) (s : State.VideoAuditState)
    (w w1 : world) (content : string) (obj : list (string * pyval))
    (docs : list string) :
  no_content s = false →
  Nodes.retrieve env (State.get s "region" (PStr "Global"))
    (State.get s "transcript" (PStr "")) (State.get s "ocr_text" (PList [])) w
  = (Ok docs, w1) →
  env_generate env = Ok content →
  json_loads (Nodes.json_text content) = Some (PDict obj) →
  Nodes.compliance_audit_node json_loads env s w
  = (Ok (parsed_update obj), after w1 [EvGenerate]) ∧
  parsed_update obj !! "final_status"
  = Some (default (PStr "FAIL") (Py.lookup "status" obj)) ∧
  parsed_update obj !! "final_report"
  = Some (default (PStr "No Report Generated.") (Py.lookup "final_report" obj)) ∧
  parsed_update obj !! "compliance_results"
  = Some (default (PList []) (Py.lookup "compliance_results" obj)) ∧
  (∀ env2 s2 w2 u w',
      Nodes.compliance_audit_node json_loads env2 s2 w2 = (Ok u, w') →
      u !! "final_status" = Some (PStr "PASS") →
      ∃ content2 obj2,
        env_generate env2 = Ok content2 ∧
        json_loads (Nodes.json_text content2) = Some (PDict obj2) ∧
        Py.lookup "status" obj2 = Some (PStr "PASS")).
Proof.
  intros Hs Hr Hg Hj. split; [| repeat split; try reflexivity].
  - by rewrite audit_node_unfold, Hs, Hr, verdict_unfold, Hg, Hj.
  - intros env2 s2 w2 u w' Hu Hpass.
    apply audit_update in Hu
      as [(_ & -> & _) | (_ & [(c & _ & _ & ->) | [(c & o & Hc & Ho & ->) | (m & ->)]])];
      try discriminate Hpass.
    exists c, o. split; [done | split; [done |]].
    change (Some (default (PStr "FAIL") (Py.lookup "status" o)) = Some (PStr "PASS"))
      in Hpass.
    destruct (Py.lookup "status" o) as [v |]; cbn in Hpass;
      [congruence | discriminate].
Qed.

Lemma audit_maps_parsed_response_witness :
  no_content Sample.indexed = false ∧
  Sample.json_loads (Nodes.json_text (Sample.fenced Sample.pass_json))
  = Some (PDict Sample.pass_object) ∧
  Nodes.compliance_audit_node Sample.json_loads
    (Sample.audit_env_with (Ok (Sample.fenced Sample.pass_json)))
    Sample.indexed Sample.start
  = (Ok (parsed_update Sample.pass_object),
     World [EvClients; EvSearch (PStr "Global") (PStr "A B C") "SALE" 5; EvGenerate]
           false) ∧
  parsed_update Sample.pass_object !! "final_status" = Some (PStr "PASS").
Proof.
  split; [reflexivity | split; [reflexivity |]].
  pose proof (audit_maps_parsed_response Sample.json_loads
                (Sample.audit_env_with (Ok (Sample.fenced Sample.pass_json)))
                Sample.indexed Sample.start
                (World [EvClients; EvSearch (PStr "Global") (PStr "A B C") "SALE" 5] false)
                (Sample.fenced Sample.pass_json) Sample.pass_object
                ["Rule 1"; "Rule 2"]
                eq_refl eq_refl eq_refl eq_refl) as (Hrun & Hstatus & _).
  split; [exact Hrun | exact Hstatus].
Defined.

(** The response [{"status": "NEEDS_REVIEW"}] parses to a JSON object whose
    status is neither PASS nor FAIL; the node returns that status, not
    FAIL. *)
Lemma audit_passes_unrecognized_status_through :
  Sample.json_loads (Nodes.json_text Sample.review_json)
  = Some (PDict [("status", PStr "NEEDS_REVIEW")]) ∧
  (Nodes.compliance_audit_node Sample.json_loads
     (Sample.audit_env_with (Ok Sample.review_json))
     Sample.indexed Sample.start).1
  = Ok ({[ "compliance_results" := PList [];
           "final_status" := PStr "NEEDS_REVIEW";
           "final_report" := PStr "No Report Generated." ]} : gmap string pyval) ∧
  ¬ ((Nodes.compliance_audit_node Sample.json_loads
        (Sample.audit_env_with (Ok Sample.review_json))
        Sample.indexed Sample.start).1
     = Ok ({[ "compliance_results" := PList [];
              "final_status" := PStr "FAIL";
              "final_report" := PStr "No Report Generated." ]} : gmap string pyval)).
Proof.
  split; [reflexivity | split; [reflexivity |]].
  intros H.
  assert (Some (PStr "NEEDS_REVIEW") = Some (PStr "FAIL")) as [=].
  change (Some (PStr "NEEDS_REVIEW")) with
    (match (Nodes.compliance_audit_node Sample.json_loads
              (Sample.audit_env_with (Ok Sample.review_json))
              Sample.indexed Sample.start).1 with
     | Ok u => u !! "final_status"
     | _ => None
     end).
  by rewrite H.
Qed.

(** ** The poller *)

Section Poller.

Variable format : pyval → string.

Implicit Types (c : check) (w : world) (video_id : pyval).

Abbreviation wait := (VideoIndexer.wait_for_processing format).

Lemma get_access_token_unfold ts w :
  VideoIndexer.get_access_token ts w = (ts_credential ts, after w [EvGetToken]).
Proof.
  unfold VideoIndexer.get_access_token.
  rewrite try_except_unfold, call_unfold. by destruct (ts_credential ts).
Qed.

Lemma get_account_token_unfold ts arm w :
  VideoIndexer.get_account_token ts arm w
  = (exchange_result ts, after w [EvTokenExchange]).
Proof.
  unfold VideoIndexer.get_account_token, exchange_result.
  rewrite bind_unfold, call_unfold.
  destruct (ts_exchange ts) as [r | |]; [| done | done].
  destruct (negb (status_code r =? 200)); [done |].
  rewrite bind_unfold. unfold Eff.lift. by destruct (json r).
Qed.

(** One turn of the loop, outcome by outcome. *)
Lemma wait_unfold c rest video_id w :
  wait (c :: rest) video_id w =
    match ts_credential (chk_tokens c) with
    | Ok _ =>
        match exchange_result (chk_tokens c) with
        | Ok _ =>
            match chk_index c with
            | Ok r =>
                if negb (status_code r =? 200) then
                  wait rest video_id (after w (check_calls video_id ++ [EvSleep 30]))
                else
                  match json r with
                  | Ok data =>
                      match Py.get data "state" PNone with
                      | Ok state =>
                          if Py.eq_str state "Processed" then
                            (Ok data, after w (check_calls video_id))
                          else if Py.eq_str state "Failed" then
                            (Raise (VideoIndexer.failed_message format video_id),
                             after w (check_calls video_id))
                          else if Py.eq_str state "Quarantined" then
                            (Raise VideoIndexer.quarantined_message,
                             after w (check_calls video_id))
                          else
                            wait rest video_id
                              (after w (check_calls video_id ++ [EvSleep 30]))
                      | Raise msg => (Raise msg, after w (check_calls video_id))
                      | Hang => (Hang, after w (check_calls video_id))
                      end
                  | Raise msg => (Raise msg, after w (check_calls video_id))
                  | Hang => (Hang, after w (check_calls video_id))
                  end
            | Raise msg => (Raise msg, after w (check_calls video_id))
            | Hang => (Hang, after w (check_calls video_id))
            end
        | Raise msg => (Raise msg, after w [EvGetToken; EvTokenExchange])
        | Hang => (Hang, after w [EvGetToken; EvTokenExchange])
        end
    | Raise msg => (Raise msg, after w [EvGetToken])
    | Hang => (Hang, after w [EvGetToken])
    end.
Proof.
  cbn [VideoIndexer.wait_for_processing].
  rewrite bind_unfold, get_access_token_unfold.
  destruct (ts_credential (chk_tokens c)) as [arm | |]; [| done | done].
  rewrite bind_unfold, get_account_token_unfold, after_after.
  destruct (exchange_result (chk_tokens c)) as [tok | |]; [| done | done].
  rewrite bind_unfold, call_unfold, after_after.
  destruct (chk_index c) as [r | |]; [| done | done].
  destruct (negb (status_code r =? 200)).
  - rewrite bind_unfold. unfold VideoIndexer.sleep.
    by rewrite emit_unfold, after_after.
  - rewrite bind_unfold. unfold Eff.lift at 1.
    destruct (json r) as [data | |]; [| done | done].
    rewrite bind_unfold. unfold Eff.lift at 1.
    destruct (Py.get data "state" PNone) as [state | |]; [| done | done].
    destruct (Py.eq_str state "Processed"); [done |].
    destruct (Py.eq_str state "Failed"); [done |].
    destruct (Py.eq_str state "Quarantined"); [done |].
    rewrite bind_unfold. unfold VideoIndexer.sleep.
    by rewrite emit_unfold, after_after.
Qed.

Lemma answered_inv c r :
  answered c = Some r →
  ∃ arm tok, ts_credential (chk_tokens c) = Ok arm ∧
             exchange_result (chk_tokens c) = Ok tok ∧
             chk_index c = Ok r.
Proof.
  unfold answered, tokens_ok.
  destruct (ts_credential _) as [arm | |]; [| done | done].
  destruct (exchange_result _) as [tok | |]; [| done | done].
  destruct (chk_index c) as [r' | |]; [| done | done].
  intros [= ->]. eauto.
Qed.

Lemma reported_inv c data state :
  reported c = Some (data, state) →
  ∃ r, answered c = Some r ∧ (status_code r =? 200) = true ∧
       json r = Ok data ∧ Py.get data "state" PNone = Ok state.
Proof.
  unfold reported. destruct (answered c) as [r |]; [| done].
  destruct (status_code r =? 200) eqn:Hcode; [| done].
  destruct (json r) as [[] | |] eqn:Hj; try done.
  intros [= <- <-]. exists r. by rewrite Hcode, Hj.
Qed.

(** A check answered with something other than HTTP 200 is retried after
    the wait. *)
Lemma wait_http_failure c rest video_id w :
  http_failure c = true →
  wait (c :: rest) video_id w
  = wait rest video_id (after w (check_calls video_id ++ [EvSleep 30])).
Proof.
  unfold http_failure. destruct (answered c) as [r |] eqn:Hr; [| done].
  apply answered_inv in Hr as (arm & tok & Ha & He & Hi).
  intros Hcode. by rewrite wait_unfold, Ha, He, Hi, Hcode.
Qed.

(** A check that reports a state: the four ways the turn ends. *)
Lemma wait_reported c rest video_id w data state :
  reported c = Some (data, state) →
  wait (c :: rest) video_id w =
    if Py.eq_str state "Processed" then
      (Ok data, after w (check_calls video_id))
    else if Py.eq_str state "Failed" then
      (Raise (VideoIndexer.failed_message format video_id),
       after w (check_calls video_id))
    else if Py.eq_str state "Quarantined" then
      (Raise VideoIndexer.quarantined_message, after w (check_calls video_id))
    else wait rest video_id (after w (check_calls video_id ++ [EvSleep 30])).
Proof.
  intros (r & Hr & Hcode & Hj & Hs)%reported_inv.
  apply answered_inv in Hr as (arm & tok & Ha & He & Hi).
  by rewrite wait_unfold, Ha, He, Hi, Hcode, Hj, Hs.
Qed.

Lemma wait_transient c rest video_id w :
  transient c = true →
  wait (c :: rest) video_id w
  = wait rest video_id (after w (check_calls video_id ++ [EvSleep 30])).
Proof.
  unfold transient. intros [H | H]%orb_prop; [by apply wait_http_failure |].
  unfold in_progress, terminal in H.
  destruct (reported c) as [[data state] |] eqn:Hr; [| done].
  rewrite (wait_reported _ _ _ _ _ _ Hr).
  destruct (Py.eq_str state "Processed"); [done |].
  destruct (Py.eq_str state "Failed"); [done |].
  by destruct (Py.eq_str state "Quarantined").
Qed.

Lemma wait_retries pre rest video_id w :
  Forall (λ c, transient c = true) pre →
  wait (pre ++ rest) video_id w
  = wait rest video_id (after w (retry_calls video_id (List.length pre))).
Proof.
  intros H. revert w.
  induction H as [| c pre Hc _ IH]; intros w.
  - by rewrite after_nil.
  - cbn [app List.length retry_calls]. rewrite wait_transient by done.
    rewrite IH, after_after. by rewrite <- !app_assoc.
Qed.

Lemma eq_str_true v text : Py.eq_str v text = true → v = PStr text.
Proof. destruct v; try done. cbn. by intros ->%String.eqb_eq. Qed.

(** The poller returns only on a check that reports [Processed], and what
    it returns is the document of that check. *)
Lemma wait_Ok_inv checks video_id w data w' :
  wait checks video_id w = (Ok data, w') →
  ∃ pre c rest,
    checks = pre ++ c :: rest ∧
    Forall (λ c, transient c = true) pre ∧
    reported c = Some (data, PStr "Processed") ∧
    w' = after w (retry_calls video_id (List.length pre) ++ check_calls video_id).
Proof.
  revert w w'. induction checks as [| c rest IH]; intros w w'; [done |].
  rewrite wait_unfold.
  destruct (ts_credential (chk_tokens c)) as [arm | |] eqn:Ha; [| done | done].
  destruct (exchange_result (chk_tokens c)) as [tok | |] eqn:He; [| done | done].
  destruct (chk_index c) as [r | |] eqn:Hi; [| done | done].
  assert (answered c = Some r) as Hr
    by (unfold answered, tokens_ok; by rewrite Ha, He, Hi).
  assert (∀ w1, wait rest video_id (after w (check_calls video_id ++ [EvSleep 30]))
                = (Ok data, w1) → transient c = true →
                ∃ pre c0 rest0, c :: rest = pre ++ c0 :: rest0 ∧
                  Forall (λ c, transient c = true) pre ∧
                  reported c0 = Some (data, PStr "Processed") ∧
                  w1 = after w (retry_calls video_id (List.length pre) ++ check_calls video_id))
    as Hretry.
  { intros w1 (pre & c0 & rest0 & -> & Hpre & Hc0 & ->)%IH Hc.
    exists (c :: pre), c0, rest0. split; [done |]. split; [by constructor |].
    split; [done |]. rewrite after_after. cbn [List.length retry_calls].
    by rewrite <- !app_assoc. }
  destruct (negb (status_code r =? 200)) eqn:Hcode.
  { intros H. apply Hretry; [done |].
    unfold transient, http_failure. by rewrite Hr, Hcode. }
  apply negb_false_iff in Hcode.
  destruct (json r) as [d | |] eqn:Hj; [| done | done].
  destruct (Py.get d "state" PNone) as [state |  |] eqn:Hs; [| done | done].
  assert (reported c = Some (d, state)) as Hrep.
  { unfold reported. rewrite Hr, Hcode, Hj. unfold Py.get in Hs.
    destruct d; try done. by injection Hs as <-. }
  destruct (Py.eq_str state "Processed") eqn:Hp.
  { intros [= <- <-]. exists [], c, rest.
    apply eq_str_true in Hp as ->. by rewrite app_nil_l. }
  destruct (Py.eq_str state "Failed") eqn:Hf; [done |].
  destruct (Py.eq_str state "Quarantined") eqn:Hq; [done |].
  intros H. apply Hretry; [done |].
  unfold transient, in_progress, terminal.
  rewrite Hrep, Hp, Hf, Hq. apply orb_true_r.
Qed.

(** An exception of a check is not caught by the loop. *)
Lemma wait_exception c rest video_id w msg :
  check_exception c = Some msg →
  ∃ calls, wait (c :: rest) video_id w = (Raise msg, after w calls).
Proof.
  unfold check_exception. rewrite wait_unfold.
  destruct (ts_credential (chk_tokens c)) as [arm | |]; [| intros [= ->]; eauto | done].
  destruct (exchange_result (chk_tokens c)) as [tok | |]; [| intros [= ->]; eauto | done].
  destruct (chk_index c) as [r | |]; [| intros [= ->]; eauto | done].
  destruct (status_code r =? 200); [| done]. cbn [negb].
  destruct (json r) as [data | |]; cbn; [| intros [= ->]; eauto | done].
  destruct (Py.get data "state" PNone); [done | intros [= ->]; eauto | done].
Qed.

(** What makes the poller raise: a check, reached through retried checks
    only, that reports [Failed] or [Quarantined] or ends in an exception. *)
Lemma wait_Raise_inv checks video_id w msg w' :
  wait checks video_id w = (Raise msg, w') →
  ∃ pre c rest,
    checks = pre ++ c :: rest ∧
    Forall (λ c, transient c = true) pre ∧
    ((∃ data, reported c = Some (data, PStr "Failed") ∧
              msg = VideoIndexer.failed_message format video_id) ∨
     (∃ data, reported c = Some (data, PStr "Quarantined") ∧
              msg = VideoIndexer.quarantined_message) ∨
     check_exception c = Some msg).
Proof.
  revert w w'. induction checks as [| c rest IH]; intros w w'; [done |].
  rewrite wait_unfold.
  assert (∀ w1, wait rest video_id w1 = (Raise msg, w') → transient c = true →
            ∃ pre c0 rest0, c :: rest = pre ++ c0 :: rest0 ∧
              Forall (λ c, transient c = true) pre ∧
              ((∃ data, reported c0 = Some (data, PStr "Failed") ∧
                        msg = VideoIndexer.failed_message format video_id) ∨
               (∃ data, reported c0 = Some (data, PStr "Quarantined") ∧
                        msg = VideoIndexer.quarantined_message) ∨
               check_exception c0 = Some msg)) as Hretry.
  { intros w1 (pre & c0 & rest0 & -> & Hpre & Hc0)%IH Hc.
    exists (c :: pre), c0, rest0. split; [done |]. split; [by constructor | done]. }
  assert (check_exception c = Some msg →
            ∃ pre c0 rest0, c :: rest = pre ++ c0 :: rest0 ∧
              Forall (λ c, transient c = true) pre ∧
              ((∃ data, reported c0 = Some (data, PStr "Failed") ∧
                        msg = VideoIndexer.failed_message format video_id) ∨
               (∃ data, reported c0 = Some (data, PStr "Quarantined") ∧
                        msg = VideoIndexer.quarantined_message) ∨
               check_exception c0 = Some msg)) as Hexc.
  { intros Hc. exists [], c, rest. split; [done |]. split; [constructor | auto]. }
  unfold check_exception in Hexc.
  destruct (ts_credential (chk_tokens c)) as [arm | m |] eqn:Ha; [| | done].
  2: { intros [= -> <-]. by apply Hexc. }
  destruct (exchange_result (chk_tokens c)) as [tok | m |] eqn:He; [| | done].
  2: { intros [= -> <-]. by apply Hexc. }
  destruct (chk_index c) as [r | m |] eqn:Hi; [| | done].
  2: { intros [= -> <-]. by apply Hexc. }
  assert (answered c = Some r) as Hr
    by (unfold answered, tokens_ok; by rewrite Ha, He, Hi).
  destruct (status_code r =? 200) eqn:Hcode; cbn [negb].
  2: { intros H. eapply Hretry; [done |].
       unfold transient, http_failure. by rewrite Hr, Hcode. }
  destruct (json r) as [d | m |] eqn:Hj; [| | done].
  2: { intros [= -> <-]. by apply Hexc. }
  cbn in Hexc.
  destruct (Py.get d "state" PNone) as [state | m |] eqn:Hs; [| | done].
  2: { intros [= -> <-]. by apply Hexc. }
  assert (reported c = Some (d, state)) as Hrep.
  { unfold reported. rewrite Hr, Hcode, Hj. unfold Py.get in Hs.
    destruct d; try done. by injection Hs as <-. }
  destruct (Py.eq_str state "Processed") eqn:Hp; [done |].
  destruct (Py.eq_str state "Failed") eqn:Hf.
  { intros [= <- <-]. apply eq_str_true in Hf as ->.
    exists [], c, rest. split; [done |]. split; [constructor |]. left. eauto. }
  destruct (Py.eq_str state "Quarantined") eqn:Hq.
  { intros [= <- <-]. apply eq_str_true in Hq as ->.
    exists [], c, rest. split; [done |]. split; [constructor |]. right. left. eauto. }
  intros H. eapply Hretry; [done |].
  unfold transient, in_progress, terminal.
  rewrite Hrep, Hp, Hf, Hq. apply orb_true_r.
Qed.

Lemma messages_differ video_id :
  VideoIndexer.quarantined_message ≠ VideoIndexer.failed_message format video_id.
Proof.
  unfold VideoIndexer.quarantined_message, VideoIndexer.failed_message.
  cbv beta iota delta [String.append]. discriminate.
Qed.

End Poller.

(** Claim C4: a check that reports [Processed] makes the poller return the
    index document of that check; one that reports [Failed] makes it raise;
    one that reports [Quarantined] makes it raise with a different message;
    on any other reported state the poller waits 30 seconds and checks
    again.  The poller returns only on a check that reports [Processed].
    On the reports [Processing, Processing, Processed] it returns after
    exactly three checks with a wait after each of the first two, and on
    [Quarantined] at the first check it raises at once.  The message for
    [Quarantined] is the fixed text of the source, which says that the video
    is quarantined and names the copyright or content policy violation; the
    message for [Failed] says that processing failed and ends with the video
    id. *)
Theorem poller_terminal_states format (pre : list check) (c : check)
    (rest : list check) (video_id : pyval) (w : world) (data state : pyval) :
  Forall (λ c, in_progress c = true) pre →
  reported c = Some (data, state) →
  VideoIndexer.wait_for_processing format (pre ++ c :: rest) video_id w
  = (let w1 := after w (retry_calls video_id (List.length pre) ++ check_calls video_id) in
     if Py.eq_str state "Processed" then (Ok data, w1)
     else if Py.eq_str state "Failed" then
       (Raise (VideoIndexer.failed_message format video_id), w1)
     else if Py.eq_str state "Quarantined" then
       (Raise VideoIndexer.quarantined_message, w1)
     else VideoIndexer.wait_for_processing format rest video_id (after w1 [EvSleep 30])) ∧
  VideoIndexer.quarantined_message ≠ VideoIndexer.failed_message format video_id ∧
  (∀ checks data' w',
      VideoIndexer.wait_for_processing format checks video_id w = (Ok data', w') →
      ∃ pre' c' rest',
        checks = pre' ++ c' :: rest' ∧
        reported c' = Some (data', PStr "Processed") ∧
        w' = after w (retry_calls video_id (List.length pre') ++ check_calls video_id)) ∧
  (∀ c1 c2 c3 d1 d2 d3,
      reported c1 = Some (d1, PStr "Processing") →
      reported c2 = Some (d2, PStr "Processing") →
      reported c3 = Some (d3, PStr "Processed") →
      VideoIndexer.wait_for_processing format [c1; c2; c3] video_id w
      = (Ok d3,
         after w (check_calls video_id ++ [EvSleep 30] ++
                  check_calls video_id ++ [EvSleep 30] ++
                  check_calls video_id))) ∧
  (∀ c1 d1 more,
      reported c1 = Some (d1, PStr "Quarantined") →
      VideoIndexer.wait_for_processing format (c1 :: more) video_id w
      = (Raise VideoIndexer.quarantined_message, after w (check_calls video_id))) ∧
  VideoIndexer.quarantined_message
  = "Video is quarantined in Azure Video Indexer (Copyright/Content Policy Violation)" ∧
  Py.contains "quarantined" VideoIndexer.quarantined_message = true ∧
  Py.contains "Copyright/Content Policy Violation" VideoIndexer.quarantined_message
  = true ∧
  VideoIndexer.failed_message format video_id
  = "Video processing failed in Azure Video Indexer for video ID: "
    +:+ format video_id ∧
  Py.startswith "Video processing failed" (VideoIndexer.failed_message format video_id)
  = true.
Proof.
  intros Hpre Hc.
  split; [| split; [| split; [| split; [| split; [| repeat split; reflexivity]]]]].
  - rewrite wait_retries.
    2: { eapply Forall_impl; [exact Hpre |]. intros c0 H0. unfold transient.
         rewrite H0. apply orb_true_r. }
    rewrite (wait_reported _ _ _ _ _ _ _ Hc). cbn zeta.
    rewrite !after_after. by rewrite <- ?app_assoc.
  - apply messages_differ.
  - intros checks data' w' (pre' & c' & rest' & -> & _ & Hc' & ->)%wait_Ok_inv.
    by exists pre', c', rest'.
  - intros c1 c2 c3 d1 d2 d3 H1 H2 H3.
    rewrite (wait_reported _ _ _ _ _ _ _ H1). cbn [Py.eq_str String.eqb Ascii.eqb Bool.eqb].
    rewrite (wait_reported _ _ _ _ _ _ _ H2). cbn [Py.eq_str String.eqb Ascii.eqb Bool.eqb].
    rewrite (wait_reported _ _ _ _ _ _ _ H3). cbn [Py.eq_str String.eqb Ascii.eqb Bool.eqb].
    rewrite !after_after. by rewrite <- !app_assoc.
  - intros c1 d1 more H1. by rewrite (wait_reported _ _ _ _ _ _ _ H1).
Qed.

Lemma poller_terminal_states_witness :
  Forall (λ c, in_progress c = true)
    [Sample.answer (Sample.reporting "Processing");
     Sample.answer (Sample.reporting "Processing")] ∧
  reported (Sample.answer Sample.processed) = Some (Sample.processed, PStr "Processed") ∧
  VideoIndexer.wait_for_processing Sample.format
    [Sample.answer (Sample.reporting "Processing");
     Sample.answer (Sample.reporting "Processing");
     Sample.answer Sample.processed] (PStr "vi-42") Sample.start
  = (Ok Sample.processed,
     World [EvGetToken; EvTokenExchange; EvIndexGet (PStr "vi-42"); EvSleep 30;
            EvGetToken; EvTokenExchange; EvIndexGet (PStr "vi-42"); EvSleep 30;
            EvGetToken; EvTokenExchange; EvIndexGet (PStr "vi-42")] false).
Proof.
  assert (Forall (λ c, in_progress c = true)
            [Sample.answer (Sample.reporting "Processing");
             Sample.answer (Sample.reporting "Processing")]) as Hpre
    by (repeat constructor).
  split; [exact Hpre | split; [reflexivity |]].
  exact (proj1 (poller_terminal_states Sample.format _
                  (Sample.answer Sample.processed) [] (PStr "vi-42") Sample.start
                  Sample.processed (PStr "Processed") Hpre eq_refl)).
Defined.

(** Claim C5, as the code has it: a status check answered with anything but
    HTTP 200 is transient: the poller waits 30 seconds and checks again, and
    such answers never make it raise.  An exception raised while acquiring
    the token, exchanging it, sending the status request or reading its
    answer is not caught by the loop: the poller raises it.  So the poller
    raises on [Failed], on [Quarantined] and on such an exception, and on
    nothing else. *)
Theorem poller_transport_errors format (pre : list check) (c : check)
    (rest : list check) (video_id : pyval) (w : world) :
  Forall (λ c, http_failure c = true) pre →
  VideoIndexer.wait_for_processing format (pre ++ c :: rest) video_id w
  = VideoIndexer.wait_for_processing format (c :: rest) video_id
      (after w (retry_calls video_id (List.length pre))) ∧
  (∀ msg,
      ts_credential (chk_tokens c) = Raise msg →
      VideoIndexer.wait_for_processing format (c :: rest) video_id w
      = (Raise msg, after w [EvGetToken])) ∧
  (∀ msg,
      tokens_ok (chk_tokens c) = true → chk_index c = Raise msg →
      VideoIndexer.wait_for_processing format (c :: rest) video_id w
      = (Raise msg, after w (check_calls video_id))) ∧
  (∀ msg,
      check_exception c = Some msg →
      ∃ calls,
        VideoIndexer.wait_for_processing format (c :: rest) video_id w
        = (Raise msg, after w calls)) ∧
  (∀ checks msg w',
      VideoIndexer.wait_for_processing format checks video_id w = (Raise msg, w') →
      ∃ pre' c' rest',
        checks = pre' ++ c' :: rest' ∧
        ((∃ data, reported c' = Some (data, PStr "Failed")) ∨
         (∃ data, reported c' = Some (data, PStr "Quarantined")) ∨
         check_exception c' = Some msg)).
Proof.
  intros Hpre. split; [| split; [| split; [| split]]].
  - apply wait_retries. eapply Forall_impl; [exact Hpre |].
    intros c0 H0. unfold transient. by rewrite H0.
  - intros msg Hc. by rewrite wait_unfold, Hc.
  - intros msg Ht Hi. rewrite wait_unfold, Hi. unfold tokens_ok in Ht.
    destruct (ts_credential (chk_tokens c)); [| done | done].
    by destruct (exchange_result (chk_tokens c)).
  - intros msg. apply wait_exception.
  - intros checks msg w' (pre' & c' & rest' & -> & _ & H)%wait_Raise_inv.
    exists pre', c', rest'. split; [done |].
    destruct H as [(d & H & _) | [(d & H & _) | H]]; eauto.
Qed.

Lemma poller_transport_errors_witness :
  Forall (λ c, http_failure c = true) [Sample.unavailable; Sample.unavailable] ∧
  VideoIndexer.wait_for_processing Sample.format
    [Sample.unavailable; Sample.unavailable; Sample.answer Sample.processed]
    (PStr "vi-42") Sample.start
  = (Ok Sample.processed,
     World [EvGetToken; EvTokenExchange; EvIndexGet (PStr "vi-42"); EvSleep 30;
            EvGetToken; EvTokenExchange; EvIndexGet (PStr "vi-42"); EvSleep 30;
            EvGetToken; EvTokenExchange; EvIndexGet (PStr "vi-42")] false).
Proof.
  assert (Forall (λ c, http_failure c = true) [Sample.unavailable; Sample.unavailable])
    as Hpre by (repeat constructor).
  split; [exact Hpre |].
  etrans;
    [exact (proj1 (poller_transport_errors Sample.format _
                     (Sample.answer Sample.processed) [] (PStr "vi-42")
                     Sample.start Hpre))
    | reflexivity].
Defined.

(** A credential that raises and a status request that raises each make the
    poller raise, although neither check reports [Failed] or
    [Quarantined]. *)
Lemma poller_raises_on_transport_error :
  reported Sample.token_failure = None ∧
  VideoIndexer.wait_for_processing Sample.format
    [Sample.token_failure; Sample.answer Sample.processed] (PStr "vi-42") Sample.start
  = (Raise "DefaultAzureCredential failed to retrieve a token",
     World [EvGetToken] false) ∧
  reported Sample.request_failure = None ∧
  VideoIndexer.wait_for_processing Sample.format
    [Sample.request_failure; Sample.answer Sample.processed] (PStr "vi-42") Sample.start
  = (Raise "Connection aborted.",
     World [EvGetToken; EvTokenExchange; EvIndexGet (PStr "vi-42")] false).
Proof. repeat split; reflexivity. Qed.

(** ** The indexing node *)

Section Indexing.

Variable format : pyval → string.

Implicit Types (svc : service) (s : State.VideoAuditState) (w : world).

Lemma try_except_handled (body : M (gmap string pyval)) w :
  Eff.try_except body (λ msg, Eff.ret (Nodes.index_failure_update msg)) w
  = handled (body w).
Proof. rewrite try_except_unfold. by destruct (body w) as [[] ?]. Qed.

Lemma index_download_unfold svc video_url video_name w :
  handled
    ((VideoIndexer.download_youtube_video svc video_url Nodes.local_filename
      ≫= λ local_path,
           VideoIndexer.upload_video svc local_path video_name
           ≫= λ azure_video_id,
                Nodes.os_path_exists local_path
                ≫= λ present : bool,
                     (if present then Nodes.os_remove svc local_path else Eff.ret ())
                     ≫= λ _,
                          VideoIndexer.wait_for_processing format (svc_checks svc)
                            azure_video_id
                          ≫= λ raw_insights,
                               Eff.lift (VideoIndexer.extract_data raw_insights)
                               ≫= λ clean_data, mret clean_data) w)
  = match svc_download svc with
    | Ok _ => handled (submit_and_poll format svc video_name (downloaded w video_url))
    | Raise msg =>
        (Ok (Nodes.index_failure_update msg),
         after w [EvDownload video_url Nodes.local_filename])
    | Hang => (Hang, after w [EvDownload video_url Nodes.local_filename])
    end.
Proof.
  rewrite bind_unfold. unfold VideoIndexer.download_youtube_video.
  rewrite try_except_unfold, bind_unfold, call_unfold.
  destruct (svc_download svc) as [[] | |]; [| done | done].
  rewrite bind_unfold. reflexivity.
Qed.

(** The node, outcome by outcome, up to the download. *)
Lemma index_unfold svc s w :
  Nodes.index_video_node format svc s w =
    let video_url := State.get s "video_url" PNone in
    match svc_init svc with
    | Some msg => (Ok (Nodes.index_failure_update msg), w)
    | None =>
        match supported video_url with
        | Ok true =>
            match svc_download svc with
            | Ok _ =>
                handled (submit_and_poll format svc
                           (State.get s "video_id" (PStr "vid_demo"))
                           (downloaded w video_url))
            | Raise msg =>
                (Ok (Nodes.index_failure_update msg),
                 after w [EvDownload video_url Nodes.local_filename])
            | Hang => (Hang, after w [EvDownload video_url Nodes.local_filename])
            end
        | Ok false => (Ok (Nodes.index_failure_update Nodes.unsupported_message), w)
        | Raise msg => (Ok (Nodes.index_failure_update msg), w)
        | Hang => (Hang, w)
        end
    end.
Proof.
  unfold Nodes.index_video_node, supported. cbn zeta.
  rewrite try_except_handled, bind_unfold. unfold VideoIndexer.init.
  destruct (svc_init svc) as [msg |]; [done |].
  unfold Eff.ret at 1. rewrite bind_unfold. unfold Eff.lift at 1.
  destruct (Py.has "youtube.com" _) as [[] | |]; cbn [mbind outcome_bind];
    [| | done | done].
  - rewrite bind_unfold. unfold Eff.ret at 1. apply index_download_unfold.
  - rewrite bind_unfold. unfold Eff.lift at 1.
    destruct (Py.has "youtu.be" _) as [[] | |]; [| done | done | done].
    apply index_download_unfold.
Qed.

Lemma release_unfold svc azure_video_id w :
  release_and_poll format svc azure_video_id w =
    let released := [EvPathExists Nodes.local_filename; EvRemove Nodes.local_filename] in
    if w_file w then
      match svc_remove svc with
      | Ok _ =>
          poll_and_extract format svc azure_video_id
            (World (w_trace w ++ released) false)
      | Raise msg => (Raise msg, after w released)
      | Hang => (Hang, after w released)
      end
    else
      poll_and_extract format svc azure_video_id
        (after w [EvPathExists Nodes.local_filename]).
Proof.
  unfold release_and_poll, Nodes.os_path_exists.
  rewrite bind_unfold, bind_unfold, emit_unfold.
  unfold Eff.file_present at 1. cbn [w_file after].
  destruct (w_file w) eqn:Hfile.
  - unfold Nodes.os_remove. rewrite bind_unfold, bind_unfold, call_unfold.
    rewrite after_after. unfold after at 1 2 3. cbn [w_trace w_file app].
    rewrite Hfile.
    destruct (svc_remove svc) as [[] | |];
      [| unfold after; by rewrite Hfile | unfold after; by rewrite Hfile].
    unfold Eff.set_file at 1. cbn [w_trace]. reflexivity.
  - rewrite bind_unfold. unfold Eff.ret at 1. unfold after. by rewrite Hfile.
Qed.

Lemma only_calls_poll_and_extract svc azure_video_id :
  only_calls (poll_and_extract format svc azure_video_id).
Proof.
  unfold poll_and_extract.
  pose proof (only_calls_wait_for_processing format).
  only_calls.
Qed.

Lemma handled_world r : (handled r).2 = r.2.
Proof. by destruct r as [[] ?]. Qed.

Lemma submit_unfold svc video_name w azure_video_id w2 :
  VideoIndexer.upload_video svc Nodes.local_filename video_name w
  = (Ok azure_video_id, w2) →
  submit_and_poll format svc video_name w
  = release_and_poll format svc azure_video_id w2.
Proof. intros H. unfold submit_and_poll. by rewrite bind_unfold, H. Qed.

End Indexing.

(** Claim C9, as the code has it: when acquisition and submission both
    succeed, the local media copy is removed right after the submission and
    before the first status check, so the stage ends without it whatever
    polling and extraction come to.  A failure of the removal is not
    swallowed: the handler of the stage turns it into a stage failure, and
    the file is still there. *)
Theorem index_releases_media format (svc : service) (s : State.VideoAuditState) (w w2 : world)
    (azure_video_id : pyval) :
  svc_init svc = None →
  supported (State.get s "video_url" PNone) = Ok true →
  svc_download svc = Ok () →
  VideoIndexer.upload_video svc Nodes.local_filename
    (State.get s "video_id" (PStr "vid_demo"))
    (downloaded w (State.get s "video_url" PNone))
  = (Ok azure_video_id, w2) →
  let released := [EvPathExists Nodes.local_filename; EvRemove Nodes.local_filename] in
  (svc_remove svc = Ok () →
     Nodes.index_video_node format svc s w
     = handled (poll_and_extract format svc azure_video_id
                  (World (w_trace w2 ++ released) false)) ∧
     w_file (Nodes.index_video_node format svc s w).2 = false) ∧
  (∀ msg,
     svc_remove svc = Raise msg →
     Nodes.index_video_node format svc s w
     = (Ok (Nodes.index_failure_update msg), World (w_trace w2 ++ released) true)).
Proof.
  intros Hinit Hurl Hdown Hup released.
  assert (w_file w2 = true) as Hfile.
  { destruct (only_calls_upload_video _ _ _ _ _ _ Hup) as [calls ->]. done. }
  assert (Nodes.index_video_node format svc s w
          = handled (release_and_poll format svc azure_video_id w2)) as Hnode.
  { rewrite index_unfold. cbn zeta. rewrite Hinit, Hurl, Hdown.
    by rewrite (submit_unfold _ _ _ _ _ _ Hup). }
  rewrite Hnode, release_unfold, Hfile. cbn zeta. split.
  - intros ->. split; [done |].
    rewrite handled_world.
    destruct (poll_and_extract _ _ _ _) as [r w3] eqn:Hpoll.
    apply only_calls_poll_and_extract in Hpoll as [calls ->]. done.
  - intros msg ->. unfold after. by rewrite Hfile.
Qed.

(** ** Substrings *)

Section Substrings.

Lemma append_cons c (a b : string) : String c a +:+ b = String c (a +:+ b).
Proof. reflexivity. Qed.

Lemma startswith_spec p s :
  Py.startswith p s = true ↔ ∃ rest, s = p +:+ rest.
Proof.
  revert s. induction p as [| a p IH]; intros s; cbn [Py.startswith].
  - split; [intros _; by exists s | done].
  - destruct s as [| b s].
    + split; [done | intros [rest H]; discriminate H].
    + destruct (Ascii.eqb_spec a b) as [-> | Hne].
      * rewrite IH. split; intros [rest H]; exists rest.
        -- rewrite append_cons. by f_equal.
        -- rewrite append_cons in H. by injection H.
      * split; [done |]. intros [rest H]. rewrite append_cons in H.
        injection H as ? _. by destruct Hne.
Qed.

(** [sub in s] holds exactly when [sub] occurs somewhere in [s]. *)
Lemma contains_spec sub s :
  Py.contains sub s = true ↔ ∃ pre post, s = pre +:+ sub +:+ post.
Proof.
  induction s as [| c s IH]; cbn [Py.contains].
  - destruct (Py.startswith sub "") eqn:E.
    + split; [intros _ | done]. apply startswith_spec in E as [rest E].
      by exists "", rest.
    + split; [done |]. intros (pre & post & H).
      destruct pre; [| discriminate H].
      assert (Py.startswith sub "" = true) by (apply startswith_spec; eauto).
      congruence.
  - destruct (Py.startswith sub (String c s)) eqn:E.
    + split; [intros _ | done]. apply startswith_spec in E as [rest E].
      by exists "", rest.
    + rewrite IH. split.
      * intros (pre & post & ->). by exists (String c pre), post.
      * intros (pre & post & H). destruct pre as [| c' pre].
        -- assert (Py.startswith sub (String c s) = true)
             by (apply startswith_spec; eauto).
           congruence.
        -- rewrite append_cons in H. injection H as -> ->. eauto.
Qed.

End Substrings.

Lemma index_releases_media_witness :
  supported (State.get (Sample.initial "https://youtu.be/abc") "video_url" PNone) = Ok true ∧
  VideoIndexer.upload_video Sample.service_ok Nodes.local_filename
    (PStr "vid_1a2b3c4d")
    (downloaded Sample.start (PStr "https://youtu.be/abc"))
  = (Ok (PStr "vi-42"),
     World [EvDownload (PStr "https://youtu.be/abc") "temp_audit_video.mp4";
            EvGetToken; EvTokenExchange; EvOpenFile "temp_audit_video.mp4";
            EvUploadPost (PStr "vid_1a2b3c4d")] true) ∧
  w_file (Nodes.index_video_node Sample.format Sample.service_ok
            (Sample.initial "https://youtu.be/abc") Sample.start).2 = false.
Proof.
  split; [reflexivity | split; [reflexivity |]].
  exact (proj2 (proj1 (index_releases_media Sample.format Sample.service_ok
                         (Sample.initial "https://youtu.be/abc") Sample.start
                         _ (PStr "vi-42") eq_refl eq_refl eq_refl eq_refl)
                  eq_refl)).
Defined.

(** Two runs in which acquisition succeeds.  In the first the removal of the
    local file raises: the stage returns a failure.  In the second the
    upload is answered with HTTP 500: the stage returns a failure, no
    removal was attempted and the file is still on disk. *)
Lemma index_leaves_media_behind :
  Nodes.index_video_node Sample.format
    (Sample.service_with Sample.uploaded (Raise "[Errno 13] Permission denied")
       [Sample.answer Sample.processed])
    (Sample.initial "https://youtu.be/abc") Sample.start
  = (Ok (Nodes.index_failure_update "[Errno 13] Permission denied"),
     World [EvDownload (PStr "https://youtu.be/abc") "temp_audit_video.mp4";
            EvGetToken; EvTokenExchange; EvOpenFile "temp_audit_video.mp4";
            EvUploadPost (PStr "vid_1a2b3c4d");
            EvPathExists "temp_audit_video.mp4"; EvRemove "temp_audit_video.mp4"]
           true) ∧
  Nodes.index_video_node Sample.format
    (Sample.service_with (Ok (Response 500 "Internal Server Error" (Raise "Expecting value")))
       (Ok ()) [Sample.answer Sample.processed])
    (Sample.initial "https://youtu.be/abc") Sample.start
  = (Ok (Nodes.index_failure_update
           "Failed to upload video on Azure Video Indexer : Internal Server Error"),
     World [EvDownload (PStr "https://youtu.be/abc") "temp_audit_video.mp4";
            EvGetToken; EvTokenExchange; EvOpenFile "temp_audit_video.mp4";
            EvUploadPost (PStr "vid_1a2b3c4d")]
           true).
Proof. split; reflexivity. Qed.

Section Traces.

Lemma extends_trace_only_calls {A} (m : M A) : only_calls m → extends_trace m.
Proof. intros H w r w' [calls ->]%H. by exists calls. Qed.

Lemma extends_trace_bind {A B} (m : M A) (k : A → M B) :
  extends_trace m → (∀ a, extends_trace (k a)) → extends_trace (m ≫= k).
Proof.
  intros Hm Hk w r w'. rewrite bind_unfold.
  destruct (m w) as [[a | msg |] w1] eqn:E; destruct (Hm _ _ _ E) as [c1 H1].
  - intros [c2 H2]%Hk. exists (c1 ++ c2). by rewrite H2, H1, app_assoc.
  - intros [= <- <-]. eauto.
  - intros [= <- <-]. eauto.
Qed.

Lemma extends_trace_os_remove svc path : extends_trace (Nodes.os_remove svc path).
Proof.
  unfold Nodes.os_remove. apply extends_trace_bind.
  - apply extends_trace_only_calls, only_calls_call.
  - intros _ w r w' [= <- <-]. exists []. cbn. by rewrite app_nil_r.
Qed.

Lemma extends_trace_os_path_exists path : extends_trace (Nodes.os_path_exists path).
Proof.
  unfold Nodes.os_path_exists. apply extends_trace_bind.
  - apply extends_trace_only_calls, only_calls_emit.
  - intros _ w r w' [= <- <-]. exists []. by rewrite app_nil_r.
Qed.

Lemma extends_trace_submit_and_poll format svc video_name :
  extends_trace (submit_and_poll format svc video_name).
Proof.
  unfold submit_and_poll, release_and_poll.
  apply extends_trace_bind;
    [apply extends_trace_only_calls, only_calls_upload_video | intros id].
  apply extends_trace_bind; [apply extends_trace_os_path_exists | intros present].
  apply extends_trace_bind.
  - destruct present; [apply extends_trace_os_remove |].
    apply extends_trace_only_calls, only_calls_ret.
  - intros _. apply extends_trace_only_calls, only_calls_poll_and_extract.
Qed.

Lemma supported_str url :
  supported (PStr url)
  = Ok (Py.contains "youtube.com" url || Py.contains "youtu.be" url).
Proof. unfold supported. cbn. by destruct (Py.contains "youtube.com" url). Qed.

End Traces.

(** Claim C8: on a video reference that does not pass the validation (the
    two substring tests are false, or the reference is a value on which the
    test itself raises) the indexer returns at once the failure update, whose
    [errors] hold the message and whose [final_status] is FAIL, and it has
    made no call: the world is as it was.  For a reference that fails both
    tests the message is the one about unsupported URLs, unless the
    constructor of the service has raised first.  Merged into the state, the
    update appends the message to [errors] and sets [final_status] to
    FAIL. *)
Theorem index_rejects_unsupported format (svc : service) (s : State.VideoAuditState)
    (w : world) :
  supported (State.get s "video_url" PNone) ≠ Ok true →
  ∃ msg,
    Nodes.index_video_node format svc s w = (Ok (Nodes.index_failure_update msg), w) ∧
    (svc_init svc = None →
     supported (State.get s "video_url" PNone) = Ok false →
     msg = Nodes.unsupported_message) ∧
    Nodes.index_failure_update msg !! "errors" = Some (PList [PStr msg]) ∧
    Nodes.index_failure_update msg !! "final_status" = Some (PStr "FAIL") ∧
    (∃ s', State.merge s (Nodes.index_failure_update msg) = Ok s' ∧
           State.errors s' = State.errors s ++ [PStr msg] ∧
           State.lookup s' "final_status" = Some (PStr "FAIL")) ∧
    Nodes.unsupported_message
    = "Unsupported video URL. Only YouTube URLs are supported in this".
Proof.
  intros Hurl.
  assert (∃ msg,
            Nodes.index_video_node format svc s w
            = (Ok (Nodes.index_failure_update msg), w) ∧
            (svc_init svc = None →
             supported (State.get s "video_url" PNone) = Ok false →
             msg = Nodes.unsupported_message)) as (msg & Hrun & Hmsg).
  { rewrite index_unfold. cbn zeta.
    destruct (svc_init svc) as [m |]; [by exists m |].
    destruct (supported (State.get s "video_url" PNone)) as [[] | m |] eqn:Hs.
    - done.
    - by exists Nodes.unsupported_message.
    - exists m. split; [done | discriminate].
    - exfalso. revert Hs. unfold supported.
      destruct (State.get s "video_url" PNone); cbn; try done;
        by destruct (existsb _ _) || destruct (Py.contains _ _). }
  exists msg. split; [exact Hrun |]. split; [exact Hmsg |].
  split; [reflexivity |]. split; [reflexivity |]. split; [| reflexivity].
  pose proof (merge_appendable s (Nodes.index_failure_update msg) eq_refl) as Hm.
  eexists. split; [exact Hm |]. split; [reflexivity |].
  by eapply merge_final_status.
Qed.

Lemma index_rejects_unsupported_witness :
  supported (State.get (Sample.initial "https://vimeo.com/123") "video_url" PNone)
  ≠ Ok true ∧
  ∃ msg,
    Nodes.index_video_node Sample.format Sample.service_ok
      (Sample.initial "https://vimeo.com/123") Sample.start
    = (Ok (Nodes.index_failure_update msg), Sample.start) ∧
    msg = Nodes.unsupported_message.
Proof.
  assert (supported (State.get (Sample.initial "https://vimeo.com/123") "video_url" PNone)
          ≠ Ok true) as Hurl by (vm_compute; discriminate).
  split; [exact Hurl |].
  destruct (index_rejects_unsupported Sample.format Sample.service_ok
              (Sample.initial "https://vimeo.com/123") Sample.start Hurl)
    as (msg & Hrun & Hmsg & _).
  exists msg. split; [exact Hrun | exact (Hmsg eq_refl eq_refl)].
Defined.

(** Claim C10: the indexer accepts a video URL exactly when ["youtube.com"]
    or ["youtu.be"] occurs somewhere in its text.  An accepted URL goes to
    the download, which is the first call the node makes; a rejected one gets
    the failure update without any call.  The check is on the text, not on
    the host: a URL on another host that carries one of the two strings in
    its query is accepted. *)
Theorem index_validates_by_substring format (svc : service) (s : State.VideoAuditState)
    (w : world) (url : string) :
  State.lookup s "video_url" = Some (PStr url) →
  svc_init svc = None →
  let accepted := Py.contains "youtube.com" url || Py.contains "youtu.be" url in
  (accepted = true ↔
   ∃ pre post, url = pre +:+ "youtube.com" +:+ post ∨ url = pre +:+ "youtu.be" +:+ post) ∧
  (accepted = true →
   ∃ r calls file,
     Nodes.index_video_node format svc s w
     = (r, World (w_trace w ++ EvDownload (PStr url) Nodes.local_filename :: calls) file)) ∧
  (accepted = false →
   Nodes.index_video_node format svc s w
   = (Ok (Nodes.index_failure_update Nodes.unsupported_message), w)) ∧
  Py.contains "youtube.com" "https://example.org/watch?ref=youtube.com" = true.
Proof.
  intros Hurl Hinit accepted.
  assert (State.get s "video_url" PNone = PStr url) as Hget
    by (unfold State.get; by rewrite Hurl).
  split; [| split; [| split; [| reflexivity]]].
  - unfold accepted. rewrite orb_true_iff, !contains_spec. split.
    + intros [(pre & post & H) | (pre & post & H)]; exists pre, post; auto.
    + intros (pre & post & [H | H]); [left | right]; eauto.
  - intros Hacc. rewrite index_unfold. cbn zeta.
    rewrite Hinit, Hget, supported_str. fold accepted. rewrite Hacc.
    destruct (svc_download svc) as [[] | msg |].
    + destruct (submit_and_poll _ _ _ _) as [r w'] eqn:Hrun.
      apply extends_trace_submit_and_poll in Hrun as [calls Hcalls].
      exists (handled (r, w')).1, calls, (w_file w').
      destruct w' as [t f]. cbn in Hcalls. subst t.
      rewrite <- app_assoc. by destruct r.
    + by exists (Ok (Nodes.index_failure_update msg)), [], (w_file w).
    + by exists Hang, [], (w_file w).
  - intros Hacc. rewrite index_unfold. cbn zeta.
    rewrite Hinit, Hget, supported_str. fold accepted. by rewrite Hacc.
Qed.

Lemma index_validates_by_substring_witness :
  State.lookup (Sample.initial "https://example.org/watch?ref=youtube.com") "video_url"
  = Some (PStr "https://example.org/watch?ref=youtube.com") ∧
  svc_init Sample.service_ok = None ∧
  ∃ r calls file,
    Nodes.index_video_node Sample.format Sample.service_ok
      (Sample.initial "https://example.org/watch?ref=youtube.com") Sample.start
    = (r, World (EvDownload (PStr "https://example.org/watch?ref=youtube.com")
                   "temp_audit_video.mp4" :: calls) file).
Proof.
  split; [reflexivity | split; [reflexivity |]].
  exact (proj1 (proj2 (index_validates_by_substring Sample.format Sample.service_ok
                         (Sample.initial "https://example.org/watch?ref=youtube.com")
                         Sample.start _ eq_refl eq_refl)) eq_refl).
Defined.

(** ** The extractor *)

Section Dedup.

Implicit Types (l keys : list string) (x : string).

Lemma filter_all (P : string → Prop) `{!∀ x, Decision (P x)} l :
  (∀ x, x ∈ l → P x) → filter P l = l.
Proof.
  induction l as [| y l IH]; intros Hall; [done |].
  rewrite filter_cons_True by (apply Hall; by left).
  rewrite IH; [done |]. intros x Hx. apply Hall. by right.
Qed.

Lemma first_occurrences_elem l x : x ∈ first_occurrences l ↔ x ∈ l.
Proof.
  induction l as [| y l IH]; cbn [first_occurrences]; [done |].
  rewrite !elem_of_cons, list_elem_of_filter, IH.
  destruct (decide (x = y)); naive_solver.
Qed.

Lemma first_occurrences_NoDup l : NoDup (first_occurrences l).
Proof.
  induction l as [| y l IH]; cbn [first_occurrences]; constructor.
  - rewrite list_elem_of_filter. naive_solver.
  - by apply NoDup_filter.
Qed.

Lemma first_occurrences_sublist l : first_occurrences l `sublist_of` l.
Proof.
  induction l as [| y l IH]; cbn [first_occurrences]; [done |].
  apply sublist_skip. etrans; [apply sublist_filter | done].
Qed.

(** A list without repeats is left as it is. *)
Lemma first_occurrences_id l : NoDup l → first_occurrences l = l.
Proof.
  induction 1 as [| y l Hy _ IH]; cbn [first_occurrences]; [done |].
  rewrite IH. f_equal. apply filter_all. by intros z Hz ->.
Qed.

(** [dict.fromkeys] on strings: the keys so far, then the first
    occurrences of the new ones. *)
Lemma fromkeys_go_strings keys l :
  Py.fromkeys_go (PStr <$> keys) (PStr <$> l)
  = Ok (PStr <$> (keys ++ filter (λ y, y ∉ keys) (first_occurrences l))).
Proof.
  revert keys. induction l as [| x l IH]; intros keys.
  - cbn. by rewrite app_nil_r.
  - cbn [fmap list_fmap Py.fromkeys_go Py.hashable first_occurrences].
    assert (existsb (Py.key_eqb (PStr x)) (PStr <$> keys) = bool_decide (x ∈ keys))
      as ->.
    { induction keys as [| k keys IHk]; [done |].
      cbn [fmap list_fmap existsb Py.key_eqb]. rewrite IHk.
      destruct (String.eqb_spec x k) as [-> | Hne].
      - symmetry. apply bool_decide_eq_true_2. by left.
      - cbn. apply bool_decide_ext. rewrite elem_of_cons. naive_solver. }
    rewrite filter_cons. case_bool_decide as Hx.
    + rewrite IH. rewrite decide_False by naive_solver.
      do 3 f_equal. rewrite list_filter_filter. apply list_filter_iff.
      intros y. naive_solver.
    + replace ((PStr <$> keys) ++ [PStr x]) with (PStr <$> (keys ++ [x]))
        by (by rewrite fmap_app).
      rewrite IH, decide_True by done.
      rewrite <- app_assoc. cbn [app].
      do 4 f_equal. rewrite list_filter_filter. apply list_filter_iff.
      intros y. rewrite elem_of_app, list_elem_of_singleton. naive_solver.
Qed.

Lemma fromkeys_strings l :
  Py.fromkeys (PStr <$> l) = Ok (PStr <$> first_occurrences l).
Proof.
  unfold Py.fromkeys. change (@nil pyval) with (PStr <$> @nil string).
  rewrite (fromkeys_go_strings [] l). cbn [app].
  do 2 f_equal. apply filter_all. intros y _. apply not_elem_of_nil.
Qed.

Lemma as_strs_strings i l : Py.as_strs i (PStr <$> l) = Ok l.
Proof.
  revert i. induction l as [| x l IH]; intros i; [done |].
  cbn [fmap list_fmap Py.as_strs]. change (PStr <$> l) with (list_fmap _ _ PStr l).
  by rewrite IH.
Qed.

Lemma join_values_strings sep l : Py.join_values sep (PStr <$> l) = Ok (Py.join sep l).
Proof. unfold Py.join_values. by rewrite as_strs_strings. Qed.

End Dedup.

Section Extractor.

Implicit Types (acc : list pyval) (d : list (string * pyval)).

Lemma first_occurrences_app (l1 l2 : list string) :
  first_occurrences (l1 ++ l2)
  = first_occurrences l1 ++ filter (λ y, y ∉ l1) (first_occurrences l2).
Proof.
  induction l1 as [| x l1 IH]; cbn [app first_occurrences].
  - symmetry. apply filter_all. intros y _. apply not_elem_of_nil.
  - rewrite IH, filter_app, list_filter_filter. do 2 f_equal.
    apply list_filter_iff. intros y. rewrite elem_of_cons. naive_solver.
Qed.

Lemma collect_texts field items acc :
  forallb (item_ok field) items = true →
  VideoIndexer.collect field items acc = Ok (acc ++ (PStr <$> texts field items)).
Proof.
  revert acc. induction items as [| item items IH]; intros acc Hok.
  - cbn. by rewrite app_nil_r.
  - cbn [forallb] in Hok. apply andb_prop in Hok as [Hitem Hitems].
    cbn [VideoIndexer.collect]. unfold texts, item_ok in *.
    destruct item as [| | | | | d]; try done.
    cbn [Py.get mbind outcome_bind omap list_omap text_of].
    destruct (Py.lookup field d) as [[| | | t | |] |]; try done;
      cbn [from_option id Py.truthy]; [by apply IH | | by apply IH].
    destruct (String.eqb t ""); cbn [negb]; [by apply IH |].
    rewrite IH by done. by rewrite <- app_assoc.
Qed.

Lemma harvest_texts key field d acc :
  items_ok field (Py.lookup key d) = true →
  VideoIndexer.harvest (PDict d) key field acc
  = Ok (acc ++ (PStr <$> block_texts key field (PDict d))).
Proof.
  unfold VideoIndexer.harvest, items_ok, block_texts. cbn [Py.get mbind outcome_bind].
  destruct (Py.lookup key d) as [[| | | | items |] |]; try done;
    cbn [from_option id Py.iter].
  - apply collect_texts.
  - intros _. cbn. by rewrite app_nil_r.
Qed.

Lemma process_block_texts block (found : VideoIndexer.lines) :
  block_ok block = true →
  VideoIndexer.process_block block found
  = Ok (VideoIndexer.Lines
          (VideoIndexer.transcripts_lines found
             ++ (PStr <$> block_texts "transcript" "text" block))
          (VideoIndexer.ocr_lines found ++ (PStr <$> block_texts "ocr" "text" block))
          (VideoIndexer.brands_found found
             ++ (PStr <$> block_texts "brands" "name" block))).
Proof.
  unfold block_ok, VideoIndexer.process_block.
  destruct block as [| | | | | d]; try done.
  intros [[Ht Ho]%andb_prop Hb]%andb_prop.
  by rewrite !harvest_texts.
Qed.

Lemma process_videos_texts videos (found : VideoIndexer.lines) :
  forallb holder_ok videos = true →
  VideoIndexer.process_videos videos found
  = Ok (VideoIndexer.Lines
          (VideoIndexer.transcripts_lines found ++
             (PStr <$> List.concat
                (List.map (λ v, block_texts "transcript" "text" (insights_of v)) videos)))
          (VideoIndexer.ocr_lines found ++
             (PStr <$> List.concat
                (List.map (λ v, block_texts "ocr" "text" (insights_of v)) videos)))
          (VideoIndexer.brands_found found ++
             (PStr <$> List.concat
                (List.map (λ v, block_texts "brands" "name" (insights_of v)) videos)))).
Proof.
  revert found. induction videos as [| v videos IH]; intros found Hok.
  - cbn. rewrite !app_nil_r. by destruct found.
  - cbn [forallb] in Hok. apply andb_prop in Hok as [Hv Hvs].
    cbn [VideoIndexer.process_videos]. unfold holder_ok in Hv.
    destruct v as [| | | | | d]; try done.
    change (Py.get (PDict d) "insights" (PDict [])) with (Ok (insights_of (PDict d))).
    cbn [mbind outcome_bind]. rewrite process_block_texts by done.
    cbn [mbind outcome_bind]. rewrite IH by done. cbn [VideoIndexer.transcripts_lines VideoIndexer.ocr_lines
                               VideoIndexer.brands_found List.map List.concat].
    by rewrite !fmap_app, !app_assoc.
Qed.

Lemma extract_data_extracted raw :
  well_formed raw = true → VideoIndexer.extract_data raw = Ok (extracted raw).
Proof.
  unfold well_formed. destruct raw as [| | | | | d]; try done.
  intros [[Htop Hvideos]%andb_prop Hsummary]%andb_prop.
  unfold VideoIndexer.extract_data.
  change (Py.get (PDict d) "insights" (PDict [])) with (Ok (insights_of (PDict d))).
  cbn [mbind outcome_bind]. rewrite process_block_texts by done.
  cbn [mbind outcome_bind VideoIndexer.transcripts_lines VideoIndexer.ocr_lines
         VideoIndexer.brands_found app].
  assert (Py.iter (default (PList []) (Py.lookup "videos" d))
          = Ok (videos_of (PDict d)) ∧
          forallb holder_ok (videos_of (PDict d)) = true) as [Hvs Hvok].
  { unfold videos_of. by destruct (Py.lookup "videos" d) as [[] |]. }
  cbn [Py.get mbind outcome_bind]. rewrite Hvs. cbn [mbind outcome_bind].
  rewrite process_videos_texts by done.
  cbn [mbind outcome_bind VideoIndexer.transcripts_lines VideoIndexer.ocr_lines
         VideoIndexer.brands_found].
  rewrite <- !fmap_app. fold (all_texts "transcript" "text" (PDict d)).
  fold (all_texts "ocr" "text" (PDict d)). fold (all_texts "brands" "name" (PDict d)).
  rewrite !fromkeys_strings. cbn [mbind outcome_bind].
  rewrite join_values_strings. cbn [mbind outcome_bind].
  unfold extracted, metadata_of.
  destruct (Py.lookup "summarizedInsights" d) as [[] |]; try done.
Qed.

End Extractor.

(** Claim C7: on a well-formed analysis result the extractor returns the
    record of the specification: the spoken lines, the on-screen lines and
    the mark names are harvested from the top-level insights and then from
    the insights of every video, an item counting only when its text or name
    is a non-empty string; the transcript is the first occurrences of the
    spoken lines joined by spaces, and the two other fields are the first
    occurrences of their lines.  Deduplication keeps every line once, at its
    first occurrence, in the order of the input, and compares lines as they
    are: [A, B, A, C, B] gives [A, B, C], and [a, A] stays [a, A]. *)
Theorem extract_data_dedups (raw : pyval) :
  well_formed raw = true →
  VideoIndexer.extract_data raw = Ok (extracted raw) ∧
  (∀ l : list string,
      Py.fromkeys (PStr <$> l) = Ok (PStr <$> first_occurrences l) ∧
      NoDup (first_occurrences l) ∧
      (∀ x, x ∈ first_occurrences l ↔ x ∈ l) ∧
      first_occurrences l `sublist_of` l) ∧
  (∀ l1 l2 : list string,
      first_occurrences (l1 ++ l2)
      = first_occurrences l1 ++ filter (λ y, y ∉ l1) (first_occurrences l2)) ∧
  first_occurrences ["A"; "B"; "A"; "C"; "B"] = ["A"; "B"; "C"] ∧
  first_occurrences ["a"; "A"] = ["a"; "A"].
Proof.
  intros Hraw. split; [by apply extract_data_extracted |].
  split; [| split; [apply first_occurrences_app | split; reflexivity]].
  intros l. split; [apply fromkeys_strings |].
  split; [apply first_occurrences_NoDup |].
  split; [intros x; apply first_occurrences_elem | apply first_occurrences_sublist].
Qed.

Lemma extract_data_dedups_witness :
  well_formed Sample.processed = true ∧
  VideoIndexer.extract_data Sample.processed = Ok (extracted Sample.processed) ∧
  extracted Sample.processed !! "transcript" = Some (PStr "A B C") ∧
  extracted Sample.processed !! "ocr_text" = Some (PList [PStr "SALE"]) ∧
  extracted Sample.processed !! "detected_brands" = Some (PList [PStr "Acme"]).
Proof.
  split; [reflexivity |].
  split; [exact (proj1 (extract_data_dedups Sample.processed eq_refl)) |].
  repeat split; reflexivity.
Defined.

(** ** The pipeline *)

Section Pipeline.

Variable format : pyval → string.
Variable json_loads : string → option pyval.

Implicit Types (svc : service) (env : audit_env) (s : State.VideoAuditState) (w : world)
  (u : gmap string pyval).

Abbreviation audit := (Nodes.compliance_audit_node json_loads).

Lemma step_unfold (node : State.VideoAuditState → M (gmap string pyval)) s w :
  Nodes.step node s w =
    match node s w with
    | (Ok u, w1) => (State.merge s u, w1)
    | (Raise msg, w1) => (Raise msg, w1)
    | (Hang, w1) => (Hang, w1)
    end.
Proof. unfold Nodes.step. by rewrite bind_unfold. Qed.

Lemma step_Ok_inv (node : State.VideoAuditState → M (gmap string pyval)) s w s' w' :
  Nodes.step node s w = (Ok s', w') →
  ∃ u, node s w = (Ok u, w') ∧ State.merge s u = Ok s'.
Proof.
  rewrite step_unfold. destruct (node s w) as [[u | msg |] w1]; [| done | done].
  intros [= H <-]. eauto.
Qed.






(** Whenever the audit step returns, the status is set, and it is FAIL
    unless the response parsed to an object that says otherwise. *)
Lemma audit_step_status env s w sf w' :
  Nodes.step (audit env) s w = (Ok sf, w') →
  ∃ status,
    State.lookup sf "final_status" = Some status ∧
    (status = PStr "FAIL" ∨
     ∃ content obj,
       env_generate env = Ok content ∧
       json_loads (Nodes.json_text content) = Some (PDict obj) ∧
       status = default (PStr "FAIL") (Py.lookup "status" obj)).
Proof.
  intros (u & Hu & Hm)%step_Ok_inv.
  apply audit_update in Hu
    as [(_ & -> & _) | (_ & [(c & _ & _ & ->) | [(c & o & Hc & Ho & ->) | (m & ->)]])].
  - exists (PStr "FAIL"). split; [by eapply merge_final_status | by left].
  - exists (PStr "FAIL"). split; [by eapply merge_final_status | by left].
  - exists (default (PStr "FAIL") (Py.lookup "status" o)).
    split; [by eapply merge_final_status | right; eauto].
  - exists (PStr "FAIL"). split; [by eapply merge_final_status | by left].
Qed.

End Pipeline.




(** The input dict of the callers becomes the sample initial state, so
    [invoke] on it is the pipeline on that state. *)
Example invoke_sample_input :
  State.merge State.empty (Sample.input "https://youtu.be/abc")
  = Ok (Sample.initial "https://youtu.be/abc").
Proof. reflexivity. Qed.

(** * Further properties *)

(** ** The extraction of the JSON text *)

Section FencedText.

Lemma append_assoc (a b c : string) : (a +:+ b) +:+ c = a +:+ b +:+ c.
Proof. induction a as [| x a IH]; [done |]. by rewrite !append_cons, IH. Qed.

Lemma startswith_app p rest : Py.startswith p (p +:+ rest) = true.
Proof. apply startswith_spec. by exists rest. Qed.

Lemma drop_app p rest : Py.drop (String.length p) (p +:+ rest) = rest.
Proof. induction p as [| x p IH]; [done |]. by rewrite append_cons. Qed.

(** The leftmost fence of a text that begins without backticks. *)
Lemma split_first_fence pre rest :
  no_backtick pre = true →
  Py.split_first Nodes.fence (pre +:+ Nodes.fence +:+ rest) = Some (pre, rest).
Proof.
  induction pre as [| c pre IH]; intros Hpre.
  - change ("" +:+ Nodes.fence +:+ rest) with (Nodes.fence +:+ rest).
    destruct rest; reflexivity.
  - cbn [no_backtick] in Hpre. apply andb_prop in Hpre as [Hc Hpre].
    rewrite append_cons. cbn [Py.split_first].
    replace (Py.startswith Nodes.fence (String c (pre +:+ Nodes.fence +:+ rest)))
      with false.
    + by rewrite IH.
    + unfold Nodes.fence. cbn [Py.startswith].
      rewrite Ascii.eqb_sym. by destruct (Ascii.eqb c "`").
Qed.

Lemma split_first_absent sub s :
  Py.contains sub s = false → Py.split_first sub s = None.
Proof.
  induction s as [| c s IH]; cbn [Py.contains Py.split_first];
    destruct (Py.startswith sub _); try done.
  intros H. by rewrite IH.
Qed.

Lemma lstrip_before_fence body rest :
  Py.lstrip (body +:+ Nodes.fence +:+ rest) = Py.lstrip body +:+ Nodes.fence +:+ rest.
Proof.
  induction body as [| c body IH]; [by destruct rest |].
  rewrite append_cons. cbn [Py.lstrip]. by destruct (Py.is_space c).
Qed.

Lemma no_backtick_lstrip body :
  no_backtick body = true → no_backtick (Py.lstrip body) = true.
Proof.
  induction body as [| c body IH]; [done |].
  intros H. cbn [Py.lstrip]. destruct (Py.is_space c); [| done].
  cbn [no_backtick] in H. apply andb_prop in H as [_ H]. by apply IH.
Qed.

Lemma lstrip_lstrip s : Py.lstrip (Py.lstrip s) = Py.lstrip s.
Proof.
  induction s as [| c s IH]; [done |]. cbn [Py.lstrip].
  destruct (Py.is_space c) eqn:E; [done |]. cbn [Py.lstrip]. by rewrite E.
Qed.

Lemma contains_tail sub c s :
  Py.contains sub (String c s) = false → Py.contains sub s = false.
Proof. cbn [Py.contains]. by destruct (Py.startswith sub (String c s)). Qed.

Lemma contains_drop sub n s :
  Py.contains sub s = false → Py.contains sub (Py.drop n s) = false.
Proof.
  revert s. induction n as [| n IH]; intros s H; [done |].
  destruct s as [| c s]; [done |]. cbn [Py.drop]. eapply IH, contains_tail, H.
Qed.

Lemma contains_lstrip sub s :
  Py.contains sub s = false → Py.contains sub (Py.lstrip s) = false.
Proof.
  induction s as [| c s IH]; [done |]. intros H. cbn [Py.lstrip].
  destruct (Py.is_space c); [| done]. eapply IH, contains_tail, H.
Qed.

End FencedText.

(** X1. A response that carries one fenced block, with or without the
    [json] tag, gives the interior of the block, stripped: the text before
    the opening fence and after the closing fence is dropped.  (Without the
    tag, the interior must not begin with [j], so that no tag is read off
    it.) *)
Theorem json_text_fenced (pre body post : string) (tagged : bool) :
  no_backtick pre = true →
  no_backtick body = true →
  (tagged = false → Py.startswith "j" body = false) →
  Nodes.json_text
    (pre +:+ "```" +:+ (if tagged then "json" else "") +:+ body +:+ "```" +:+ post)
  = Py.strip body.
Proof.
  intros Hpre Hbody Htag. unfold Nodes.json_text, Nodes.fenced_block.
  rewrite (split_first_fence pre _ Hpre).
  assert ((if Py.startswith "json"
                ((if tagged then "json" else "") +:+ body +:+ "```" +:+ post)
           then Py.drop 4 ((if tagged then "json" else "") +:+ body +:+ "```" +:+ post)
           else (if tagged then "json" else "") +:+ body +:+ "```" +:+ post)
          = body +:+ Nodes.fence +:+ post) as ->.
  { destruct tagged.
    - rewrite startswith_app. apply (drop_app "json").
    - change ("" +:+ body +:+ "```" +:+ post) with (body +:+ "```" +:+ post).
      specialize (Htag eq_refl).
      destruct body as [| c body]; [by destruct post |].
      rewrite append_cons. cbn [Py.startswith] in Htag |- *.
      by destruct (Ascii.eqb "j" c). }
  rewrite lstrip_before_fence, split_first_fence by by apply no_backtick_lstrip.
  unfold Py.strip. by rewrite lstrip_lstrip.
Qed.

Lemma json_text_fenced_witness :
  no_backtick "Here is the verdict: " = true ∧
  no_backtick (Sample.nbsp +:+ Sample.pass_json +:+ Sample.next_line) = true ∧
  Nodes.json_text
    ("Here is the verdict: " +:+ "```" +:+ "json"
     +:+ (Sample.nbsp +:+ Sample.pass_json +:+ Sample.next_line) +:+ "```"
     +:+ " Regards")
  = Sample.pass_json.
Proof.
  split; [reflexivity | split; [reflexivity |]].
  exact (json_text_fenced "Here is the verdict: "
           (Sample.nbsp +:+ Sample.pass_json +:+ Sample.next_line) " Regards" true
           eq_refl eq_refl (λ H, match H with end)).
Defined.

(** X2. A response without a fence is used whole, stripped. *)
Theorem json_text_unfenced (content : string) :
  Py.contains "```" content = false →
  Nodes.json_text content = Py.strip content.
Proof.
  intros H. unfold Nodes.json_text, Nodes.fenced_block, Nodes.fence.
  by rewrite (split_first_absent _ _ H).
Qed.

Lemma json_text_unfenced_witness :
  Py.contains "```" (Sample.nbsp +:+ " " +:+ Sample.review_json +:+ Sample.nbsp)
  = false ∧
  Nodes.json_text (Sample.nbsp +:+ " " +:+ Sample.review_json +:+ Sample.nbsp)
  = Sample.review_json.
Proof.
  split; [reflexivity |].
  exact (json_text_unfenced
           (Sample.nbsp +:+ " " +:+ Sample.review_json +:+ Sample.nbsp) eq_refl).
Defined.

(** X3. An opening fence that is never closed is no fence: the response is
    used whole, fence and tag included. *)
Theorem json_text_unclosed_fence (pre rest : string) :
  no_backtick pre = true →
  Py.contains "```" rest = false →
  Nodes.json_text (pre +:+ "```" +:+ rest) = Py.strip (pre +:+ "```" +:+ rest).
Proof.
  intros Hpre Hrest. unfold Nodes.json_text, Nodes.fenced_block.
  change (pre +:+ "```" +:+ rest) with (pre +:+ Nodes.fence +:+ rest).
  rewrite (split_first_fence pre rest Hpre). unfold Nodes.fence.
  rewrite split_first_absent; [done |].
  apply contains_lstrip. destruct (Py.startswith "json" rest); [| done].
  by apply contains_drop.
Qed.

Lemma json_text_unclosed_fence_witness :
  no_backtick Sample.next_line = true ∧
  Py.contains "```" ("json" +:+ Sample.pass_json +:+ Sample.nbsp) = false ∧
  Nodes.json_text
    (Sample.next_line +:+ "```" +:+ "json" +:+ Sample.pass_json +:+ Sample.nbsp)
  = "```json" +:+ Sample.pass_json.
Proof.
  split; [reflexivity | split; [reflexivity |]].
  exact (json_text_unclosed_fence Sample.next_line
           ("json" +:+ Sample.pass_json +:+ Sample.nbsp) eq_refl eq_refl).
Defined.

(** ** The audit node, further *)

Section AuditFurther.

Variable json_loads : string → option pyval.

Implicit Types (env : audit_env) (s : State.VideoAuditState) (w : world).

(** The retrieval part on a state whose content is typed: slicing and
    joining cannot raise, so only the clients and the search can. *)
Lemma retrieve_typed env s w transcript ocr_text :
  content_typed s transcript ocr_text →
  Nodes.retrieve env (State.get s "region" (PStr "Global"))
    (State.get s "transcript" (PStr "")) (State.get s "ocr_text" (PList [])) w
  = match env_clients env with
    | Ok _ =>
        (env_search env,
         after w (retrieval_calls (State.get s "region" (PStr "Global"))
                    transcript ocr_text))
    | Raise msg => (Raise msg, after w [EvClients])
    | Hang => (Hang, after w [EvClients])
    end.
Proof.
  intros [Ht Ho]. unfold State.get. rewrite Ht, Ho. cbn [from_option id].
  unfold Nodes.retrieve. rewrite bind_unfold, call_unfold.
  destruct (env_clients env) as [[] | |]; [| done | done].
  rewrite bind_unfold. unfold Eff.lift at 1. cbn [Py.slice].
  rewrite bind_unfold. unfold Eff.lift at 1.
  rewrite bind_unfold. unfold Eff.lift at 1. cbn [Py.iter].
  rewrite bind_unfold. unfold Eff.lift at 1.
  replace (List.firstn 200 (PStr <$> ocr_text)) with (PStr <$> List.firstn 200 ocr_text)
    by apply fmap_take.
  rewrite join_values_strings, call_unfold, after_after. reflexivity.
Qed.

(** The [try] statement raises in one case only: the chat model raised a
    [json.JSONDecodeError]. *)
Lemma verdict_Raise_inv env w msg w' :
  Nodes.verdict json_loads env w = (Raise msg, w') ↔
  (∃ m, env_generate env = Raise m) ∧ env_decode_error env = true ∧
  msg = Nodes.unbound_local "response" ∧ w' = after w [EvGenerate].
Proof.
  rewrite verdict_unfold. destruct (env_generate env) as [content | m |].
  - split; [| by intros [[m ?] _]].
    by destruct (json_loads (Nodes.json_text content)) as [[] |].
  - destruct (env_decode_error env).
    + split; [intros [= <- <-]; eauto | by intros (_ & _ & -> & ->)].
    + split; [done | by intros (_ & ? & _)].
  - split; [done | by intros [[m ?] _]].
Qed.

End AuditFurther.

(** X4. On a state whose transcript is a string and whose on-screen text is a
    list of strings, the audit node raises in three cases and no other, all
    with content to audit: the construction of the clients raises; the
    similarity search raises (both are outside the [try], and the exception
    is theirs); or the chat model raises a [json.JSONDecodeError], which
    sends the node into the clause that reads the unbound [response].  A
    response that does not parse, a parsed value of any shape, and an
    exception of the chat model of any other class never make the node
    raise. *)
Theorem audit_raises_exactly_when json_loads (env : audit_env)
    (s : State.VideoAuditState) (w : world) (transcript : string)
    (ocr_text : list string) :
  content_typed s transcript ocr_text →
  ∀ msg w',
    Nodes.compliance_audit_node json_loads env s w = (Raise msg, w') ↔
    no_content s = false ∧
    ((env_clients env = Raise msg ∧ w' = after w [EvClients]) ∨
     (env_clients env = Ok () ∧ env_search env = Raise msg ∧
      w' = after w (retrieval_calls (State.get s "region" (PStr "Global"))
                      transcript ocr_text)) ∨
     (env_clients env = Ok () ∧ (∃ docs, env_search env = Ok docs) ∧
      (∃ m, env_generate env = Raise m) ∧ env_decode_error env = true ∧
      msg = Nodes.unbound_local "response" ∧
      w' = after w (retrieval_calls (State.get s "region" (PStr "Global"))
                      transcript ocr_text ++ [EvGenerate]))).
Proof.
  intros Hs msg w'. rewrite audit_node_unfold, (retrieve_typed env s w _ _ Hs).
  destruct (no_content s); [split; [done | by intros [? _]] |].
  destruct (env_clients env) as [[] | m |].
  - destruct (env_search env) as [docs | m |].
    + rewrite verdict_Raise_inv, after_after. split.
      * intros (Hg & Hc & -> & ->). split; [done |]. right. right. eauto 10.
      * intros [_ [[? _] | [(_ & ? & _) | (_ & _ & Hg & Hc & -> & ->)]]]; done.
    + split.
      * intros [= -> <-]. split; [done |]. right. left. done.
      * intros [_ [[? _] | [(_ & [= ->] & ->) | (_ & [? ?] & _)]]]; done.
    + split; [done |].
      intros [_ [[? _] | [(_ & ? & _) | (_ & [? ?] & _)]]]; done.
  - split.
    + intros [= -> <-]. split; [done |]. by left.
    + intros [_ [[[= ->] ->] | [(? & _) | (? & _)]]]; done.
  - split; [done |]. intros [_ [[? _] | [(? & _) | (? & _)]]]; done.
Qed.

Lemma audit_raises_exactly_when_witness :
  content_typed Sample.indexed "A B C" ["SALE"] ∧
  Nodes.compliance_audit_node Sample.json_loads
    (AuditEnv (Ok ()) (Ok ["Rule 1"])
       (Raise "Expecting value: line 1 column 1 (char 0)") true)
    Sample.indexed Sample.start
  = (Raise "cannot access local variable 'response' where it is not associated with a value",
     World [EvClients; EvSearch (PStr "Global") (PStr "A B C") "SALE" 5; EvGenerate]
           false).
Proof.
  assert (content_typed Sample.indexed "A B C" ["SALE"]) as Hs
    by (split; reflexivity).
  split; [exact Hs |].
  apply (audit_raises_exactly_when Sample.json_loads _ Sample.indexed
           Sample.start "A B C" ["SALE"] Hs).
  split; [reflexivity |]. right. right.
  split; [reflexivity |]. split; [by eexists |]. split; [by eexists |].
  split; [reflexivity |]. split; reflexivity.
Defined.

(** X5. A response that parses, but not to a JSON object, is a failure of
    the audit: the node returns FAIL, the message of the attribute error goes
    to [errors], and the report is left as it was. *)
Theorem audit_non_object_response json_loads (env : audit_env)
    (s : State.VideoAuditState) (w w1 : world) (docs : list string)
    (content : string) (v : pyval) :
  no_content s = false →
  Nodes.retrieve env (State.get s "region" (PStr "Global"))
    (State.get s "transcript" (PStr "")) (State.get s "ocr_text" (PList [])) w
  = (Ok docs, w1) →
  env_generate env = Ok content →
  json_loads (Nodes.json_text content) = Some v →
  is_object v = false →
  ∃ sf,
    Nodes.step (Nodes.compliance_audit_node json_loads env) s w
    = (Ok sf, after w1 [EvGenerate]) ∧
    State.lookup sf "final_status" = Some (PStr "FAIL") ∧
    State.lookup sf "final_report" = State.lookup s "final_report" ∧
    State.errors sf = State.errors s ++ [PStr (Py.no_attribute v "get")] ∧
    State.compliance_results sf = State.compliance_results s.
Proof.
  intros Hs Hr Hg Hj Hv.
  rewrite step_unfold, audit_node_unfold, Hs, Hr, verdict_unfold, Hg, Hj.
  pose proof (merge_appendable s
                (Nodes.audit_failure_update (Py.no_attribute v "get")) eq_refl) as Hm.
  destruct v; try discriminate Hv;
    (eexists; split; [by rewrite Hm |];
     split; [by eapply merge_final_status |];
     split; [by eapply merge_untouched | split; reflexivity]).
Qed.

Lemma audit_non_object_response_witness :
  no_content Sample.indexed = false ∧
  ∃ sf,
    Nodes.step
      (Nodes.compliance_audit_node (λ _, Some (PList []))
         (Sample.audit_env_with (Ok "[]")))
      Sample.indexed Sample.start
    = (Ok sf,
       World [EvClients; EvSearch (PStr "Global") (PStr "A B C") "SALE" 5; EvGenerate]
             false) ∧
    State.lookup sf "final_status" = Some (PStr "FAIL") ∧
    State.errors sf = [PStr "'list' object has no attribute 'get'"].
Proof.
  split; [reflexivity |].
  destruct (audit_non_object_response (λ _, Some (PList []))
              (Sample.audit_env_with (Ok "[]")) Sample.indexed Sample.start
              (World [EvClients; EvSearch (PStr "Global") (PStr "A B C") "SALE" 5] false)
              ["Rule 1"; "Rule 2"] "[]" (PList [])
              eq_refl eq_refl eq_refl eq_refl eq_refl)
    as (sf & Hrun & Hstatus & _ & Herrors & _).
  exists sf. split; [exact Hrun | split; [exact Hstatus | exact Herrors]].
Defined.

(** X6. A response that parses to a JSON object whose [compliance_results]
    is not a list makes the write of the update raise: the audit step does
    not return a FAIL state, it raises the type error of [list + value]. *)
Theorem audit_non_list_findings json_loads (env : audit_env)
    (s : State.VideoAuditState) (w w1 : world) (docs : list string)
    (content : string) (obj : list (string * pyval)) (v : pyval) :
  no_content s = false →
  Nodes.retrieve env (State.get s "region" (PStr "Global"))
    (State.get s "transcript" (PStr "")) (State.get s "ocr_text" (PList [])) w
  = (Ok docs, w1) →
  env_generate env = Ok content →
  json_loads (Nodes.json_text content) = Some (PDict obj) →
  Py.lookup "compliance_results" obj = Some v →
  is_list v = false →
  Nodes.step (Nodes.compliance_audit_node json_loads env) s w
  = (Raise ("can only concatenate list (not " +:+ State.dquote +:+ Py.type_name v
            +:+ State.dquote +:+ ") to list"),
     after w1 [EvGenerate]).
Proof.
  intros Hs Hr Hg Hj Hobj Hv.
  rewrite step_unfold, audit_node_unfold, Hs, Hr, verdict_unfold, Hg, Hj.
  unfold State.merge.
  assert (parsed_update obj !! "compliance_results" = Some v) as ->.
  { transitivity (Some (default (PList []) (Py.lookup "compliance_results" obj)));
      [reflexivity | by rewrite Hobj]. }
  by destruct v.
Qed.

Lemma audit_non_list_findings_witness :
  no_content Sample.indexed = false ∧
  Nodes.step
    (Nodes.compliance_audit_node
       (λ _, Some (PDict [("status", PStr "PASS"); ("compliance_results", PStr "none")]))
       (Sample.audit_env_with (Ok "{}")))
    Sample.indexed Sample.start
  = (Raise ("can only concatenate list (not " +:+ State.dquote +:+ "str"
            +:+ State.dquote +:+ ") to list"),
     World [EvClients; EvSearch (PStr "Global") (PStr "A B C") "SALE" 5; EvGenerate]
           false).
Proof.
  split; [reflexivity |].
  exact (audit_non_list_findings
           (λ _, Some (PDict [("status", PStr "PASS"); ("compliance_results", PStr "none")]))
           (Sample.audit_env_with (Ok "{}")) Sample.indexed Sample.start
           (World [EvClients; EvSearch (PStr "Global") (PStr "A B C") "SALE" 5] false)
           ["Rule 1"; "Rule 2"] "{}"
           [("status", PStr "PASS"); ("compliance_results", PStr "none")] (PStr "none")
           eq_refl eq_refl eq_refl eq_refl eq_refl eq_refl).
Defined.

(** ** The indexing node, further *)

Section IndexingFurther.

Variable format : pyval → string.

Implicit Types (svc : service) (s : State.VideoAuditState) (w : world).

Lemma merge_declared_key s (u : gmap string pyval) s' k v :
  State.merge s u = Ok s' →
  State.is_declared k && negb (State.is_append_only k) = true →
  u !! k = Some v →
  State.lookup s' k = Some v.
Proof.
  intros Hm [Hd Ha]%andb_prop Hv. apply negb_true_iff in Ha.
  eapply merge_overwrite; [exact Hm | | | exact Hv].
  - by apply bool_decide_eq_true in Hd.
  - by apply bool_decide_eq_false in Ha.
Qed.

Lemma handled_never_raises r msg w' : handled r ≠ (Raise msg, w').
Proof. by destruct r as [[] ?]. Qed.

Lemma index_never_raises_aux svc s w msg w' :
  Nodes.index_video_node format svc s w ≠ (Raise msg, w').
Proof.
  rewrite index_unfold. cbn zeta.
  destruct (svc_init svc); [done |].
  destruct (supported _) as [[] | |]; try done.
  destruct (svc_download svc); try done. apply handled_never_raises.
Qed.

(** What the body of the node returns comes from [extract_data], applied to
    a document that one of the checks reported as [Processed]. *)
Lemma submit_and_poll_Ok svc video_name w u w' :
  submit_and_poll format svc video_name w = (Ok u, w') →
  ∃ raw c,
    VideoIndexer.extract_data raw = Ok u ∧
    c ∈ svc_checks svc ∧ reported c = Some (raw, PStr "Processed").
Proof.
  unfold submit_and_poll.
  intros (id & w2 & _ & Hrel)%bind_Ok_inv.
  assert (∃ w3, poll_and_extract format svc id w3 = (Ok u, w')) as [w3 Hpoll].
  { rewrite release_unfold in Hrel. cbn zeta in Hrel.
    destruct (w_file w2); [| eauto].
    destruct (svc_remove svc); [eauto | done | done]. }
  unfold poll_and_extract in Hpoll.
  apply bind_Ok_inv in Hpoll as (raw & w4 & Hwait & Hext).
  apply bind_Ok_inv in Hext as (clean & w5 & Hext & Hret).
  injection Hret as <- _. unfold Eff.lift in Hext. injection Hext as Hext _.
  apply wait_Ok_inv in Hwait as (pre & c & rest & Hchecks & _ & Hc & _).
  exists raw, c. split; [done |]. split; [| done].
  rewrite Hchecks. apply elem_of_app. right. by left.
Qed.

Lemma index_update svc s w u w' :
  Nodes.index_video_node format svc s w = (Ok u, w') →
  (∃ msg, u = Nodes.index_failure_update msg) ∨
  (∃ raw c,
      VideoIndexer.extract_data raw = Ok u ∧
      c ∈ svc_checks svc ∧ reported c = Some (raw, PStr "Processed")).
Proof.
  rewrite index_unfold. cbn zeta.
  destruct (svc_init svc) as [m |]; [intros [= <- _]; eauto |].
  destruct (supported _) as [[] | m |]; try (intros [= <- _]; by eauto).
  destruct (svc_download svc) as [[] | m |]; [| intros [= <- _]; eauto | done].
  destruct (submit_and_poll _ _ _ _) as [[u' | m |] w2] eqn:Hrun; cbn [handled].
  - intros [= <- <-]. right. by eapply submit_and_poll_Ok.
  - intros [= <- _]. eauto.
  - done.
Qed.

(** The update of the indexer can always be written to the state. *)
Lemma index_update_appendable svc s w u w' :
  Nodes.index_video_node format svc s w = (Ok u, w') → State.appendable u = true.
Proof.
  intros [[msg ->] | (raw & c & Hext & _)]%index_update; [reflexivity |].
  apply extract_data_keys in Hext as (t & o & b & m & ->). reflexivity.
Qed.

End IndexingFurther.

(** X7. The indexer never raises: whatever the service does, the node
    returns a dict or is still waiting.  The dict is either the failure
    update of the handler or what [extract_data] makes of a document that one
    of the status checks reported as [Processed]. *)
Theorem index_never_raises format (svc : service) (s : State.VideoAuditState)
    (w : world) :
  (∀ msg w', Nodes.index_video_node format svc s w ≠ (Raise msg, w')) ∧
  (∀ u w',
      Nodes.index_video_node format svc s w = (Ok u, w') →
      (∃ msg, u = Nodes.index_failure_update msg) ∨
      (∃ raw c,
          VideoIndexer.extract_data raw = Ok u ∧
          c ∈ svc_checks svc ∧ reported c = Some (raw, PStr "Processed"))).
Proof.
  split.
  - intros msg w'. apply index_never_raises_aux.
  - intros u w'. apply index_update.
Qed.

(** X8. The indexing step (the node and the write of its update) never
    raises.  When it returns it has left [compliance_results],
    [final_report] and the three inputs [video_url], [video_id] and [region]
    as they were; and either it has kept [errors] and [final_status] too (the
    indexing worked), or it has appended one message to [errors], set
    [final_status] to FAIL and emptied the transcript and the on-screen
    text (the handler ran). *)
Theorem index_step_frame format (svc : service) (s : State.VideoAuditState)
    (w : world) :
  (∀ msg w', Nodes.step (Nodes.index_video_node format svc) s w ≠ (Raise msg, w')) ∧
  (∀ s' w',
      Nodes.step (Nodes.index_video_node format svc) s w = (Ok s', w') →
      State.compliance_results s' = State.compliance_results s ∧
      State.lookup s' "final_report" = State.lookup s "final_report" ∧
      State.lookup s' "video_url" = State.lookup s "video_url" ∧
      State.lookup s' "video_id" = State.lookup s "video_id" ∧
      State.lookup s' "region" = State.lookup s "region" ∧
      ((State.errors s' = State.errors s ∧
        State.lookup s' "final_status" = State.lookup s "final_status") ∨
       (∃ msg,
           State.errors s' = State.errors s ++ [PStr msg] ∧
           State.lookup s' "final_status" = Some (PStr "FAIL") ∧
           State.lookup s' "transcript" = Some (PStr "") ∧
           State.lookup s' "ocr_text" = Some (PList [])))).
Proof.
  split.
  - intros msg w'. rewrite step_unfold.
    destruct (Nodes.index_video_node format svc s w) as [[u | m |] w1] eqn:Hrun;
      [| by apply index_never_raises_aux in Hrun | done].
    by rewrite (merge_appendable s u (index_update_appendable _ _ _ _ _ _ Hrun)).
  - intros s' w' (u & Hrun & Hm)%step_Ok_inv.
    apply index_update in Hrun as [[msg ->] | (raw & c & Hext & _)].
    + pose proof Hm as Hm'.
      rewrite merge_appendable in Hm' by reflexivity. injection Hm' as <-.
      split; [reflexivity |].
      split; [by eapply (merge_untouched s _ _ "final_report") |].
      split; [by eapply (merge_untouched s _ _ "video_url") |].
      split; [by eapply (merge_untouched s _ _ "video_id") |].
      split; [by eapply (merge_untouched s _ _ "region") |].
      right. exists msg. split; [reflexivity |].
      split; [by eapply merge_final_status |].
      split; (eapply merge_declared_key; [exact Hm | reflexivity | reflexivity]).
    + apply extract_data_keys in Hext as (t & o & b & m & ->).
      pose proof Hm as Hm'.
      rewrite merge_appendable in Hm' by reflexivity. injection Hm' as <-.
      split; [reflexivity |].
      split; [by eapply (merge_untouched s _ _ "final_report") |].
      split; [by eapply (merge_untouched s _ _ "video_url") |].
      split; [by eapply (merge_untouched s _ _ "video_id") |].
      split; [by eapply (merge_untouched s _ _ "region") |].
      left. split; [reflexivity |].
      by eapply (merge_untouched s _ _ "final_status").
Qed.

(** ** The pipeline, further *)

Section PipelineFurther.

Variable format : pyval → string.
Variable json_loads : string → option pyval.

Implicit Types (svc : service) (env : audit_env) (s : State.VideoAuditState)
  (w : world).

(** The keys the audit node never writes. *)
Lemma audit_update_keys env s w u w' k :
  Nodes.compliance_audit_node json_loads env s w = (Ok u, w') →
  k ∈ ["video_url"; "video_id"; "region"; "transcript"; "ocr_text";
       "detected_brands"; "video_metadata"] →
  u !! k = None.
Proof.
  intros Hu Hk.
  apply audit_update in Hu
    as [(_ & -> & _) | (_ & [(c & _ & _ & ->) | [(c & o & _ & _ & ->) | (m & ->)]])];
    repeat (apply elem_of_cons in Hk as [-> | Hk]; [reflexivity |]);
    by apply elem_of_nil in Hk.
Qed.

Lemma audit_step_keeps env s w s' w' k :
  Nodes.step (Nodes.compliance_audit_node json_loads env) s w = (Ok s', w') →
  k ∈ ["video_url"; "video_id"; "region"; "transcript"; "ocr_text";
       "detected_brands"; "video_metadata"] →
  State.lookup s' k = State.lookup s k.
Proof.
  intros (u & Hu & Hm)%step_Ok_inv Hk.
  eapply merge_untouched; [exact Hm |]. by eapply audit_update_keys.
Qed.

(** The keys the indexing node never writes. *)
Lemma index_step_keeps svc s w s' w' k :
  Nodes.step (Nodes.index_video_node format svc) s w = (Ok s', w') →
  k ∈ ["video_url"; "video_id"; "region"; "final_report"] →
  State.lookup s' k = State.lookup s k.
Proof.
  intros (u & Hrun & Hm)%step_Ok_inv Hk.
  eapply merge_untouched; [exact Hm |].
  apply index_update in Hrun as [[msg ->] | (raw & c & Hext & _)].
  - repeat (apply elem_of_cons in Hk as [-> | Hk]; [reflexivity |]).
    by apply elem_of_nil in Hk.
  - apply extract_data_keys in Hext as (t & o & b & m & ->).
    repeat (apply elem_of_cons in Hk as [-> | Hk]; [reflexivity |]).
    by apply elem_of_nil in Hk.
Qed.

Lemma step_grows (node : State.VideoAuditState → M (gmap string pyval)) s w s' w' :
  Nodes.step node s w = (Ok s', w') →
  State.compliance_results s `prefix_of` State.compliance_results s' ∧
  State.errors s `prefix_of` State.errors s'.
Proof. intros (u & _ & Hm)%step_Ok_inv. by eapply merge_grows. Qed.

(** No stage writes the inputs of the job. *)
Lemma pipeline_keeps svc env s0 w sf w' k :
  Nodes.pipeline format json_loads svc env s0 w = (Ok sf, w') →
  k ∈ ["video_url"; "video_id"; "region"] →
  State.lookup sf k = State.lookup s0 k.
Proof.
  unfold Nodes.pipeline. intros (s1 & w1 & Hindex & Haudit)%bind_Ok_inv Hk.
  transitivity (State.lookup s1 k).
  - eapply audit_step_keeps; [exact Haudit |].
    repeat (apply elem_of_cons in Hk as [-> | Hk]; [by repeat constructor |]).
    by apply elem_of_nil in Hk.
  - eapply index_step_keeps; [exact Hindex |].
    repeat (apply elem_of_cons in Hk as [-> | Hk]; [by repeat constructor |]).
    by apply elem_of_nil in Hk.
Qed.

(** The pipeline after an exception in Indexing. *)
Lemma pipeline_index_failure svc env s0 w msg w1 :
  Nodes.index_video_node format svc s0 w
  = (Ok (Nodes.index_failure_update msg), w1) →
  ∃ sf,
    Nodes.pipeline format json_loads svc env s0 w = (Ok sf, w1) ∧
    State.lookup sf "final_status" = Some (PStr "FAIL") ∧
    State.lookup sf "final_report" = Some (PStr Nodes.no_content_report) ∧
    State.errors sf = State.errors s0 ++ [PStr msg] ∧
    State.compliance_results sf = State.compliance_results s0.
Proof.
  intros Hindex. unfold Nodes.pipeline.
  pose proof (merge_appendable s0 (Nodes.index_failure_update msg) eq_refl) as Hm.
  rewrite bind_unfold, step_unfold, Hindex, Hm.
  match goal with |- context [Nodes.step _ ?s _] => set (s1 := s) end.
  assert (no_content s1 = true) as Hs1.
  { unfold no_content, State.get.
    rewrite (merge_declared_key s0 _ s1 "transcript" (PStr "") Hm eq_refl eq_refl).
    by rewrite (merge_declared_key s0 _ s1 "ocr_text" (PList []) Hm eq_refl eq_refl). }
  rewrite step_unfold, audit_node_unfold, Hs1.
  pose proof (merge_appendable s1 Nodes.no_content_update eq_refl) as Hm1.
  rewrite Hm1. eexists. split; [reflexivity |].
  split; [by eapply merge_final_status |].
  split; [by eapply merge_final_report |]. split; reflexivity.
Qed.

End PipelineFurther.

(** X9. The audit step never touches what the indexer extracted nor the
    inputs of the job: [transcript], [ocr_text], [detected_brands],
    [video_metadata], [video_url], [video_id] and [region] are after the
    step what they were before. *)
Theorem audit_keeps_content json_loads (env : audit_env)
    (s s' : State.VideoAuditState) (w w' : world) (k : string) :
  Nodes.step (Nodes.compliance_audit_node json_loads env) s w = (Ok s', w') →
  k ∈ ["video_url"; "video_id"; "region"; "transcript"; "ocr_text";
       "detected_brands"; "video_metadata"] →
  State.lookup s' k = State.lookup s k.
Proof.
  intros (u & Hu & Hm)%step_Ok_inv Hk.
  eapply merge_untouched; [exact Hm |].
  eapply audit_update_keys; [exact Hu | exact Hk].
Qed.

Lemma audit_keeps_content_witness :
  Nodes.step
    (Nodes.compliance_audit_node Sample.json_loads
       (Sample.audit_env_with (Ok Sample.pass_json)))
    Sample.indexed Sample.start
  = (Ok (State.Make
           (State.overwrites (parsed_update Sample.pass_object)
            ∪ State.last_value Sample.indexed) [] []),
     World [EvClients; EvSearch (PStr "Global") (PStr "A B C") "SALE" 5; EvGenerate]
           false) ∧
  State.lookup
    (State.Make
       (State.overwrites (parsed_update Sample.pass_object)
        ∪ State.last_value Sample.indexed) [] [])
    "transcript"
  = State.lookup Sample.indexed "transcript".
Proof.
  assert (Nodes.step
            (Nodes.compliance_audit_node Sample.json_loads
               (Sample.audit_env_with (Ok Sample.pass_json)))
            Sample.indexed Sample.start
          = (Ok (State.Make
                   (State.overwrites (parsed_update Sample.pass_object)
                    ∪ State.last_value Sample.indexed) [] []),
             World [EvClients; EvSearch (PStr "Global") (PStr "A B C") "SALE" 5;
                    EvGenerate] false)) as Hrun by reflexivity.
  split; [exact Hrun |].
  apply (audit_keeps_content _ _ _ _ _ _ "transcript" Hrun).
  repeat constructor.
Defined.

(** X10. Whenever the pipeline returns, the job's inputs are what the
    caller gave: no stage writes [video_url], [video_id] or [region]. *)
Theorem pipeline_keeps_inputs format json_loads (svc : service) (env : audit_env)
    (s0 sf : State.VideoAuditState) (w w' : world) (k : string) :
  Nodes.pipeline format json_loads svc env s0 w = (Ok sf, w') →
  k ∈ ["video_url"; "video_id"; "region"] →
  State.lookup sf k = State.lookup s0 k.
Proof.
  unfold Nodes.pipeline. intros (s1 & w1 & Hindex & Haudit)%bind_Ok_inv Hk.
  assert (k ∈ ["video_url"; "video_id"; "region"; "final_report"]) as Hindexed.
  { repeat (apply elem_of_cons in Hk as [-> | Hk]; [by repeat constructor |]).
    by apply elem_of_nil in Hk. }
  assert (k ∈ ["video_url"; "video_id"; "region"; "transcript"; "ocr_text";
               "detected_brands"; "video_metadata"]) as Haudited.
  { repeat (apply elem_of_cons in Hk as [-> | Hk]; [by repeat constructor |]).
    by apply elem_of_nil in Hk. }
  rewrite (audit_step_keeps _ _ _ _ _ _ _ Haudit Haudited).
  exact (index_step_keeps _ _ _ _ _ _ _ Hindex Hindexed).
Qed.

Lemma pipeline_keeps_inputs_witness :
  ∃ sf,
    Nodes.pipeline Sample.format Sample.json_loads Sample.service_ok
      (Sample.audit_env_with (Ok Sample.pass_json))
      (Sample.initial "https://vimeo.com/123") Sample.start
    = (Ok sf, Sample.start) ∧
    State.lookup sf "video_url"
    = State.lookup (Sample.initial "https://vimeo.com/123") "video_url".
Proof.
  eexists. split; [reflexivity |].
  apply (pipeline_keeps_inputs Sample.format Sample.json_loads Sample.service_ok
           (Sample.audit_env_with (Ok Sample.pass_json))
           (Sample.initial "https://vimeo.com/123") _ Sample.start Sample.start
           "video_url"); [reflexivity | repeat constructor].
Defined.

Section Growth.

Variable format : pyval → string.
Variable json_loads : string → option pyval.

Implicit Types (svc : service) (env : audit_env) (s : State.VideoAuditState)
  (w : world).

(** What a write does to the [errors] channel. *)
Lemma merge_errors s (u : gmap string pyval) s' :
  State.merge s u = Ok s' →
  State.errors s' =
    match u !! "errors" with
    | Some (PList new) => State.errors s ++ new
    | _ => State.errors s
    end.
Proof.
  intros Hm.
  rewrite (merge_appendable s u) in Hm by (by eapply merge_returns_appendable).
  by injection Hm as <-.
Qed.

(** The indexing step reports at most one error, and then leaves no
    content. *)
Lemma index_step_errors svc s w s' w' :
  Nodes.step (Nodes.index_video_node format svc) s w = (Ok s', w') →
  State.errors s' = State.errors s ∨
  (∃ msg, State.errors s' = State.errors s ++ [PStr msg] ∧
          State.lookup s' "final_status" = Some (PStr "FAIL") ∧
          no_content s' = true).
Proof.
  intros (u & Hrun & Hm)%step_Ok_inv.
  apply index_update in Hrun as [[msg ->] | (raw & c & Hext & _)].
  - right. exists msg. split; [by rewrite (merge_errors _ _ _ Hm) |].
    split; [by eapply merge_final_status |].
    unfold no_content, State.get.
    rewrite (merge_declared_key s _ s' "transcript" (PStr "") Hm eq_refl eq_refl).
    by rewrite (merge_declared_key s _ s' "ocr_text" (PList []) Hm eq_refl eq_refl).
  - apply extract_data_keys in Hext as (t & o & b & m & ->).
    left. by rewrite (merge_errors _ _ _ Hm).
Qed.

(** The audit step reports at most one error, and none on a state without
    content. *)
Lemma audit_step_errors env s w s' w' :
  Nodes.step (Nodes.compliance_audit_node json_loads env) s w = (Ok s', w') →
  State.errors s' = State.errors s ∨
  (no_content s = false ∧
   ∃ msg, State.errors s' = State.errors s ++ [PStr msg] ∧
          State.lookup s' "final_status" = Some (PStr "FAIL")).
Proof.
  intros (u & Hrun & Hm)%step_Ok_inv.
  apply audit_update in Hrun
    as [(_ & -> & _) | (Hc & [(c & _ & _ & ->) | [(c & o & _ & _ & ->) | (m & ->)]])].
  - left. by rewrite (merge_errors _ _ _ Hm).
  - right. split; [exact Hc |]. eexists.
    split; [by rewrite (merge_errors _ _ _ Hm) | by eapply merge_final_status].
  - left. by rewrite (merge_errors _ _ _ Hm).
  - right. split; [exact Hc |]. eexists.
    split; [by rewrite (merge_errors _ _ _ Hm) | by eapply merge_final_status].
Qed.

(** The two steps together report at most one error. *)
Lemma pipeline_errors svc env s0 w sf w' :
  Nodes.pipeline format json_loads svc env s0 w = (Ok sf, w') →
  State.errors sf = State.errors s0 ∨
  ∃ msg, State.errors sf = State.errors s0 ++ [PStr msg] ∧
         State.lookup sf "final_status" = Some (PStr "FAIL").
Proof.
  unfold Nodes.pipeline. intros (s1 & w1 & Hindex & Haudit)%bind_Ok_inv.
  destruct (index_step_errors _ _ _ _ _ Hindex) as [He1 | (m1 & He1 & _ & Hc1)];
    destruct (audit_step_errors _ _ _ _ _ Haudit)
      as [He2 | (Hc2 & m2 & He2 & Hs2)].
  - left. by rewrite He2, He1.
  - right. exists m2. by rewrite He2, He1.
  - right. exists m1. split; [by rewrite He2, He1 |].
    apply step_Ok_inv in Haudit as (u & Hrun & Hm).
    rewrite audit_node_unfold, Hc1 in Hrun. injection Hrun as <- _.
    by eapply merge_final_status.
  - congruence.
Qed.

End Growth.

(** X11. A run of the pipeline that returns has only appended to the two
    aggregated lists, and to [errors] at most one message: the findings the
    caller gave are a prefix of the final ones, and the final [errors] are
    either the caller's or the caller's followed by one message, in which
    case the final status is FAIL. *)
Theorem pipeline_reports_one_error format json_loads (svc : service)
    (env : audit_env) (s0 sf : State.VideoAuditState) (w w' : world) :
  Nodes.pipeline format json_loads svc env s0 w = (Ok sf, w') →
  State.compliance_results s0 `prefix_of` State.compliance_results sf ∧
  (State.errors sf = State.errors s0 ∨
   ∃ msg, State.errors sf = State.errors s0 ++ [PStr msg] ∧
          State.lookup sf "final_status" = Some (PStr "FAIL")).
Proof.
  unfold Nodes.pipeline. intros (s1 & w1 & Hindex & Haudit)%bind_Ok_inv.
  split.
  - etrans; [exact (proj1 (step_grows _ _ _ _ _ Hindex)) |].
    exact (proj1 (step_grows _ _ _ _ _ Haudit)).
  - eapply pipeline_errors. unfold Nodes.pipeline.
    by rewrite bind_unfold, Hindex.
Qed.

Lemma pipeline_reports_one_error_witness :
  ∃ sf w',
    Nodes.pipeline Sample.format Sample.json_loads Sample.service_ok
      (Sample.audit_env_with (Raise "Request timed out."))
      (Sample.initial "https://youtu.be/abc") Sample.start
    = (Ok sf, w') ∧
    State.compliance_results (Sample.initial "https://youtu.be/abc")
      `prefix_of` State.compliance_results sf ∧
    (State.errors sf = State.errors (Sample.initial "https://youtu.be/abc") ∨
     ∃ msg,
       State.errors sf
       = State.errors (Sample.initial "https://youtu.be/abc") ++ [PStr msg] ∧
       State.lookup sf "final_status" = Some (PStr "FAIL")).
Proof.
  eexists. eexists. split; [reflexivity |].
  eapply (pipeline_reports_one_error Sample.format Sample.json_loads
            Sample.service_ok (Sample.audit_env_with (Raise "Request timed out."))
            (Sample.initial "https://youtu.be/abc") _ Sample.start).
  reflexivity.
Defined.

(** ** The indexer service, further *)

Section ServiceFurther.

Variable format : pyval → string.

Implicit Types (svc : service) (c : check) (w : world) (video_id : pyval).

(** [upload_video], outcome by outcome. *)
Lemma upload_unfold svc video_path video_name w :
  VideoIndexer.upload_video svc video_path video_name w =
    match ts_credential (svc_upload_tokens svc) with
    | Ok _ =>
        match exchange_result (svc_upload_tokens svc) with
        | Ok _ =>
            match svc_open svc with
            | Ok _ =>
                match svc_upload svc with
                | Ok r =>
                    (if negb (status_code r =? 200) then
                       Raise ("Failed to upload video on Azure Video Indexer : "
                              +:+ text r)
                     else data ← json r; Py.get data "id" PNone,
                     after w (upload_calls video_path video_name))
                | Raise msg => (Raise msg, after w (upload_calls video_path video_name))
                | Hang => (Hang, after w (upload_calls video_path video_name))
                end
            | Raise msg =>
                (Raise msg, after w [EvGetToken; EvTokenExchange; EvOpenFile video_path])
            | Hang => (Hang, after w [EvGetToken; EvTokenExchange; EvOpenFile video_path])
            end
        | Raise msg => (Raise msg, after w [EvGetToken; EvTokenExchange])
        | Hang => (Hang, after w [EvGetToken; EvTokenExchange])
        end
    | Raise msg => (Raise msg, after w [EvGetToken])
    | Hang => (Hang, after w [EvGetToken])
    end.
Proof.
  unfold VideoIndexer.upload_video.
  rewrite bind_unfold, get_access_token_unfold.
  destruct (ts_credential (svc_upload_tokens svc)) as [arm | |]; [| done | done].
  rewrite bind_unfold, get_account_token_unfold, after_after.
  destruct (exchange_result (svc_upload_tokens svc)) as [tok | |]; [| done | done].
  rewrite bind_unfold, call_unfold, after_after.
  destruct (svc_open svc) as [[] | |]; [| reflexivity | reflexivity].
  rewrite bind_unfold, call_unfold, after_after.
  destruct (svc_upload svc) as [r | |]; [| reflexivity | reflexivity].
  destruct (negb (status_code r =? 200)); [reflexivity |].
  rewrite bind_unfold. unfold Eff.lift at 1.
  destruct (json r) as [data | |]; [| reflexivity | reflexivity].
  unfold Eff.lift. destruct data; reflexivity.
Qed.

End ServiceFurther.

(** X12. Whatever the answers to its checks, the calls of the poller follow
    one rhythm: some number of complete checks (credential, token exchange,
    status request), each followed by the 30-second wait, and then the
    calls of one last check up to the call that ended it.  The poller
    never waits before its first check nor after its last, and makes no
    other call. *)
Theorem poller_rhythm format (checks : list check) (video_id : pyval) (w : world) :
  ∃ (n : nat) (calls : list event),
    (n ≤ List.length checks)%nat ∧
    calls `prefix_of` check_calls video_id ∧
    (VideoIndexer.wait_for_processing format checks video_id w).2
    = after w (retry_calls video_id n ++ calls).
Proof.
  revert w. induction checks as [| c rest IH]; intros w.
  { exists 0%nat, []. split; [done |]. split; [by eexists |]. cbn. by rewrite after_nil. }
  assert (∀ calls, calls `prefix_of` check_calls video_id →
            ∀ r : outcome pyval, ∃ (n : nat) (calls' : list event),
              (n ≤ List.length (c :: rest))%nat ∧
              calls' `prefix_of` check_calls video_id ∧
              (r, after w calls).2 = after w (retry_calls video_id n ++ calls'))
    as Hlast.
  { intros calls Hcalls r. exists 0%nat, calls. split; [cbn; lia |]. by split. }
  assert (∃ (n : nat) (calls : list event),
            (n ≤ List.length (c :: rest))%nat ∧
            calls `prefix_of` check_calls video_id ∧
            (VideoIndexer.wait_for_processing format rest video_id
               (after w (check_calls video_id ++ [EvSleep 30]))).2
            = after w (retry_calls video_id n ++ calls)) as Hretry.
  { destruct (IH (after w (check_calls video_id ++ [EvSleep 30])))
      as (n & calls & Hn & Hcalls & ->).
    exists (S n), calls. split; [cbn; lia |]. split; [done |].
    rewrite after_after. cbn [retry_calls]. by rewrite <- !app_assoc. }
  assert (check_calls video_id `prefix_of` check_calls video_id) as Hall by done.
  assert ([EvGetToken; EvTokenExchange] `prefix_of` check_calls video_id) as Htwo
    by (by eexists [_]).
  assert ([EvGetToken] `prefix_of` check_calls video_id) as Hone
    by (by eexists [_; _]).
  rewrite wait_unfold.
  destruct (ts_credential (chk_tokens c)) as [arm | |]; [| by apply Hlast ..].
  destruct (exchange_result (chk_tokens c)) as [tok | |]; [| by apply Hlast ..].
  destruct (chk_index c) as [r | |]; [| by apply Hlast ..].
  destruct (negb (status_code r =? 200)); [exact Hretry |].
  destruct (json r) as [data | |]; [| by apply Hlast ..].
  destruct (Py.get data "state" PNone) as [state | |]; [| by apply Hlast ..].
  destruct (Py.eq_str state "Processed"); [by apply Hlast |].
  destruct (Py.eq_str state "Failed"); [by apply Hlast |].
  destruct (Py.eq_str state "Quarantined"); [by apply Hlast | exact Hretry].
Qed.

(** X13. What a submission comes to.  It returns only when the analysis
    service answered HTTP 200 with a JSON object, and what it returns is
    the [id] of that object, or [None] when the object has none: a missing
    id is no error here.  An answer with another status raises with the
    body of the answer in the message.  When the token acquisition fails,
    the file is not opened and nothing is posted. *)
Theorem upload_video_outcomes (svc : service) (video_path : string)
    (video_name : pyval) (w : world) :
  (∀ azure_video_id w',
      VideoIndexer.upload_video svc video_path video_name w = (Ok azure_video_id, w') →
      ∃ r d,
        svc_upload svc = Ok r ∧ status_code r = 200 ∧ json r = Ok (PDict d) ∧
        azure_video_id = default PNone (Py.lookup "id" d) ∧
        w' = after w (upload_calls video_path video_name)) ∧
  (∀ r,
      tokens_ok (svc_upload_tokens svc) = true → svc_open svc = Ok () →
      svc_upload svc = Ok r → status_code r ≠ 200 →
      VideoIndexer.upload_video svc video_path video_name w
      = (Raise ("Failed to upload video on Azure Video Indexer : " +:+ text r),
         after w (upload_calls video_path video_name))) ∧
  (tokens_ok (svc_upload_tokens svc) = false →
   ∃ calls,
     (VideoIndexer.upload_video svc video_path video_name w).2 = after w calls ∧
     calls `prefix_of` [EvGetToken; EvTokenExchange]).
Proof.
  rewrite upload_unfold. unfold tokens_ok. split; [| split].
  - intros id w'.
    destruct (ts_credential _) as [arm | |]; [| done | done].
    destruct (exchange_result _) as [tok | |]; [| done | done].
    destruct (svc_open svc) as [[] | |]; [| done | done].
    destruct (svc_upload svc) as [r | |]; [| done | done].
    destruct (status_code r =? 200) eqn:Hcode; [| done]. cbn [negb].
    destruct (json r) as [[| | | | | d] | |] eqn:Hj; try done.
    intros [= <- <-]. exists r, d. apply Z.eqb_eq in Hcode. by repeat split.
  - intros r.
    destruct (ts_credential _) as [arm | |]; [| done | done].
    destruct (exchange_result _) as [tok | |]; [| done | done].
    intros _ -> -> Hcode. apply Z.eqb_neq in Hcode. by rewrite Hcode.
  - destruct (ts_credential _) as [arm | |].
    + destruct (exchange_result _) as [tok | |]; [done | |]; intros _;
        by exists [EvGetToken; EvTokenExchange].
    + intros _. exists [EvGetToken]. split; [done |]. by eexists [_].
    + intros _. exists [EvGetToken]. split; [done |]. by eexists [_].
Qed.

Lemma upload_video_outcomes_witness :
  VideoIndexer.upload_video
    (Sample.service_with
       (Ok (Response 200 "" (Ok (PDict [("state", PStr "Uploaded")])))) (Ok ()) [])
    "temp_audit_video.mp4" (PStr "vid_1a2b3c4d") Sample.start
  = (Ok PNone,
     after Sample.start (upload_calls "temp_audit_video.mp4" (PStr "vid_1a2b3c4d"))) ∧
  VideoIndexer.upload_video
    (Sample.service_with (Ok (Response 401 "Unauthorized" (Raise "Expecting value")))
       (Ok ()) [])
    "temp_audit_video.mp4" (PStr "vid_1a2b3c4d") Sample.start
  = (Raise "Failed to upload video on Azure Video Indexer : Unauthorized",
     after Sample.start (upload_calls "temp_audit_video.mp4" (PStr "vid_1a2b3c4d"))).
Proof.
  split; [reflexivity |].
  apply (proj1 (proj2 (upload_video_outcomes
                         (Sample.service_with
                            (Ok (Response 401 "Unauthorized" (Raise "Expecting value")))
                            (Ok ()) [])
                         "temp_audit_video.mp4" (PStr "vid_1a2b3c4d") Sample.start))
           (Response 401 "Unauthorized" (Raise "Expecting value")));
    [reflexivity | reflexivity | reflexivity | discriminate].
Defined.

(** X14. A video the analysis service processed but in which nothing is
    said and nothing is written: the pipeline ends with FAIL and the fixed
    no-content report, the audit makes no call (neither retrieval nor
    generation: the world is as indexing left it), and no error message is
    recorded.  The brands the service detected are kept in the final
    state. *)
Theorem pipeline_silent_video format json_loads (svc : service) (env : audit_env)
    (s0 : State.VideoAuditState) (w w1 : world) (raw : pyval) :
  Nodes.index_video_node format svc s0 w = (Ok (extracted raw), w1) →
  all_texts "transcript" "text" raw = [] →
  all_texts "ocr" "text" raw = [] →
  ∃ sf,
    Nodes.pipeline format json_loads svc env s0 w = (Ok sf, w1) ∧
    State.lookup sf "final_status" = Some (PStr "FAIL") ∧
    State.lookup sf "final_report" = Some (PStr Nodes.no_content_report) ∧
    State.errors sf = State.errors s0 ∧
    State.compliance_results sf = State.compliance_results s0 ∧
    State.lookup sf "detected_brands"
    = Some (PList (PStr <$> first_occurrences (all_texts "brands" "name" raw))).
Proof.
  intros Hindex Ht Ho. unfold Nodes.pipeline.
  pose proof (merge_appendable s0 (extracted raw) eq_refl) as Hm.
  rewrite bind_unfold, step_unfold, Hindex, Hm.
  match goal with |- context [Nodes.step _ ?s _] => set (s1 := s) end.
  assert (State.lookup s1 "detected_brands"
          = Some (PList (PStr <$> first_occurrences (all_texts "brands" "name" raw))))
    as Hbrands
    by (eapply merge_declared_key; [exact Hm | reflexivity | reflexivity]).
  assert (no_content s1 = true) as Hs1.
  { unfold no_content, State.get.
    rewrite (merge_declared_key s0 _ s1 "transcript" _ Hm eq_refl eq_refl).
    rewrite (merge_declared_key s0 _ s1 "ocr_text" _ Hm eq_refl eq_refl).
    by rewrite Ht, Ho. }
  rewrite step_unfold, audit_node_unfold, Hs1.
  pose proof (merge_appendable s1 Nodes.no_content_update eq_refl) as Hm1.
  rewrite Hm1. eexists. split; [reflexivity |].
  split; [by eapply merge_final_status |].
  split; [by eapply merge_final_report |].
  split; [reflexivity |]. split; [reflexivity |].
  rewrite <- Hbrands. by eapply merge_untouched.
Qed.

Lemma pipeline_silent_video_witness :
  ∃ w1,
    Nodes.index_video_node Sample.format
      (Sample.service_with Sample.uploaded (Ok ())
         [Sample.answer (Sample.reporting "Processed")])
      (Sample.initial "https://youtu.be/abc") Sample.start
    = (Ok (extracted (Sample.reporting "Processed")), w1) ∧
    ∃ sf,
      Nodes.pipeline Sample.format Sample.json_loads
        (Sample.service_with Sample.uploaded (Ok ())
           [Sample.answer (Sample.reporting "Processed")])
        (Sample.audit_env_with (Ok Sample.pass_json))
        (Sample.initial "https://youtu.be/abc") Sample.start
      = (Ok sf, w1) ∧
      State.lookup sf "final_status" = Some (PStr "FAIL") ∧
      State.lookup sf "final_report" = Some (PStr Nodes.no_content_report) ∧
      State.errors sf = State.errors (Sample.initial "https://youtu.be/abc") ∧
      State.compliance_results sf
      = State.compliance_results (Sample.initial "https://youtu.be/abc") ∧
      State.lookup sf "detected_brands"
      = Some (PList (PStr <$> first_occurrences
                                (all_texts "brands" "name"
                                   (Sample.reporting "Processed")))).
Proof.
  eexists. split; [reflexivity |].
  apply (pipeline_silent_video Sample.format Sample.json_loads
           (Sample.service_with Sample.uploaded (Ok ())
              [Sample.answer (Sample.reporting "Processed")])
           (Sample.audit_env_with (Ok Sample.pass_json))
           (Sample.initial "https://youtu.be/abc") Sample.start);
    reflexivity.
Defined.

(** ** The background worker *)

Section Worker.

Variable format : pyval → string.
Variable json_loads : string → option pyval.

Implicit Types (ses : Server.session) (svc : service) (env : audit_env) (w : world)
  (db : gmap string Server.AuditRecord) (record : Server.AuditRecord)
  (r : outcome unit).

Lemma only_task_row_refl task_id db : only_task_row task_id db db.
Proof. repeat split; eauto. Qed.

Lemma only_task_row_trans task_id db1 db2 db3 :
  only_task_row task_id db1 db2 → only_task_row task_id db2 db3 →
  only_task_row task_id db1 db3.
Proof.
  intros (Ho1 & Hn1 & Hr1) (Ho2 & Hn2 & Hr2). split; [| split].
  - intros other Hother. by rewrite Ho2, Ho1.
  - intros Hnone. rewrite Hn2; rewrite (Hn1 Hnone); done.
  - intros record (r2 & H2 & Hu2 & Hg2)%Hr1.
    destruct (Hr2 r2 H2) as (r3 & H3 & Hu3 & Hg3).
    exists r3. split; [done |]. split; congruence.
Qed.

(** One query-assign-commit of the worker, outcome by outcome. *)
Lemma update_row_Ok query commit assign task_id db db' :
  Server.update_row query commit assign task_id db = (Ok (), db') →
  query = Ok () ∧
  match db !! task_id with
  | Some record =>
      commit (assign record) = Ok () ∧ db' = <[task_id := assign record]> db
  | None => db' = db
  end.
Proof.
  unfold Server.update_row. destruct query as [[] | |]; [| done | done].
  destruct (db !! task_id) as [record |]; [| by intros [= <-]].
  destruct (commit (assign record)) as [[] | |]; [| done | done].
  by intros [= <-].
Qed.

Lemma update_row_Raise query commit assign task_id db msg db' :
  Server.update_row query commit assign task_id db = (Raise msg, db') →
  db' = db ∧
  (query = Raise msg ∨
   ∃ record, db !! task_id = Some record ∧ commit (assign record) = Raise msg).
Proof.
  unfold Server.update_row. destruct query as [[] | m |]; [| | done].
  - destruct (db !! task_id) as [record |]; [| done].
    destruct (commit (assign record)) as [[] | m |] eqn:Hc; [done | | done].
    intros [= <- <-]. eauto.
  - intros [= <- <-]. eauto.
Qed.

Lemma update_row_table query commit assign task_id db r db' :
  Server.update_row query commit assign task_id db = (r, db') →
  db' = db ∨
  ∃ record, db !! task_id = Some record ∧ db' = <[task_id := assign record]> db.
Proof.
  unfold Server.update_row. destruct query as [[] | m |]; [| intros [= _ <-]; eauto ..].
  destruct (db !! task_id) as [record |]; [| intros [= _ <-]; eauto].
  destruct (commit (assign record)) as [[] | m |]; intros [= _ <-]; eauto.
Qed.

Lemma update_row_frame query commit assign task_id db r db' :
  (∀ record, Server.video_url (assign record) = Server.video_url record ∧
             Server.region (assign record) = Server.region record) →
  Server.update_row query commit assign task_id db = (r, db') →
  only_task_row task_id db db'.
Proof.
  intros Hassign [-> | (record & Hrec & ->)]%update_row_table;
    [apply only_task_row_refl |].
  split; [| split].
  - intros other Hother. by rewrite lookup_insert_ne.
  - intros Hnone. congruence.
  - intros record' Hrec'. assert (record' = record) as -> by congruence.
    exists (assign record). split; [apply lookup_insert_eq | apply Hassign].
Qed.

(** The [try] block: the table and the world it leaves. *)
Lemma attempt_frame ses svc env task_id video_url region db w r db1 w1 :
  Server.attempt format json_loads ses svc env task_id video_url region db w
  = (r, db1, w1) →
  only_task_row task_id db db1.
Proof.
  unfold Server.attempt.
  destruct (Server.update_row _ _ Server.processing _ _) as [[[] | m |] db0] eqn:H0;
    (apply update_row_frame in H0; [| done]).
  - cbn zeta. destruct (Nodes.invoke _ _ _ _ _ _) as [[sf | m |] w0].
    + destruct (Server.update_row _ _ (Server.completed sf) _ _) as [r' db'] eqn:H1.
      apply update_row_frame in H1; [| done].
      intros [= _ <- _]. by eapply only_task_row_trans.
    + by intros [= _ <- _].
    + by intros [= _ <- _].
  - by intros [= _ <- _].
  - by intros [= _ <- _].
Qed.

(** The [try] block when it returns: the graph has returned and its verdict
    is committed. *)
Lemma attempt_Ok ses svc env task_id video_url region db w db1 w1 record :
  db !! task_id = Some record →
  Server.attempt format json_loads ses svc env task_id video_url region db w
  = (Ok (), db1, w1) →
  ∃ sf,
    Nodes.invoke format json_loads svc env
      (Server.initial_inputs ("vid_" +:+ Py.take 8 task_id) video_url region) w
    = (Ok sf, w1) ∧
    db1 = <[task_id := Server.completed sf (Server.processing record)]> db.
Proof.
  intros Hrec. unfold Server.attempt.
  destruct (Server.update_row _ _ Server.processing _ _) as [[[] | m |] db0] eqn:H0;
    [| done | done].
  apply update_row_Ok in H0 as [_ H0]. rewrite Hrec in H0. destruct H0 as [_ ->].
  cbn zeta. destruct (Nodes.invoke _ _ _ _ _ _) as [[sf | m |] w0]; [| done | done].
  destruct (Server.update_row _ _ (Server.completed sf) _ _) as [r' db'] eqn:H1.
  intros [= -> <- <-]. apply update_row_Ok in H1 as [_ H1].
  rewrite lookup_insert_eq in H1. destruct H1 as [_ ->].
  exists sf. split; [done |]. by rewrite insert_insert_eq.
Qed.

(** The [try] block when it raises: the row of the task is as it was or
    [PROCESSING], and the exception is one of a session call of the block
    or of the graph. *)
Lemma attempt_Raise ses svc env task_id video_url region db w msg db1 w1 record :
  db !! task_id = Some record →
  Server.attempt format json_loads ses svc env task_id video_url region db w
  = (Raise msg, db1, w1) →
  (db1 = db ∨ db1 = <[task_id := Server.processing record]> db) ∧
  (Server.query_processing ses = Raise msg ∨
   Server.commit_processing ses (Server.processing record) = Raise msg ∨
   Nodes.invoke format json_loads svc env
     (Server.initial_inputs ("vid_" +:+ Py.take 8 task_id) video_url region) w
   = (Raise msg, w1) ∨
   Server.query_completed ses = Raise msg ∨
   ∃ sf,
     Nodes.invoke format json_loads svc env
       (Server.initial_inputs ("vid_" +:+ Py.take 8 task_id) video_url region) w
     = (Ok sf, w1) ∧
     Server.commit_completed ses (Server.completed sf (Server.processing record))
     = Raise msg).
Proof.
  intros Hrec. unfold Server.attempt.
  destruct (Server.update_row _ _ Server.processing _ _) as [[[] | m |] db0] eqn:H0;
    [| | done].
  - apply update_row_Ok in H0 as [_ H0]. rewrite Hrec in H0. destruct H0 as [_ ->].
    cbn zeta. destruct (Nodes.invoke _ _ _ _ _ _) as [[sf | m |] w0]; [| | done].
    + destruct (Server.update_row _ _ (Server.completed sf) _ _) as [r' db'] eqn:H1.
      intros [= -> <- <-]. apply update_row_Raise in H1 as [-> H1].
      split; [by right |]. destruct H1 as [H1 | (row & Hrow & H1)]; [eauto 10 |].
      rewrite lookup_insert_eq in Hrow. injection Hrow as <-. eauto 10.
    + intros [= <- <- <-]. split; [by right | eauto 10].
  - intros [= <- <- <-]. apply update_row_Raise in H0 as [-> H0].
    split; [by left |]. destruct H0 as [H0 | (row & Hrow & H0)]; [eauto |].
    assert (row = record) as -> by congruence. eauto.
Qed.

(** The input of the worker can always be written: the graph starts with
    no finding and no error. *)
Lemma worker_input vid url region :
  ∃ s0,
    State.merge State.empty (Server.initial_inputs vid url region) = Ok s0 ∧
    State.errors s0 = [] ∧ State.compliance_results s0 = [] ∧
    State.lookup s0 "video_id" = Some (PStr vid).
Proof.
  eexists. split; [apply merge_appendable; reflexivity |].
  split; [reflexivity |]. split; [reflexivity |].
  eapply merge_declared_key;
    [apply merge_appendable; reflexivity | reflexivity | reflexivity].
Qed.

Lemma invoke_unfold svc env input s0 w :
  State.merge State.empty input = Ok s0 →
  Nodes.invoke format json_loads svc env input w
  = Nodes.pipeline format json_loads svc env s0 w.
Proof.
  intros H. unfold Nodes.invoke. rewrite bind_unfold. unfold Eff.lift. by rewrite H.
Qed.

Lemma index_step_never_raises svc (s : State.VideoAuditState) w msg w' :
  Nodes.step (Nodes.index_video_node format svc) s w ≠ (Raise msg, w').
Proof.
  rewrite step_unfold.
  destruct (Nodes.index_video_node format svc s w) as [[u | m |] w1] eqn:Hrun;
    [| by apply index_never_raises_aux in Hrun | done].
  by rewrite (merge_appendable s u (index_update_appendable _ _ _ _ _ _ Hrun)).
Qed.

(** The pipeline raises only in its audit step. *)
Lemma pipeline_Raise_inv svc env (s0 : State.VideoAuditState) w msg w' :
  Nodes.pipeline format json_loads svc env s0 w = (Raise msg, w') →
  ∃ s1 w1,
    Nodes.step (Nodes.index_video_node format svc) s0 w = (Ok s1, w1) ∧
    Nodes.step (Nodes.compliance_audit_node json_loads env) s1 w1 = (Raise msg, w').
Proof.
  unfold Nodes.pipeline.
  intros [H | H]%bind_Raise_inv; [by apply index_step_never_raises in H | done].
Qed.

(** The worker once its session is open, and what it leaves otherwise. *)
Lemma worker_unfold ses svc env task_id video_url region db w r db' w' :
  Server.run_audit_background format json_loads ses svc env task_id video_url
    region db w = (r, db', w') →
  (Server.open_session ses = Ok () ∧
   Server.finally ses
     (Server.handler ses task_id
        (Server.attempt format json_loads ses svc env task_id video_url region db w))
   = (r, db', w')) ∨
  (db' = db ∧ w' = w ∧ r ≠ Ok () ∧
   ∀ msg, r = Raise msg → Server.open_session ses = Raise msg).
Proof.
  unfold Server.run_audit_background.
  destruct (Server.open_session ses) as [[] | m |]; [by left | |];
    intros [= <- <- <-]; right; repeat split; try done; by intros ? [= <-].
Qed.

(** What the [finally] clause does to an outcome. *)
Lemma finally_inv ses (handled : outcome unit * gmap string Server.AuditRecord * world)
    r db' w' :
  Server.finally ses handled = (r, db', w') →
  handled.1.2 = db' ∧ handled.2 = w' ∧
  (r = Ok () → handled.1.1 = Ok ()) ∧
  (∀ msg, r = Raise msg → handled.1.1 = Raise msg ∨ Server.close ses = Raise msg).
Proof.
  destruct handled as [[[[] | m |] db0] w0]; cbn;
    destruct (Server.close ses) as [[] | m' |]; intros [= <- <- <-];
    repeat split; try done; intros ? [= <-]; eauto.
Qed.

(** The row of the task after the worker has returned. *)
Lemma worker_row ses svc env task_id video_url region db w db' w' record :
  db !! task_id = Some record →
  Server.run_audit_background format json_loads ses svc env task_id video_url
    region db w = (Ok (), db', w') →
  (∃ sf,
      Nodes.invoke format json_loads svc env
        (Server.initial_inputs ("vid_" +:+ Py.take 8 task_id) video_url region) w
      = (Ok sf, w') ∧
      db' = <[task_id := Server.completed sf (Server.processing record)]> db) ∨
  (∃ msg,
      db' = <[task_id := Server.failed msg record]> db ∧
      (Server.query_processing ses = Raise msg ∨
       Server.commit_processing ses (Server.processing record) = Raise msg ∨
       Nodes.invoke format json_loads svc env
         (Server.initial_inputs ("vid_" +:+ Py.take 8 task_id) video_url region) w
       = (Raise msg, w') ∨
       Server.query_completed ses = Raise msg ∨
       ∃ sf,
         Nodes.invoke format json_loads svc env
           (Server.initial_inputs ("vid_" +:+ Py.take 8 task_id) video_url region) w
         = (Ok sf, w') ∧
         Server.commit_completed ses (Server.completed sf (Server.processing record))
         = Raise msg)).
Proof.
  intros Hrec [[_ Hrun] | (_ & _ & ? & _)]%worker_unfold; [| done].
  apply finally_inv in Hrun as (Hdb & Hw & Hok & _). specialize (Hok eq_refl).
  destruct (Server.attempt _ _ _ _ _ _ _ _ _ _) as [[[[] | msg |] db1] w1] eqn:Ha;
    cbn [Server.handler fst snd] in *; subst.
  - left. by eapply attempt_Ok.
  - right. exists msg.
    destruct (attempt_Raise _ _ _ _ _ _ _ _ _ _ _ _ Hrec Ha) as [Hdb1 Hcause].
    split; [| exact Hcause].
    destruct (Server.update_row _ _ (Server.failed msg) _ _) as [r2 db2] eqn:H2.
    cbn [fst snd] in *. subst r2. apply update_row_Ok in H2 as [_ H2].
    destruct Hdb1 as [-> | ->].
    + rewrite Hrec in H2. by destruct H2 as [_ ->].
    + rewrite lookup_insert_eq in H2. destruct H2 as [_ ->].
      by rewrite insert_insert_eq.
  - done.
Qed.

End Worker.

(** X15. Whatever the graph and the database session do, the background
    worker changes no row but the row of its task, adds and removes none,
    and keeps the URL and the region of that row; this holds of the table it
    leaves when it raises or hangs too.  When it returns, a row that was
    there is COMPLETED or FAILED, never PROCESSING.  An exception raised in
    its [try] block never leaves it: what the worker raises comes from
    opening the session, from the query or the commit of its [except]
    clause, or from closing the session. *)
Theorem worker_settles_row format json_loads (ses : Server.session) (svc : service)
    (env : audit_env) (task_id video_url region : string)
    (db db' : gmap string Server.AuditRecord) (w w' : world) (r : outcome unit) :
  Server.run_audit_background format json_loads ses svc env task_id video_url
    region db w = (r, db', w') →
  only_task_row task_id db db' ∧
  (r = Ok () →
   ∀ record',
     db' !! task_id = Some record' →
     Server.status record' = "COMPLETED" ∨ Server.status record' = "FAILED") ∧
  (∀ msg,
      r = Raise msg →
      Server.open_session ses = Raise msg ∨
      Server.query_failed ses = Raise msg ∨
      (∃ row, Server.commit_failed ses row = Raise msg) ∨
      Server.close ses = Raise msg).
Proof.
  intros Hrun. split; [| split].
  - apply worker_unfold in Hrun as [[_ Hrun] | (-> & _)];
      [| apply only_task_row_refl].
    apply finally_inv in Hrun as (<- & _ & _ & _).
    destruct (Server.attempt _ _ _ _ _ _ _ _ _ _) as [[tried db1] w1] eqn:Ha.
    apply attempt_frame in Ha.
    destruct tried as [[] | msg |]; cbn [Server.handler fst snd]; [done | | done].
    destruct (Server.update_row _ _ (Server.failed msg) _ _) as [r2 db2] eqn:H2.
    apply update_row_frame in H2; [| done].
    cbn [fst snd]. by eapply only_task_row_trans.
  - intros -> record' Hrec'.
    destruct (db !! task_id) as [record |] eqn:Hrec.
    + destruct (worker_row _ _ _ _ _ _ _ _ _ _ _ _ _ Hrec Hrun)
        as [(sf & _ & ->) | (msg & -> & _)];
        rewrite lookup_insert_eq in Hrec'; injection Hrec' as <-; cbn; auto.
    + apply worker_unfold in Hrun as [[_ Hrun] | (_ & _ & ? & _)]; [| done].
      apply finally_inv in Hrun as (Hdb & _ & _ & _).
      destruct (Server.attempt _ _ _ _ _ _ _ _ _ _) as [[tried db1] w1] eqn:Ha.
      apply attempt_frame in Ha as (_ & Hn1 & _). specialize (Hn1 Hrec). subst db1.
      destruct tried as [[] | msg |]; cbn [Server.handler fst snd] in Hdb;
        [congruence | | congruence].
      destruct (Server.update_row _ _ (Server.failed msg) _ _) as [r2 db2] eqn:H2.
      apply update_row_frame in H2 as (_ & Hn2 & _); [| done].
      cbn [fst snd] in Hdb. rewrite (Hn2 Hrec) in Hdb. congruence.
  - intros msg ->. apply worker_unfold in Hrun as [[_ Hrun] | (_ & _ & _ & Hopen)];
      [| by left; apply Hopen].
    apply finally_inv in Hrun as (_ & _ & _ & Hraise).
    destruct (Hraise msg eq_refl) as [Hh | Hclose]; [| auto].
    destruct (Server.attempt _ _ _ _ _ _ _ _ _ _) as [[[[] | m |] db1] w1];
      cbn [Server.handler fst snd] in Hh; [done | | done].
    destruct (Server.update_row _ _ (Server.failed m) _ _) as [r2 db2] eqn:H2.
    cbn [fst snd] in Hh. subst r2.
    apply update_row_Raise in H2 as [_ [H2 | (row & _ & H2)]]; eauto 6.
Qed.

Lemma worker_settles_row_witness :
  Server.run_audit_background Sample.format
    (λ _, Some (PDict [("status", PDict [])])) Scenario.strict Sample.service_ok
    (Sample.audit_env_with (Ok "{}")) Scenario.task "https://youtu.be/abc" "Global"
    (Scenario.table "https://youtu.be/abc") Sample.start
  = (Raise "This Session's transaction has been rolled back due to a previous exception during flush.",
     {[ Scenario.task := Server.processing (Scenario.pending "https://youtu.be/abc") ]},
     after Sample.start
       ([EvDownload (PStr "https://youtu.be/abc") Nodes.local_filename]
        ++ upload_calls Nodes.local_filename (PStr "vid_1a2b3c4d")
        ++ [EvPathExists Nodes.local_filename; EvRemove Nodes.local_filename]
        ++ check_calls (PStr "vi-42")
        ++ [EvClients; EvSearch (PStr "Global") (PStr "A B C") "SALE" 5;
            EvGenerate])) ∧
  only_task_row Scenario.task (Scenario.table "https://youtu.be/abc")
    {[ Scenario.task := Server.processing (Scenario.pending "https://youtu.be/abc") ]}.
Proof.
  assert (Server.run_audit_background Sample.format
            (λ _, Some (PDict [("status", PDict [])])) Scenario.strict
            Sample.service_ok (Sample.audit_env_with (Ok "{}")) Scenario.task
            "https://youtu.be/abc" "Global" (Scenario.table "https://youtu.be/abc")
            Sample.start
          = (Raise "This Session's transaction has been rolled back due to a previous exception during flush.",
             {[ Scenario.task :=
                  Server.processing (Scenario.pending "https://youtu.be/abc") ]},
             after Sample.start
               ([EvDownload (PStr "https://youtu.be/abc") Nodes.local_filename]
                ++ upload_calls Nodes.local_filename (PStr "vid_1a2b3c4d")
                ++ [EvPathExists Nodes.local_filename; EvRemove Nodes.local_filename]
                ++ check_calls (PStr "vi-42")
                ++ [EvClients; EvSearch (PStr "Global") (PStr "A B C") "SALE" 5;
                    EvGenerate]))) as Hrun by reflexivity.
  split; [exact Hrun |].
  exact (proj1 (worker_settles_row _ _ _ _ _ _ _ _ _ _ _ _ _ Hrun)).
Defined.

(** X16. A row the worker leaves COMPLETED holds the outcome of a pipeline
    run that returned.  Its video id is [vid_] followed by the first eight
    characters of the task id.  Its final status is FAIL or the status of
    the parsed response of the chat model: the default [UNKNOWN] of the
    worker is never stored.  Its errors are none, or one message together
    with the status FAIL; and its findings are a list. *)
Theorem worker_completed_row format json_loads (ses : Server.session)
    (svc : service) (env : audit_env)
    (task_id video_url region : string) (db db' : gmap string Server.AuditRecord)
    (w w' : world) (record record' : Server.AuditRecord) :
  db !! task_id = Some record →
  Server.run_audit_background format json_loads ses svc env task_id video_url
    region db w = (Ok (), db', w') →
  db' !! task_id = Some record' →
  Server.status record' = "COMPLETED" →
  Server.video_id record' = PStr ("vid_" +:+ Py.take 8 task_id) ∧
  (Server.final_status record' = PStr "FAIL" ∨
   ∃ content obj,
     env_generate env = Ok content ∧
     json_loads (Nodes.json_text content) = Some (PDict obj) ∧
     Server.final_status record' = default (PStr "FAIL") (Py.lookup "status" obj)) ∧
  (Server.errors record' = PList [] ∨
   ∃ msg, Server.errors record' = PList [PStr msg] ∧
          Server.final_status record' = PStr "FAIL") ∧
  ∃ findings, Server.compliance_results record' = PList findings.
Proof.
  intros Hrec Hrun Hrec' Hstatus.
  destruct (worker_input ("vid_" +:+ Py.take 8 task_id) video_url region)
    as (s0 & Hm & He & _ & Hid).
  destruct (worker_row _ _ _ _ _ _ _ _ _ _ _ _ _ Hrec Hrun)
    as [(sf & Hp & ->) | (msg & -> & _)];
    rewrite lookup_insert_eq in Hrec'; injection Hrec' as <-; [| done].
  rewrite (invoke_unfold _ _ _ _ _ _ _ Hm) in Hp.
  cbn [Server.video_id Server.final_status Server.errors Server.compliance_results
       Server.completed].
  split; [| split; [| split]].
  - unfold State.get.
    by rewrite (pipeline_keeps _ _ _ _ _ _ _ _ "video_id" Hp ltac:(repeat constructor)),
      Hid.
  - unfold Nodes.pipeline in Hp. apply bind_Ok_inv in Hp as (s1 & w1 & _ & Haudit).
    apply audit_step_status in Haudit as (status & Hs & Hcases).
    unfold State.get. rewrite Hs. exact Hcases.
  - change (State.get sf "errors" (PList [])) with (PList (State.errors sf)).
    destruct (pipeline_errors _ _ _ _ _ _ _ _ Hp) as [-> | (msg & -> & Hs)].
    + left. by rewrite He.
    + right. exists msg. rewrite He. split; [reflexivity |].
      unfold State.get. by rewrite Hs.
  - by exists (State.compliance_results sf).
Qed.

Lemma worker_completed_row_witness :
  ∃ db' record',
    Server.run_audit_background Sample.format Sample.json_loads Scenario.reliable
      Sample.service_ok (Sample.audit_env_with (Ok Sample.pass_json))
      Scenario.task "https://vimeo.com/123" "Global"
      (Scenario.table "https://vimeo.com/123") Sample.start
    = (Ok (), db', Sample.start) ∧
    db' !! Scenario.task = Some record' ∧
    Server.status record' = "COMPLETED" ∧
    Server.video_id record' = PStr ("vid_" +:+ Py.take 8 Scenario.task) ∧
    (Server.final_status record' = PStr "FAIL" ∨
     ∃ content obj,
       env_generate (Sample.audit_env_with (Ok Sample.pass_json)) = Ok content ∧
       Sample.json_loads (Nodes.json_text content) = Some (PDict obj) ∧
       Server.final_status record' = default (PStr "FAIL") (Py.lookup "status" obj)) ∧
    (Server.errors record' = PList [] ∨
     ∃ msg, Server.errors record' = PList [PStr msg] ∧
            Server.final_status record' = PStr "FAIL") ∧
    ∃ findings, Server.compliance_results record' = PList findings.
Proof.
  eexists. eexists. split; [reflexivity |]. split; [reflexivity |].
  split; [reflexivity |].
  eapply (worker_completed_row Sample.format Sample.json_loads Scenario.reliable
            Sample.service_ok (Sample.audit_env_with (Ok Sample.pass_json))
            Scenario.task "https://vimeo.com/123" "Global"
            (Scenario.table "https://vimeo.com/123") _ Sample.start Sample.start
            (Scenario.pending "https://vimeo.com/123"));
    reflexivity.
Defined.

(** X17. A row the worker leaves FAILED records an exception raised in the
    [try] block: by one of the two queries or the two commits of the block,
    or by the graph, and then it is an exception of the audit step, raised
    after an indexing step that returned: an exception in indexing never
    marks the row FAILED.  The message of the exception is all that is
    written beside the status; the verdict columns keep what they had.  So
    when the session calls of the [try] block return, a FAILED row means
    that the audit step raised. *)
Theorem worker_failed_row format json_loads (ses : Server.session) (svc : service)
    (env : audit_env)
    (task_id video_url region : string) (db db' : gmap string Server.AuditRecord)
    (w w' : world) (record record' : Server.AuditRecord) :
  db !! task_id = Some record →
  Server.run_audit_background format json_loads ses svc env task_id video_url
    region db w = (Ok (), db', w') →
  db' !! task_id = Some record' →
  Server.status record' = "FAILED" →
  ∃ msg,
    record' = Server.Row (Server.video_url record) (Server.video_id record) "FAILED"
                (Server.region record) (Server.final_status record)
                (Server.final_report record) (Server.compliance_results record)
                (PList [PStr msg]) ∧
    (Server.query_processing ses = Raise msg ∨
     Server.commit_processing ses (Server.processing record) = Raise msg ∨
     Server.query_completed ses = Raise msg ∨
     (∃ sf,
         Nodes.invoke format json_loads svc env
           (Server.initial_inputs ("vid_" +:+ Py.take 8 task_id) video_url region) w
         = (Ok sf, w') ∧
         Server.commit_completed ses (Server.completed sf (Server.processing record))
         = Raise msg) ∨
     ∃ s0 s1 w1,
       State.merge State.empty
         (Server.initial_inputs ("vid_" +:+ Py.take 8 task_id) video_url region)
       = Ok s0 ∧
       Nodes.step (Nodes.index_video_node format svc) s0 w = (Ok s1, w1) ∧
       Nodes.step (Nodes.compliance_audit_node json_loads env) s1 w1
       = (Raise msg, w')).
Proof.
  intros Hrec Hrun Hrec' Hstatus.
  destruct (worker_input ("vid_" +:+ Py.take 8 task_id) video_url region)
    as (s0 & Hm & _).
  destruct (worker_row _ _ _ _ _ _ _ _ _ _ _ _ _ Hrec Hrun)
    as [(sf & _ & ->) | (msg & -> & Hcause)];
    rewrite lookup_insert_eq in Hrec'; injection Hrec' as <-; [done |].
  exists msg. split; [reflexivity |].
  destruct Hcause as [H | [H | [H | [H | H]]]]; eauto 10.
  rewrite (invoke_unfold _ _ _ _ _ _ _ Hm) in H.
  apply pipeline_Raise_inv in H as (s1 & w1 & Hindex & Haudit).
  right. right. right. right. by exists s0, s1, w1.
Qed.

Lemma worker_failed_row_witness :
  ∃ msg,
    Server.failed "Service unavailable" (Scenario.pending "https://youtu.be/abc")
    = Server.Row "https://youtu.be/abc" PNone "FAILED" (PStr "Global") PNone PNone
        (PList []) (PList [PStr msg]) ∧
    (Server.query_processing Scenario.reliable = Raise msg ∨
     Server.commit_processing Scenario.reliable
       (Server.processing (Scenario.pending "https://youtu.be/abc")) = Raise msg ∨
     Server.query_completed Scenario.reliable = Raise msg ∨
     (∃ sf,
         Nodes.invoke Sample.format Sample.json_loads Sample.service_ok
           (AuditEnv (Ok ()) (Raise "Service unavailable") (Ok Sample.pass_json) false)
           (Server.initial_inputs ("vid_" +:+ Py.take 8 Scenario.task)
              "https://youtu.be/abc" "Global") Sample.start
         = (Ok sf,
            after Sample.start
              ([EvDownload (PStr "https://youtu.be/abc") Nodes.local_filename]
               ++ upload_calls Nodes.local_filename (PStr "vid_1a2b3c4d")
               ++ [EvPathExists Nodes.local_filename; EvRemove Nodes.local_filename]
               ++ check_calls (PStr "vi-42")
               ++ [EvClients; EvSearch (PStr "Global") (PStr "A B C") "SALE" 5])) ∧
         Server.commit_completed Scenario.reliable
           (Server.completed sf
              (Server.processing (Scenario.pending "https://youtu.be/abc")))
         = Raise msg) ∨
     ∃ s0 s1 w1,
       State.merge State.empty
         (Server.initial_inputs ("vid_" +:+ Py.take 8 Scenario.task)
            "https://youtu.be/abc" "Global") = Ok s0 ∧
       Nodes.step (Nodes.index_video_node Sample.format Sample.service_ok) s0
         Sample.start = (Ok s1, w1) ∧
       Nodes.step
         (Nodes.compliance_audit_node Sample.json_loads
            (AuditEnv (Ok ()) (Raise "Service unavailable") (Ok Sample.pass_json)
               false))
         s1 w1
       = (Raise msg,
          after Sample.start
            ([EvDownload (PStr "https://youtu.be/abc") Nodes.local_filename]
             ++ upload_calls Nodes.local_filename (PStr "vid_1a2b3c4d")
             ++ [EvPathExists Nodes.local_filename; EvRemove Nodes.local_filename]
             ++ check_calls (PStr "vi-42")
             ++ [EvClients; EvSearch (PStr "Global") (PStr "A B C") "SALE" 5]))).
Proof.
  apply (worker_failed_row Sample.format Sample.json_loads Scenario.reliable
           Sample.service_ok
           (AuditEnv (Ok ()) (Raise "Service unavailable") (Ok Sample.pass_json) false)
           Scenario.task "https://youtu.be/abc" "Global"
           (Scenario.table "https://youtu.be/abc")
           (<[Scenario.task :=
                Server.failed "Service unavailable"
                  (Scenario.pending "https://youtu.be/abc")]>
              (Scenario.table "https://youtu.be/abc"))
           Sample.start _ (Scenario.pending "https://youtu.be/abc"));
    reflexivity.
Defined.

(** X18. An exception in indexing (a URL that is not supported, a download
    or an upload that fails, a video the analysis service reports as Failed
    or Quarantined) does not mark the row FAILED.  When the session opens,
    answers the two queries and takes the two commits of the [try] block,
    and closes, the worker stores COMPLETED with the final status FAIL, the
    fixed no-content report, no finding, and the message of the exception
    as the only error. *)
Theorem worker_reports_indexing_failure format json_loads (ses : Server.session)
    (svc : service) (env : audit_env) (task_id video_url region : string)
    (db : gmap string Server.AuditRecord) (w w1 : world)
    (record : Server.AuditRecord) (s0 : State.VideoAuditState) (msg : string) :
  db !! task_id = Some record →
  State.merge State.empty
    (Server.initial_inputs ("vid_" +:+ Py.take 8 task_id) video_url region) = Ok s0 →
  Nodes.index_video_node format svc s0 w = (Ok (Nodes.index_failure_update msg), w1) →
  session_commits ses record
    (Server.Row (Server.video_url record)
       (PStr ("vid_" +:+ Py.take 8 task_id)) "COMPLETED"
       (Server.region record) (PStr "FAIL") (PStr Nodes.no_content_report)
       (PList []) (PList [PStr msg])) →
  Server.run_audit_background format json_loads ses svc env task_id video_url
    region db w
  = (Ok (),
     <[task_id :=
         Server.Row (Server.video_url record)
           (PStr ("vid_" +:+ Py.take 8 task_id)) "COMPLETED"
           (Server.region record) (PStr "FAIL") (PStr Nodes.no_content_report)
           (PList []) (PList [PStr msg])]> db,
     w1).
Proof.
  intros Hrec Hm Hindex (Hopen & Hq1 & Hc1 & Hq2 & Hc2 & Hclose).
  destruct (pipeline_index_failure format json_loads svc env s0 w msg w1 Hindex)
    as (sf & Hp & Hstatus & Hreport & Herrors & Hfindings).
  destruct (worker_input ("vid_" +:+ Py.take 8 task_id) video_url region)
    as (s0' & Hm' & He & Hc & Hid).
  assert (s0' = s0) as -> by congruence.
  assert (Server.completed sf (Server.processing record)
          = Server.Row (Server.video_url record)
              (PStr ("vid_" +:+ Py.take 8 task_id)) "COMPLETED"
              (Server.region record) (PStr "FAIL") (PStr Nodes.no_content_report)
              (PList []) (PList [PStr msg])) as Hrow.
  { unfold Server.completed, State.get.
    rewrite (pipeline_keeps _ _ _ _ _ _ _ _ "video_id" Hp ltac:(repeat constructor)).
    rewrite Hid, Hstatus, Hreport.
    change (State.lookup sf "compliance_results")
      with (Some (PList (State.compliance_results sf))).
    change (State.lookup sf "errors") with (Some (PList (State.errors sf))).
    by rewrite Hfindings, Herrors, Hc, He. }
  unfold Server.run_audit_background, Server.attempt, Server.update_row.
  rewrite Hopen, Hq1, Hrec, Hc1. cbn zeta.
  rewrite (invoke_unfold _ _ _ _ _ _ _ Hm), Hp, Hq2, lookup_insert_eq, Hrow, Hc2.
  cbn [Server.handler Server.finally]. rewrite Hclose.
  by rewrite insert_insert_eq.
Qed.

Lemma worker_reports_indexing_failure_witness :
  Server.run_audit_background Sample.format Sample.json_loads Scenario.reliable
    (Sample.service_with (Raise "Connection reset by peer") (Ok ()) [])
    (Sample.audit_env_with (Ok Sample.pass_json))
    Scenario.task "https://youtu.be/abc" "Global"
    (Scenario.table "https://youtu.be/abc") Sample.start
  = (Ok (),
     <[Scenario.task :=
         Server.Row "https://youtu.be/abc" (PStr "vid_1a2b3c4d") "COMPLETED"
           (PStr "Global") (PStr "FAIL") (PStr Nodes.no_content_report)
           (PList []) (PList [PStr "Connection reset by peer"])]>
       (Scenario.table "https://youtu.be/abc"),
     World
       ([EvDownload (PStr "https://youtu.be/abc") Nodes.local_filename]
        ++ upload_calls Nodes.local_filename (PStr "vid_1a2b3c4d"))
       true).
Proof.
  apply (worker_reports_indexing_failure Sample.format Sample.json_loads
           Scenario.reliable
           (Sample.service_with (Raise "Connection reset by peer") (Ok ()) [])
           (Sample.audit_env_with (Ok Sample.pass_json))
           Scenario.task "https://youtu.be/abc" "Global"
           (Scenario.table "https://youtu.be/abc") Sample.start _
           (Scenario.pending "https://youtu.be/abc")
           (Sample.initial "https://youtu.be/abc") "Connection reset by peer");
    [reflexivity | reflexivity | reflexivity | repeat split].
Defined.

(** ** The command-line simulation *)

(** X19. The command-line simulation audits nothing.  Its input has the
    empty string for the video URL, so whatever the services would answer
    the run makes no call at all, never raises, and ends with the status
    FAIL, the fixed no-content report, no finding and one error: the
    message of the service constructor when that raises, the
    unsupported-URL message otherwise. *)
Theorem cli_simulation_audits_nothing format json_loads (svc : service)
    (env : audit_env) (session_id : string) (w : world) :
  ∃ sf msg,
    Main.run_cli_simulation format json_loads svc env session_id w = (Ok sf, w) ∧
    State.lookup sf "final_status" = Some (PStr "FAIL") ∧
    State.lookup sf "final_report" = Some (PStr Nodes.no_content_report) ∧
    State.compliance_results sf = [] ∧
    State.errors sf = [PStr msg] ∧
    msg = default Nodes.unsupported_message (svc_init svc).
Proof.
  pose proof (merge_appendable State.empty (Main.initial_inputs session_id) eq_refl)
    as Hm.
  match type of Hm with _ = Ok ?s => set (s0 := s) in Hm end.
  assert (Nodes.index_video_node format svc s0 w
          = (Ok (Nodes.index_failure_update
                   (default Nodes.unsupported_message (svc_init svc))), w)) as Hindex.
  { rewrite index_unfold. cbn zeta. by destruct (svc_init svc). }
  destruct (pipeline_index_failure format json_loads svc env s0 w _ w Hindex)
    as (sf & Hp & Hstatus & Hreport & Herrors & Hfindings).
  exists sf, (default Nodes.unsupported_message (svc_init svc)).
  split; [| by repeat split].
  unfold Main.run_cli_simulation.
  rewrite try_except_unfold. unfold Nodes.invoke.
  rewrite bind_unfold. unfold Eff.lift. by rewrite Hm, Hp.
Qed.

(** ** The knowledge-base script *)

Section KnowledgeBase.

Variable split_documents :
  list IndexDocuments.Document → list IndexDocuments.Document.

Implicit Types (sc : IndexDocuments.script) (files : list string)
  (all_splits : list IndexDocuments.Document) (calls : list IndexDocuments.call).

(** The loop over the files, when no loader hangs: the chunks of the files
    that load are appended, and one loader call per file is made. *)
Lemma process_files_gathered sc files all_splits calls :
  (∀ doc_path, doc_path ∈ files → IndexDocuments.load sc doc_path ≠ Hang) →
  IndexDocuments.process_files split_documents sc files all_splits calls
  = (Ok (all_splits ++ gathered split_documents sc files), calls ++ load_calls files).
Proof.
  revert all_splits calls.
  induction files as [| doc_path rest IH]; intros all_splits calls Hload.
  { cbn. by rewrite !app_nil_r. }
  assert (∀ p, p ∈ rest → IndexDocuments.load sc p ≠ Hang) as Hrest
    by (intros p Hp; apply Hload; by right).
  assert (IndexDocuments.load sc doc_path ≠ Hang) as Hhead by (apply Hload; by left).
  unfold gathered, load_calls.
  cbn [IndexDocuments.process_files List.map List.concat].
  fold (gathered split_documents sc rest). fold (load_calls rest).
  destruct (IndexDocuments.endswith ".pdf" doc_path); cbn [orb].
  - destruct (IndexDocuments.load sc doc_path) as [raw_docs | msg |]; [| | done];
      rewrite IH by done; by rewrite <- !app_assoc.
  - destruct (IndexDocuments.endswith ".txt" doc_path).
    + destruct (IndexDocuments.load sc doc_path) as [raw_docs | msg |]; [| | done];
        rewrite IH by done; by rewrite <- !app_assoc.
    + by rewrite IH.
Qed.

(** The loop never raises, and only makes loader calls. *)
Lemma process_files_calls sc files all_splits calls :
  ∃ loads,
    (IndexDocuments.process_files split_documents sc files all_splits calls).2
    = calls ++ loads ∧
    forallb (λ c, negb (is_upload c)) loads = true ∧
    ∀ msg, (IndexDocuments.process_files split_documents sc files all_splits calls).1
           ≠ Raise msg.
Proof.
  revert all_splits calls.
  induction files as [| doc_path rest IH]; intros all_splits calls.
  { exists []. cbn. by rewrite app_nil_r. }
  assert (∀ acc c, is_upload c = false →
            ∃ loads,
              (IndexDocuments.process_files split_documents sc rest acc
                 (calls ++ [c])).2 = calls ++ loads ∧
              forallb (λ c, negb (is_upload c)) loads = true ∧
              ∀ msg, (IndexDocuments.process_files split_documents sc rest acc
                        (calls ++ [c])).1 ≠ Raise msg) as Hnext.
  { intros acc c Hc. destruct (IH acc (calls ++ [c])) as (loads & -> & Hloads & Hok).
    exists (c :: loads). rewrite <- app_assoc. split; [done |].
    split; [| done]. cbn. by rewrite Hc. }
  cbn [IndexDocuments.process_files].
  destruct (IndexDocuments.endswith ".pdf" doc_path).
  - destruct (IndexDocuments.load sc doc_path) as [raw_docs | msg |];
      [by apply Hnext | by apply Hnext |].
    by exists [IndexDocuments.LoadPdf doc_path].
  - destruct (IndexDocuments.endswith ".txt" doc_path); [| apply IH].
    destruct (IndexDocuments.load sc doc_path) as [raw_docs | msg |];
      [by apply Hnext | by apply Hnext |].
    by exists [IndexDocuments.LoadText doc_path].
Qed.

(** When the loop returns, it returns the chunks of the files that
    loaded. *)
Lemma process_files_Ok_inv sc files all_splits calls splits calls' :
  IndexDocuments.process_files split_documents sc files all_splits calls
  = (Ok splits, calls') →
  splits = all_splits ++ gathered split_documents sc files.
Proof.
  revert all_splits calls.
  induction files as [| doc_path rest IH]; intros all_splits calls.
  { cbn. intros [= <- _]. by rewrite app_nil_r. }
  unfold gathered. cbn [IndexDocuments.process_files List.map List.concat].
  fold (gathered split_documents sc rest).
  destruct (IndexDocuments.endswith ".pdf" doc_path); cbn [orb].
  - destruct (IndexDocuments.load sc doc_path) as [raw_docs | msg |]; [| | done];
      intros ->%IH; by rewrite <- ?app_assoc.
  - destruct (IndexDocuments.endswith ".txt" doc_path); [| apply IH].
    destruct (IndexDocuments.load sc doc_path) as [raw_docs | msg |]; [| | done];
      intros ->%IH; by rewrite <- ?app_assoc.
Qed.

(** Every chunk gathered from a list of files carries the base name of one
    of them. *)
Lemma gathered_source sc files d :
  d ∈ gathered split_documents sc files →
  ∃ doc_path,
    doc_path ∈ files ∧
    IndexDocuments.metadata d !! "source"
    = Some (PStr (IndexDocuments.basename doc_path)).
Proof.
  unfold gathered. induction files as [| doc_path rest IH]; cbn [List.map List.concat].
  { by intros ?%elem_of_nil. }
  intros [Hd | Hd]%elem_of_app.
  - exists doc_path. split; [by left |].
    destruct (_ || _); [| by apply elem_of_nil in Hd].
    destruct (IndexDocuments.load sc doc_path) as [raw_docs | |];
      [| by apply elem_of_nil in Hd ..].
    apply list_elem_of_In, in_map_iff in Hd as (chunk & <- & _).
    apply lookup_insert_eq.
  - destruct (IH Hd) as (p & Hp & Hsource). exists p. split; [by right | done].
Qed.

End KnowledgeBase.

(** X20. When one of the five required environment variables is unset or
    empty, the knowledge-base script returns at once: no client is built,
    no file is loaded and nothing is uploaded. *)
Theorem index_docs_requires_configuration
    (split_documents : list IndexDocuments.Document → list IndexDocuments.Document)
    (sc : IndexDocuments.script) (var : string) :
  var ∈ IndexDocuments.required_vars →
  IndexDocuments.unset sc var = true →
  IndexDocuments.index_docs split_documents sc = (Ok (), []).
Proof.
  intros Hvar Hunset. unfold IndexDocuments.index_docs.
  assert (var ∈ IndexDocuments.missing_vars sc) as Hmissing.
  { unfold IndexDocuments.missing_vars. apply list_elem_of_In, filter_In.
    split; [by apply list_elem_of_In | done]. }
  destruct (IndexDocuments.missing_vars sc); [by apply elem_of_nil in Hmissing | done].
Qed.

Lemma index_docs_requires_configuration_witness :
  IndexDocuments.index_docs Scenario.whole
    (IndexDocuments.Script
       (λ var, if String.eqb var "AZURE_SEARCH_API_KEY" then Some "" else Some "set")
       (Ok ()) (Ok ()) ["data/rules.pdf"] [] (λ _, Ok []) (Ok ()))
  = (Ok (), []).
Proof.
  apply (index_docs_requires_configuration Scenario.whole _ "AZURE_SEARCH_API_KEY");
    [repeat constructor | reflexivity].
Defined.

(** X21. With the configuration complete, both clients built and no call
    left hanging, the script makes one loader call per [.pdf] or [.txt]
    file, PDFs first, and then uploads in one call the chunks of every file
    whose loader returned, in file order: a file that fails to load is
    skipped and does not stop the others.  When no chunk was gathered
    nothing is uploaded.  An exception of the upload is swallowed. *)
Theorem index_docs_uploads_gathered
    (split_documents : list IndexDocuments.Document → list IndexDocuments.Document)
    (sc : IndexDocuments.script) :
  IndexDocuments.missing_vars sc = [] →
  IndexDocuments.embeddings sc = Ok () →
  IndexDocuments.vector_store sc = Ok () →
  (∀ doc_path, IndexDocuments.load sc doc_path ≠ Hang) →
  IndexDocuments.add_documents sc ≠ Hang →
  let all_files := IndexDocuments.pdf_files sc ++ IndexDocuments.txt_files sc in
  IndexDocuments.index_docs split_documents sc
  = (Ok (),
     [IndexDocuments.Embeddings; IndexDocuments.VectorStore] ++ load_calls all_files ++
     match gathered split_documents sc all_files with
     | [] => []
     | chunks => [IndexDocuments.AddDocuments chunks]
     end).
Proof.
  intros Hvars Hemb Hstore Hload Hadd all_files.
  unfold IndexDocuments.index_docs. rewrite Hvars, Hemb, Hstore.
  rewrite process_files_gathered by (intros p _; apply Hload).
  cbn [app]. fold all_files.
  destruct (gathered split_documents sc all_files) as [| chunk chunks].
  - by rewrite app_nil_r.
  - destruct (IndexDocuments.add_documents sc); [| | done]; reflexivity.
Qed.

Lemma index_docs_uploads_gathered_witness :
  IndexDocuments.index_docs Scenario.whole Scenario.folder
  = (Ok (),
     [ IndexDocuments.Embeddings; IndexDocuments.VectorStore;
       IndexDocuments.LoadPdf "data/rules.pdf";
       IndexDocuments.LoadPdf "data/broken.pdf";
       IndexDocuments.LoadText "data/notes.txt";
       IndexDocuments.AddDocuments
         [ IndexDocuments.Doc "Rule 1" {[ "source" := PStr "rules.pdf" ]};
           IndexDocuments.Doc "Rule 2" {[ "source" := PStr "rules.pdf" ]};
           IndexDocuments.Doc "Note" {[ "source" := PStr "notes.txt" ]} ] ]).
Proof.
  etrans;
    [apply (index_docs_uploads_gathered Scenario.whole Scenario.folder);
       [reflexivity | reflexivity | reflexivity | | discriminate] |
     reflexivity].
  intros doc_path. cbn.
  destruct (String.eqb doc_path "data/rules.pdf"); [discriminate |].
  destruct (String.eqb doc_path "data/notes.txt"); discriminate.
Defined.

(** X22. Whatever its surroundings, the script never raises; it uploads at
    most once, as its last call, and never an empty batch; and every chunk
    it uploads carries under [source] the base name of one of the files it
    found. *)
Theorem index_docs_uploads_once
    (split_documents : list IndexDocuments.Document → list IndexDocuments.Document)
    (sc : IndexDocuments.script) :
  (∀ msg, (IndexDocuments.index_docs split_documents sc).1 ≠ Raise msg) ∧
  (∀ chunks,
      IndexDocuments.AddDocuments chunks
        ∈ (IndexDocuments.index_docs split_documents sc).2 →
      chunks ≠ [] ∧
      (∃ calls,
          (IndexDocuments.index_docs split_documents sc).2
          = calls ++ [IndexDocuments.AddDocuments chunks] ∧
          forallb (λ c, negb (is_upload c)) calls = true) ∧
      ∀ d, d ∈ chunks →
           ∃ doc_path,
             doc_path ∈ IndexDocuments.pdf_files sc ++ IndexDocuments.txt_files sc ∧
             IndexDocuments.metadata d !! "source"
             = Some (PStr (IndexDocuments.basename doc_path))).
Proof.
  unfold IndexDocuments.index_docs.
  destruct (IndexDocuments.missing_vars sc).
  2:{ split; [done |]. by intros chunks ?%elem_of_nil. }
  assert (∀ chunks calls,
            forallb (λ c, negb (is_upload c)) calls = true →
            IndexDocuments.AddDocuments chunks ∉ calls) as Hnone.
  { intros chunks calls Hcalls Hin.
    rewrite forallb_forall in Hcalls.
    by apply list_elem_of_In, Hcalls in Hin. }
  destruct (IndexDocuments.embeddings sc) as [[] | msg |].
  2,3: split; [done |]; intros chunks Hin;
    by apply (Hnone chunks [IndexDocuments.Embeddings] eq_refl) in Hin.
  destruct (IndexDocuments.vector_store sc) as [[] | msg |].
  2,3: split; [done |]; intros chunks Hin;
    by apply (Hnone chunks [IndexDocuments.Embeddings; IndexDocuments.VectorStore]
                eq_refl) in Hin.
  set (all_files := IndexDocuments.pdf_files sc ++ IndexDocuments.txt_files sc).
  destruct (process_files_calls split_documents sc all_files []
              [IndexDocuments.Embeddings; IndexDocuments.VectorStore])
    as (loads & Hcalls & Hloads & Hok).
  assert (forallb (λ c, negb (is_upload c))
            ([IndexDocuments.Embeddings; IndexDocuments.VectorStore] ++ loads) = true)
    as Hall by done.
  destruct (IndexDocuments.process_files _ _ _ _ _) as [[all_splits | msg |] calls]
    eqn:Hrun; cbn [fst snd] in *; subst calls.
  - apply process_files_Ok_inv in Hrun. cbn [app] in Hrun.
    destruct all_splits as [| chunk chunks'].
    { split; [done |]. intros chunks Hin. by apply Hnone in Hin. }
    split; [by destruct (IndexDocuments.add_documents sc) |].
    intros chunks Hin.
    assert (IndexDocuments.AddDocuments chunks
              ∈ ([IndexDocuments.Embeddings; IndexDocuments.VectorStore] ++ loads)
                ++ [IndexDocuments.AddDocuments (chunk :: chunks')]) as Hin'
      by (by destruct (IndexDocuments.add_documents sc)).
    apply elem_of_app in Hin' as [Hin' | Hin']; [by apply Hnone in Hin' |].
    apply list_elem_of_singleton in Hin'. injection Hin' as ->.
    split; [done |]. split.
    + exists ([IndexDocuments.Embeddings; IndexDocuments.VectorStore] ++ loads).
      split; [by destruct (IndexDocuments.add_documents sc) | done].
    + intros d Hd. rewrite Hrun in Hd. by eapply gathered_source.
  - by destruct (Hok msg).
  - split; [done |]. intros chunks Hin. by apply Hnone in Hin.
Qed.

(** ** The calls of the audit node *)

Section AuditCalls.

Variable json_loads : string → option pyval.

Implicit Types (env : audit_env) (s : State.VideoAuditState) (w : world).

Lemma bind_lift {A B} (o : outcome A) (k : A → M B) w :
  (Eff.lift o ≫= k) w =
    match o with
    | Ok a => k a w
    | Raise msg => (Raise msg, w)
    | Hang => (Hang, w)
    end.
Proof. by destruct o. Qed.

(** Retrieval either stops after the construction of the clients, without
    documents, or makes the one similarity search and ends as it ends. *)
Lemma retrieve_cases env (region transcript ocr_text : pyval) w :
  (∃ o, Nodes.retrieve env region transcript ocr_text w = (o, after w [EvClients]) ∧
        ∀ docs, o ≠ Ok docs) ∨
  (∃ transcript_prefix ocr_joined,
      env_clients env = Ok () ∧
      Nodes.retrieve env region transcript ocr_text w
      = (env_search env,
         after w [EvClients; EvSearch region transcript_prefix ocr_joined 5])).
Proof.
  unfold Nodes.retrieve. rewrite bind_unfold, call_unfold.
  destruct (env_clients env) as [[] | msg |]; [| left; by eexists .. ].
  cbn beta iota. rewrite bind_lift.
  destruct (Py.slice 500 transcript) as [tp | msg |]; [| left; by eexists ..].
  rewrite bind_lift.
  destruct (Py.slice 200 ocr_text) as [op | msg |]; [| left; by eexists ..].
  rewrite bind_lift.
  destruct (Py.iter op) as [items | msg |]; [| left; by eexists ..].
  rewrite bind_lift.
  destruct (Py.join_values " " items) as [oj | msg |]; [| left; by eexists ..].
  right. exists tp, oj. split; [done |].
  by rewrite call_unfold, after_after.
Qed.

End AuditCalls.

(** X23. The calls of the audit node, on any state: it builds the clients,
    makes one similarity search with the region of the state and [k = 5],
    and asks the chat model once, in this order, stopping at the first call
    that does not return.  The chat model is asked only after the search
    has returned documents, and it is never asked twice.  A run in which it
    was asked raises in one case only: the chat model itself raised a
    [json.JSONDecodeError], and the exception that leaves the node is the
    [UnboundLocalError] of the clause that handles that class. *)
Theorem audit_call_order json_loads (env : audit_env) (s : State.VideoAuditState)
    (w : world) :
  ∃ calls transcript_prefix ocr_joined,
    (Nodes.compliance_audit_node json_loads env s w).2 = after w calls ∧
    calls `prefix_of`
      [EvClients;
       EvSearch (State.get s "region" (PStr "Global")) transcript_prefix ocr_joined 5;
       EvGenerate] ∧
    (EvGenerate ∈ calls →
     calls = [EvClients;
              EvSearch (State.get s "region" (PStr "Global")) transcript_prefix
                ocr_joined 5;
              EvGenerate] ∧
     no_content s = false ∧
     env_clients env = Ok () ∧
     (∃ docs, env_search env = Ok docs) ∧
     ∀ msg,
       (Nodes.compliance_audit_node json_loads env s w).1 = Raise msg ↔
       (∃ m, env_generate env = Raise m) ∧ env_decode_error env = true ∧
       msg = Nodes.unbound_local "response").
Proof.
  rewrite audit_node_unfold.
  destruct (no_content s).
  { exists [], PNone, "". cbn [snd]. rewrite after_nil. split; [done |].
    split; [by eexists |]. by intros ?%elem_of_nil. }
  destruct (retrieve_cases env (State.get s "region" (PStr "Global"))
              (State.get s "transcript" (PStr "")) (State.get s "ocr_text" (PList []))
              w) as [(o & -> & Ho) | (tp & oj & Hclients & ->)].
  - exists [EvClients], PNone, "".
    split; [by destruct o as [docs | |]; [destruct (Ho docs) | |] |].
    split; [by eexists [_; _] |].
    rewrite list_elem_of_singleton. discriminate.
  - destruct (env_search env) as [docs | msg |] eqn:Hsearch.
    + exists [EvClients; EvSearch (State.get s "region" (PStr "Global")) tp oj 5;
              EvGenerate], tp, oj.
      assert (∃ r, Nodes.verdict json_loads env
                     (after w [EvClients;
                               EvSearch (State.get s "region" (PStr "Global")) tp oj 5])
                   = (r, after w [EvClients;
                                  EvSearch (State.get s "region" (PStr "Global")) tp oj 5;
                                  EvGenerate]) ∧
                   ∀ msg, r = Raise msg ↔
                          (∃ m, env_generate env = Raise m) ∧
                          env_decode_error env = true ∧
                          msg = Nodes.unbound_local "response") as (r & -> & Hr).
      { rewrite verdict_unfold, after_after.
        destruct (env_generate env) as [content | m |].
        - destruct (json_loads (Nodes.json_text content)) as [[] |];
            eexists; (split; [reflexivity |]); intros msg;
            (split; [done | by intros [[? ?] _]]).
        - destruct (env_decode_error env); eexists; (split; [reflexivity |]);
            intros msg.
          + split; [intros [= <-]; eauto | by intros (_ & _ & ->)].
          + split; [done | by intros (_ & ? & _)].
        - eexists. split; [reflexivity |]. intros msg.
          split; [done | by intros [[? ?] _]]. }
      split; [done |]. split; [done |]. intros _.
      repeat (split; [done |]). split; [by exists docs | exact Hr].
    + exists [EvClients; EvSearch (State.get s "region" (PStr "Global")) tp oj 5],
        tp, oj.
      split; [done |]. split; [by eexists [_] |].
      rewrite !elem_of_cons, elem_of_nil. intros [? | [? | []]]; discriminate.
    + exists [EvClients; EvSearch (State.get s "region" (PStr "Global")) tp oj 5],
        tp, oj.
      split; [done |]. split; [by eexists [_] |].
      rewrite !elem_of_cons, elem_of_nil. intros [? | [? | []]]; discriminate.
Qed.

(** ** The account token *)

(** X24. What the exchange for an account token comes to.  It returns only
    when the service answered HTTP 200 with a JSON object, and what it
    returns is the [accessToken] of that object, or [None] when the object
    has none: a missing token is no error here.  An answer with another
    status raises with the body of the answer in the message.  Either way
    exactly one request is made. *)
Theorem account_token_outcomes (ts : token_script) (arm_access_token : pyval)
    (w : world) :
  (VideoIndexer.get_account_token ts arm_access_token w).2 = after w [EvTokenExchange] ∧
  (∀ token,
      (VideoIndexer.get_account_token ts arm_access_token w).1 = Ok token ↔
      ∃ r d,
        ts_exchange ts = Ok r ∧ status_code r = 200 ∧ json r = Ok (PDict d) ∧
        token = default PNone (Py.lookup "accessToken" d)) ∧
  (∀ r,
      ts_exchange ts = Ok r → status_code r ≠ 200 →
      (VideoIndexer.get_account_token ts arm_access_token w).1
      = Raise ("Failed to get VI account access tokenn : response: " +:+ text r)).
Proof.
  rewrite !get_account_token_unfold. unfold exchange_result. cbn [fst snd].
  split; [done |]. split.
  - intros token. destruct (ts_exchange ts) as [r | msg |].
    + destruct (status_code r =? 200) eqn:Hcode; cbn [negb].
      * apply Z.eqb_eq in Hcode. split.
        -- destruct (json r) as [[| | | | | d] | |] eqn:Hj; try done.
           intros [= <-]. by exists r, d.
        -- intros (r' & d & [= <-] & _ & -> & ->). done.
      * apply Z.eqb_neq in Hcode. split; [done |].
        by intros (r' & d & [= <-] & ? & _).
    + split; [done | by intros (r' & d & ? & _)].
    + split; [done | by intros (r' & d & ? & _)].
  - intros r -> Hcode. apply Z.eqb_neq in Hcode. by rewrite Hcode.
Qed.
